(** * ai-teacher-assistant: document staging, context caches and lesson-plan schemas

    A shallow embedding of

    - [src/tools/context_cache.py]   (file staging to Cloud Storage, Vertex AI
      context caches: create / info / delete),
    - [src/tools/datastore_upload.py] (the search-indexing upload path),
    - [src/schemas/lesson_plan.py]   (the pydantic request and lesson-plan models
      and their validators),

    followed by the properties proved about them.

    Conventions.  Python [int] is [Z]; [str] is [string] (file names and
    messages are ASCII here); [bytes] is [list byte]; a [dict] used as a map is
    a [gmap]; an exception is a value of [Exn] carrying its class and its
    [str()] text; code that talks to the outside world runs in the monad [Io]
    over an explicit [World]. *)

From Stdlib Require Import ZArith List String Ascii Strings.Byte Lia Bool.
From Stdlib Require Import Sorting.Permutation Sorting.Sorted.
From stdpp Require Import base option list gmap strings pretty.
Import ListNotations.

#[local] Open Scope Z_scope.


(* ===================================================================== *)
(** * Part I.  The embedding                                              *)
(* ===================================================================== *)

(** ** hashlib.sha256

    [_compute_file_hash] folds the file into [hashlib.sha256()]; the digest
    is FIPS 180-4 SHA-256, written out here over 32-bit words held in [Z]. *)
Module SHA256.

Definition mask32 : Z := 0xffffffff.

(** The round constants and the initial hash value are defined by the
    standard as the first 32 bits of the fractional parts of the cube roots
    of the first 64 primes, respectively of the square roots of the first 8.
    They are computed here from that definition. *)
Definition is_prime (n : Z) : bool :=
  forallb (fun d => negb (n mod Z.of_nat d =? 0)) (seq 2 (Z.to_nat n - 2)).

Definition primes : list Z :=
  Eval vm_compute in firstn 64 (List.filter is_prime (map Z.of_nat (seq 2 400))).

(** The largest [r' >= r] with [r' ^ k <= n] that differs from [r] in the
    low [bits] bits only. *)
Fixpoint root_bits (k n : Z) (bits : nat) (r : Z) : Z :=
  match bits with
  | O => r
  | S b =>
      let candidate := r + 2 ^ Z.of_nat b in
      if candidate ^ k <=? n then root_bits k n b candidate else root_bits k n b r
  end.

(** The first 32 bits of the fractional part of the [k]-th root of [p]. *)
Definition root_fraction (k p : Z) : Z :=
  Z.land (root_bits k (p * 2 ^ (32 * k)) 40 0) mask32.

Definition K : list Z := Eval vm_compute in map (root_fraction 3) primes.

Definition H0 : list Z := Eval vm_compute in map (root_fraction 2) (firstn 8 primes).


Definition add32 (a b : Z) : Z := Z.land (a + b) mask32.

Definition rotr (n x : Z) : Z :=
  Z.land (Z.lor (Z.shiftr x n) (Z.shiftl x (32 - n))) mask32.

Definition Ch (x y z : Z) : Z :=
  Z.lxor (Z.land x y) (Z.land (Z.lxor x mask32) z).

Definition Maj (x y z : Z) : Z :=
  Z.lxor (Z.lxor (Z.land x y) (Z.land x z)) (Z.land y z).

Definition Sigma0 (x : Z) : Z := Z.lxor (Z.lxor (rotr 2 x) (rotr 13 x)) (rotr 22 x).
Definition Sigma1 (x : Z) : Z := Z.lxor (Z.lxor (rotr 6 x) (rotr 11 x)) (rotr 25 x).
Definition sigma0 (x : Z) : Z := Z.lxor (Z.lxor (rotr 7 x) (rotr 18 x)) (Z.shiftr x 3).
Definition sigma1 (x : Z) : Z := Z.lxor (Z.lxor (rotr 17 x) (rotr 19 x)) (Z.shiftr x 10).

(** Message padding: a [0x80] byte, zeros up to 56 mod 64, then the bit
    length as a 64-bit big-endian integer. *)
Definition pad (msg : list Z) : list Z :=
  let len := Z.of_nat (List.length msg) in
  let zeros := Z.to_nat ((55 - len) mod 64) in
  let bits := 8 * len in
  msg ++ [0x80] ++ repeat 0 zeros
      ++ map (fun i => Z.land (Z.shiftr bits (8 * i)) 0xff) [7; 6; 5; 4; 3; 2; 1; 0].

(** Big-endian 32-bit words of a block. *)
Fixpoint words (bs : list Z) : list Z :=
  match bs with
  | b0 :: b1 :: b2 :: b3 :: rest =>
      (Z.shiftl b0 24 + Z.shiftl b1 16 + Z.shiftl b2 8 + b3) :: words rest
  | _ => []
  end.

(** The message schedule; [rev_w] holds W[t-1], W[t-2], ... newest first. *)
Fixpoint schedule (n : nat) (rev_w : list Z) : list Z :=
  match n with
  | O => rev rev_w
  | S n' =>
      let w := add32 (add32 (sigma1 (nth 1 rev_w 0)) (nth 6 rev_w 0))
                     (add32 (sigma0 (nth 14 rev_w 0)) (nth 15 rev_w 0)) in
      schedule n' (w :: rev_w)
  end.

Definition round (s : list Z) (kw : Z * Z) : list Z :=
  match s with
  | [a; b; c; d; e; f; g; h] =>
      let t1 := add32 (add32 (add32 h (Sigma1 e)) (add32 (Ch e f g) (fst kw))) (snd kw) in
      let t2 := add32 (Sigma0 a) (Maj a b c) in
      [add32 t1 t2; a; b; c; add32 d t1; e; f; g]
  | _ => s
  end.

Definition compress (h : list Z) (block : list Z) : list Z :=
  let w := schedule 48 (rev (words block)) in
  let s := fold_left round (combine K w) h in
  map (fun p => add32 (fst p) (snd p)) (combine h s).

Fixpoint blocks (fuel : nat) (bs : list Z) : list (list Z) :=
  match fuel, bs with
  | S fuel', _ :: _ => firstn 64 bs :: blocks fuel' (skipn 64 bs)
  | _, _ => []
  end.

Definition hex_digit (d : Z) : ascii :=
  nth (Z.to_nat d) (list_ascii_of_string "0123456789abcdef") "0"%char.

Definition hex_word (w : Z) : list ascii :=
  map (fun i => hex_digit (Z.land (Z.shiftr w (4 * i)) 0xf)) [7; 6; 5; 4; 3; 2; 1; 0].

Definition digest_words (msg : list byte) : list Z :=
  let bs := pad (map (fun b => Z.of_N (Byte.to_N b)) msg) in
  fold_left compress (blocks (List.length bs) bs) H0.

Definition hexdigest_of (msg : list byte) : string :=
  string_of_list_ascii (List.concat (map hex_word (digest_words msg))).

(** The hash object: [update] appends, [hexdigest] hashes what was fed. *)
Definition t : Type := list byte.
Definition new : t := [].
Definition update (h : t) (block : list byte) : t := h ++ block.
Definition hexdigest (h : t) : string := hexdigest_of h.

End SHA256.

(** ** Python strings and exceptions *)
Module Py.

(** [str.lower] on ASCII text. *)
Definition lower_char (c : ascii) : ascii :=
  let n := nat_of_ascii c in
  if (65 <=? n)%nat && (n <=? 90)%nat then ascii_of_nat (n + 32) else c.

Fixpoint lower (s : string) : string :=
  match s with
  | EmptyString => EmptyString
  | String c s' => String (lower_char c) (lower s')
  end.

(** A [string] holds the UTF-8 encoding of a Python [str].  A character is
    a byte that starts one together with the continuation bytes [10xxxxxx]
    that follow it. *)
Definition is_continuation (c : ascii) : bool :=
  let n := nat_of_ascii c in (128 <=? n)%nat && (n <? 192)%nat.

(** [len(s)]: the number of characters. *)
Fixpoint len (s : string) : nat :=
  match s with
  | EmptyString => O
  | String c s' => ((if is_continuation c then 0 else 1) + len s')%nat
  end.

(** [s[:n]]: the first [n] characters. *)
Fixpoint slice_to (n : nat) (s : string) : string :=
  match s with
  | EmptyString => EmptyString
  | String c s' =>
      if is_continuation c then String c (slice_to n s')
      else match n with
           | O => EmptyString
           | S n' => String c (slice_to n' s')
           end
  end.

(** [sub in s]. *)
Fixpoint contains (sub s : string) : bool :=
  String.prefix sub s ||
  match s with
  | EmptyString => false
  | String _ s' => contains sub s'
  end.

(** [sep.join(parts)]. *)
Fixpoint join (sep : string) (parts : list string) : string :=
  match parts with
  | [] => ""
  | [p] => p
  | p :: rest => p +:+ sep +:+ join sep rest
  end.

(** [s.rfind(c)]: the last index of [c] in [s], if any. *)
Fixpoint rfind (c : ascii) (s : string) : option nat :=
  match s with
  | EmptyString => None
  | String c' s' =>
      match rfind c s' with
      | Some i => Some (S i)
      | None => if Ascii.eqb c c' then Some O else None
      end
  end.

(** The exception classes that occur in the modelled code. *)
Inductive ExnClass : Type :=
| ContextCacheError            (* src/tools/context_cache.py *)
| DatastoreUploadError         (* src/tools/datastore_upload.py *)
| ValueError
| IndexError
| TypeError
| AttributeError
| OSError
| ServiceError.                (* raised by a Google Cloud client library *)

Record Exn : Type := mkExn { exn_class : ExnClass; str : string }.

#[global] Instance ExnClass_eq_dec : EqDecision ExnClass.
Proof. solve_decision. Defined.

(** The outcome of a call: a value returned or an exception raised. *)
Inductive Result (A : Type) : Type :=
| Ok (a : A)
| Raise (e : Exn).
Arguments Ok {A} a.
Arguments Raise {A} e.

End Py.

(** ** pathlib.Path

    A path is its directory part and its final component; only [name],
    [suffix], [stem] and [str()] are used by the code. *)
Module pathlib.

Record Path : Type := mkPath { parent : string; name : string }.

(** [str(path)]. *)
Definition to_str (p : Path) : string :=
  if String.eqb (parent p) "" then name p
  else if String.eqb (parent p) "/" then "/" +:+ name p
  else parent p +:+ "/" +:+ name p.

(** [PurePath.suffix]: from the last dot of the name on, when that dot is
    neither the first nor the last character. *)
Definition suffix (p : Path) : string :=
  match Py.rfind "."%char (name p) with
  | Some i =>
      if (0 <? i)%nat && (i <? String.length (name p) - 1)%nat
      then String.substring i (String.length (name p) - i) (name p)
      else ""
  | None => ""
  end.

(** [PurePath.stem]. *)
Definition stem (p : Path) : string :=
  match Py.rfind "."%char (name p) with
  | Some i =>
      if (0 <? i)%nat && (i <? String.length (name p) - 1)%nat
      then String.substring 0 i (name p)
      else name p
  | None => name p
  end.

End pathlib.


(** ** The outside world: local files, Cloud Storage, Vertex AI

    The Google client libraries are not part of the repository.  They are
    modelled by their effect on a [World]:

    - [files]: the local file system (regular files only), by [str(path)];
    - [blobs]: Cloud Storage objects, by bucket and blob name;
    - [caches]: Vertex AI context caches, by resource name, each with the
      time it expires at; [now] is the service's clock;
    - [documents]: Vertex AI Search documents, by branch and document id;
    - [calls]: every request sent over the network, oldest first;
    - [faults]: what the network does to the coming requests: [Some msg]
      makes the next request raise with text [msg], [None] lets it through. *)
Module Cloud.
Export Py pathlib.

(** The fields of [Settings] (src/config/settings.py) read by the tools. *)
Record Settings : Type := mkSettings {
  google_cloud_project : string;
  google_cloud_region : string;
  specialist_model : string;
  vertex_ai_search_datastore_id : option string
}.

(** [Part.from_uri(uri, mime_type=...)] and [Content(parts=[...])]. *)
Record Part : Type := Part_from_uri { file_uri : string; mime_type : string }.
Record Content : Type := mkContent { parts : list Part }.

Record CachedContent : Type := mkCachedContent {
  cc_name : string;
  cc_model_name : string;
  cc_system_instruction : string;
  cc_contents : list Content;
  cc_expire_time : Z;
  cc_display_name : string
}.

(** [discoveryengine.Document]. *)
Record Document : Type := mkDocument {
  doc_id : string;
  doc_uri : string;
  doc_mime_type : string;
  doc_title : string;
  doc_file_type : string
}.

(** A request sent to a remote service. *)
Inductive Call : Type :=
| BlobExists (bucket blob : string)
| BlobUpload (bucket blob : string) (filename : string)
| CachedContentCreate (model_name instruction : string) (contents : list Content)
                      (ttl : Z) (display_name : string)
| CachedContentGet (name : string)
| CachedContentDelete (name : string)
| CreateDocument (parent : string) (document : Document).

Record World : Type := mkWorld {
  files : gmap string (list byte);
  blobs : gmap (string * string) (list byte);
  caches : gmap string CachedContent;
  documents : gmap (string * string) Document;
  now : Z;
  next_cache_id : nat;
  calls : list Call;
  faults : list (option string)
}.

(** Effectful code: a world transformer that returns or raises. *)
Definition Io (A : Type) : Type := World -> Result A * World.

Definition ret {A : Type} (a : A) : Io A := fun w => (Ok a, w).

Definition raise {A : Type} (e : Exn) : Io A := fun w => (Raise e, w).

Definition bind {A B : Type} (m : Io A) (k : A -> Io B) : Io B :=
  fun w =>
    match m w with
    | (Ok a, w') => k a w'
    | (Raise e, w') => (Raise e, w')
    end.

(** [try: m  except Exception as e: h e]. *)
Definition try_except {A : Type} (m : Io A) (h : Exn -> Io A) : Io A :=
  fun w =>
    match m w with
    | (Ok a, w') => (Ok a, w')
    | (Raise e, w') => h e w'
    end.

Notation "'let*' x ':=' m 'in' k" := (bind m (fun x => k))
  (at level 10, x name, m at level 100, k at level 200).

Definition get_world : Io World := fun w => (Ok w, w).

(** The world after a request was sent: the request is logged and the
    network's verdict on it consumed. *)
Definition sent (c : Call) (w : World) : World :=
  mkWorld (files w) (blobs w) (caches w) (documents w) (now w)
          (next_cache_id w) (calls w ++ [c]) (tail (faults w)).

Definition with_blobs (b : gmap (string * string) (list byte)) (w : World) : World :=
  mkWorld (files w) b (caches w) (documents w) (now w) (next_cache_id w) (calls w) (faults w).

Definition with_caches (c : gmap string CachedContent) (next : nat) (w : World) : World :=
  mkWorld (files w) (blobs w) c (documents w) (now w) next (calls w) (faults w).

Definition with_documents (d : gmap (string * string) Document) (w : World) : World :=
  mkWorld (files w) (blobs w) (caches w) d (now w) (next_cache_id w) (calls w) (faults w).

(** Sending a request: it is logged, and the network may fail it. *)
Definition remote (c : Call) : Io unit :=
  fun w =>
    match faults w with
    | Some msg :: _ => (Raise (mkExn ServiceError msg), sent c w)
    | _ => (Ok tt, sent c w)
    end.

(** *** Local files *)

(** [path.exists()]. *)
Definition path_exists (p : Path) : Io bool :=
  let* w := get_world in
  ret (bool_decide (is_Some (files w !! to_str p))).

(** [open(path, "rb")] followed by reading it to the end. *)
Definition read_bytes (filename : string) : Io (list byte) :=
  let* w := get_world in
  match files w !! filename with
  | Some data => ret data
  | None =>
      raise (mkExn OSError ("[Errno 2] No such file or directory: '" +:+ filename +:+ "'"))
  end.

(** *** google.cloud.storage *)

(** [bucket.blob(name).exists()]. *)
Definition blob_exists (bucket blob : string) : Io bool :=
  let* _ := remote (BlobExists bucket blob) in
  let* w := get_world in
  ret (bool_decide (is_Some (blobs w !! (bucket, blob)))).

(** [bucket.blob(name).upload_from_filename(filename)]. *)
Definition blob_upload_from_filename (bucket blob filename : string) : Io unit :=
  let* data := read_bytes filename in
  let* _ := remote (BlobUpload bucket blob filename) in
  fun w => (Ok tt, with_blobs (<[(bucket, blob) := data]> (blobs w)) w).

(** *** vertexai.preview.caching *)

(** A cache the service still serves: stored and not yet expired. *)
Definition live_cache (w : World) (name : string) : option CachedContent :=
  match caches w !! name with
  | Some c => if now w <? cc_expire_time c then Some c else None
  | None => None
  end.

(** Modelled from the spec: the managed-context collaborator's [create]
    (the Vertex AI service behind [caching.CachedContent.create] is not in
    the repository).  A cache with a fresh name is stored, expiring [ttl]
    after [now].  Whether the service refuses some requests, one with a TTL
    that is not positive say, cannot be told from the repository: a refusal
    is one of the failures that [faults] stands for. *)
Definition CachedContent_create (model_name instruction : string) (contents : list Content)
    (ttl : Z) (display_name : string) : Io CachedContent :=
  let* _ := remote (CachedContentCreate model_name instruction contents ttl display_name) in
  fun w =>
    let c := mkCachedContent ("cachedContents/" +:+ pretty (next_cache_id w)) model_name
                             instruction contents (now w + ttl) display_name in
    (Ok c, with_caches (<[cc_name c := c]> (caches w)) (S (next_cache_id w)) w).

(** Modelled from the spec: the collaborator's [get], reached through the
    constructor [caching.CachedContent(cached_content_name=...)], which
    fetches the resource: a handle that is missing or expired is reported
    not found, the two cases alike. *)
Definition CachedContent_get (cached_content_name : string) : Io CachedContent :=
  let* _ := remote (CachedContentGet cached_content_name) in
  let* w := get_world in
  match live_cache w cached_content_name with
  | Some c => ret c
  | None => raise (mkExn ServiceError ("404 Not found: " +:+ cached_content_name))
  end.

(** Modelled from the spec: the collaborator's [delete] ([cache.delete()]),
    idempotent on the service's side. *)
Definition CachedContent_delete (c : CachedContent) : Io unit :=
  let* _ := remote (CachedContentDelete (cc_name c)) in
  fun w => (Ok tt, with_caches (delete (cc_name c) (caches w)) (next_cache_id w) w).

(** Time passing on the service's side. *)
Definition advance (dt : Z) (w : World) : World :=
  mkWorld (files w) (blobs w) (caches w) (documents w) (now w + dt)
          (next_cache_id w) (calls w) (faults w).

(** *** google.cloud.discoveryengine *)

(** [client.create_document(request)]: refused when the id is taken. *)
Definition create_document (parent : string) (document : Document) (document_id : string)
    : Io string :=
  let* _ := remote (CreateDocument parent document) in
  let* w := get_world in
  match documents w !! (parent, document_id) with
  | Some _ => raise (mkExn ServiceError ("409 Document " +:+ document_id +:+ " already exists."))
  | None =>
      fun w =>
        (Ok (parent +:+ "/documents/" +:+ document_id),
         with_documents (<[(parent, document_id) := document]> (documents w)) w)
  end.

End Cloud.

(** ** src/tools/context_cache.py *)
Module context_cache.
Import Cloud.

Definition SUPPORTED_EXTENSIONS : list string := [".pdf"; ".pptx"; ".docx"; ".txt"; ".md"].

(** [timedelta(hours=1)]; durations are counted in seconds. *)
Definition DEFAULT_CACHE_TTL : Z := 3600.

(** [iter(lambda: f.read(size), b"")]: the blocks read until the empty one. *)
Fixpoint read_blocks (fuel : nat) (size : nat) (data : list byte) : list (list byte) :=
  match fuel, data with
  | S fuel', _ :: _ => firstn size data :: read_blocks fuel' size (skipn size data)
  | _, _ => []
  end.

Definition _compute_file_hash (file_path : Path) : Io string :=
  let* data := read_bytes (to_str file_path) in
  let sha256_hash :=
    fold_left SHA256.update (read_blocks (List.length data) 4096 data) SHA256.new in
  ret (SHA256.hexdigest sha256_hash).

(** The body of the [for file_path in files] loop of [upload_files_to_gcs],
    with [gcs_uris] the list built so far.  The text after "Supported: "
    joins a Python set, whose order is not fixed; the listed order stands
    for it. *)
Fixpoint upload_files_loop (bucket_name : string) (files : list Path) (gcs_uris : list string)
    : Io (list string) :=
  match files with
  | [] => ret gcs_uris
  | file_path :: rest =>
      let* present := path_exists file_path in
      if negb present then
        raise (mkExn ContextCacheError ("File not found: " +:+ to_str file_path))
      else if negb (bool_decide (Py.lower (suffix file_path) ∈ SUPPORTED_EXTENSIONS)) then
        raise (mkExn ContextCacheError
                 ("Unsupported file type: " +:+ suffix file_path +:+ ". Supported: "
                  +:+ Py.join ", " SUPPORTED_EXTENSIONS))
      else
        let* file_hash := _compute_file_hash file_path in
        let blob_name := "lesson-materials/" +:+ file_hash +:+ "/" +:+ name file_path in
        let* present_in_gcs := blob_exists bucket_name blob_name in
        let* _ := (if negb present_in_gcs
                   then blob_upload_from_filename bucket_name blob_name (to_str file_path)
                   else ret tt) in
        let gcs_uri := "gs://" +:+ bucket_name +:+ "/" +:+ blob_name in
        upload_files_loop bucket_name rest (gcs_uris ++ [gcs_uri])
  end.

(** Creating the storage client and the bucket handle sends nothing. *)
Definition upload_files_to_gcs (files : list Path) (settings : Settings) (bucket_name : string)
    : Io (list string) :=
  try_except
    (upload_files_loop bucket_name files [])
    (fun e => raise (mkExn ContextCacheError ("GCS upload failed: " +:+ str e))).

Definition default_bucket_name : string := "teacher-assistant-uploads".

Definition default_instruction : string :=
  "You are analyzing course materials including lecture slides, "
  +:+ "textbooks, and curriculum documents. Use these documents to "
  +:+ "generate detailed, accurate lesson plans that align with the "
  +:+ "content and learning objectives presented in the materials.".

(** [files] is [None] when the caller passes no list ([len(None)] raises);
    [vertexai.init] only records the project and the region. *)
Definition create_context_cache (files : option (list Path)) (settings : Settings)
    (system_instruction : option string) (ttl : Z) : Io string :=
  try_except
    (let* files := (match files with
                    | Some fs => ret fs
                    | None => raise (mkExn TypeError "object of type 'NoneType' has no len()")
                    end) in
     let* gcs_uris := upload_files_to_gcs files settings default_bucket_name in
     let contents :=
       map (fun uri => mkContent [Part_from_uri uri "application/pdf"]) gcs_uris in
     let instruction_text :=
       match system_instruction with
       | Some text => if String.eqb text "" then default_instruction else text
       | None => default_instruction
       end in
     let* first := (match files with
                    | f :: _ => ret f
                    | [] => raise (mkExn IndexError "list index out of range")
                    end) in
     let* cache := CachedContent_create (specialist_model settings) instruction_text contents
                                        ttl ("lesson-materials-" +:+ stem first) in
     ret (cc_name cache))
    (fun e => raise (mkExn ContextCacheError ("Cache creation failed: " +:+ str e))).

(** The dictionary returned by [get_cache_info].  [str(cache.expire_time)]
    is the text of a [datetime]; here it is the text of the same instant
    counted in seconds. *)
Record CacheInfo : Type := mkCacheInfo {
  info_name : string;
  info_model : string;
  info_expire_time : string;
  info_display_name : string
}.

Definition get_cache_info (cache_name : string) (settings : Settings) : Io CacheInfo :=
  try_except
    (let* cache := CachedContent_get cache_name in
     ret (mkCacheInfo (cc_name cache) (cc_model_name cache) (pretty (cc_expire_time cache))
                      (if String.eqb (cc_display_name cache) "" then "N/A"
                       else cc_display_name cache)))
    (fun e => raise (mkExn ContextCacheError ("Failed to retrieve cache info: " +:+ str e))).

Definition delete_cache (cache_name : string) (settings : Settings) : Io unit :=
  try_except
    (let* cache := CachedContent_get cache_name in
     CachedContent_delete cache)
    (fun e => raise (mkExn ContextCacheError ("Cache deletion failed: " +:+ str e))).

End context_cache.

(** ** src/tools/datastore_upload.py *)
Module datastore_upload.
Import Cloud.

Definition SUPPORTED_EXTENSIONS : list string :=
  [".pdf"; ".pptx"; ".docx"; ".txt"; ".md"; ".html"].

Definition upload_file_to_gcs (file_path : Path) (settings : Settings) (bucket_name : string)
    : Io string :=
  try_except
    (let blob_name := "curriculum/" +:+ name file_path in
     let* present_in_gcs := blob_exists bucket_name blob_name in
     let* _ := (if negb present_in_gcs
                then blob_upload_from_filename bucket_name blob_name (to_str file_path)
                else ret tt) in
     ret ("gs://" +:+ bucket_name +:+ "/" +:+ blob_name))
    (fun e => raise (mkExn DatastoreUploadError
                       ("Failed to upload " +:+ name file_path +:+ ": " +:+ str e))).

Definition _get_mime_type (file_path : Path) : string :=
  let mime_types : list (string * string) :=
    [ (".pdf", "application/pdf");
      (".pptx", "application/vnd.openxmlformats-officedocument.presentationml.presentation");
      (".docx", "application/vnd.openxmlformats-officedocument.wordprocessingml.document");
      (".txt", "text/plain");
      (".md", "text/markdown");
      (".html", "text/html") ] in
  match find (fun kv => String.eqb (fst kv) (Py.lower (suffix file_path))) mime_types with
  | Some kv => snd kv
  | None => "application/octet-stream"
  end.

(** The [for file_path in files] loop of [upload_to_datastore]; a file that
    is missing or of an unsupported type is logged and skipped. *)
Fixpoint upload_to_datastore_loop (settings : Settings) (parent : string) (files : list Path)
    (uploaded_docs : gmap string string) : Io (gmap string string) :=
  match files with
  | [] => ret uploaded_docs
  | file_path :: rest =>
      let* present := path_exists file_path in
      if negb present then
        upload_to_datastore_loop settings parent rest uploaded_docs
      else if negb (bool_decide (Py.lower (suffix file_path) ∈ SUPPORTED_EXTENSIONS)) then
        upload_to_datastore_loop settings parent rest uploaded_docs
      else
        let* gcs_uri := upload_file_to_gcs file_path settings "teacher-assistant-uploads" in
        let doc_id := stem file_path in
        let document := mkDocument doc_id gcs_uri (_get_mime_type file_path)
                                   (name file_path) (suffix file_path) in
        let* uploaded_docs' :=
          try_except
            (let* response_name := create_document parent document doc_id in
             ret (<[name file_path := response_name]> uploaded_docs))
            (fun e =>
               if Py.contains "already exists" (Py.lower (str e))
               then ret (<[name file_path := doc_id]> uploaded_docs)
               else raise e) in
        upload_to_datastore_loop settings parent rest uploaded_docs'
  end.

Definition upload_to_datastore (files : list Path) (settings : Settings)
    : Io (gmap string string) :=
  try_except
    (let* datastore_id :=
       (match vertex_ai_search_datastore_id settings with
        | Some id => ret id
        | None => raise (mkExn AttributeError "'NoneType' object has no attribute 'split'")
        end) in
     let parent := datastore_id +:+ "/branches/default_branch" in
     upload_to_datastore_loop settings parent files ∅)
    (fun e => raise (mkExn DatastoreUploadError ("Upload failed: " +:+ str e))).

End datastore_upload.

(** ** pydantic: what the models of lesson_plan.py rely on

    A model is validated field by field, in declaration order; every field
    that fails contributes error details (its location, the rule broken and
    the value received) and the model is built only when no field failed. *)
Module pydantic.
Import Py.

(** The value received for a field, as an error reports it. *)
Inductive Input : Type :=
| InInt (value : Z)
| InStr (value : string)
| InList (len : nat).

(** The error types of pydantic-core that the declared constraints raise,
    and [value_error] for a [ValueError] raised by a field validator. *)
Inductive ErrorType : Type :=
| greater_than_equal (ge : Z)
| less_than_equal (le : Z)
| string_too_short (min_length : nat)
| too_short (min_length : nat) (actual_length : nat)
| value_error (msg : string).

Record ErrorDetails : Type := mkError {
  loc : list string;
  type_ : ErrorType;
  input : Input
}.

(** A model instance, or the [ValidationError] listing what failed. *)
Inductive Validation (A : Type) : Type :=
| Valid (a : A)
| Invalid (errors : list ErrorDetails).
Arguments Valid {A} a.
Arguments Invalid {A} errors.

(** The end of a model's validation: the instance when no field failed,
    the collected errors otherwise. *)
Definition model_or_errors {A : Type} (errors : list ErrorDetails) (model : A)
    : Validation A :=
  match errors with
  | [] => Valid model
  | _ => Invalid errors
  end.

Definition at_loc (outer : list string) (errors : list ErrorDetails) : list ErrorDetails :=
  map (fun e => mkError (outer ++ loc e) (type_ e) (input e)) errors.

(** [Field(..., ge=lo)] and [Field(..., ge=lo, le=hi)] on an [int]. *)
Definition check_ge (field : string) (lo : Z) (v : Z) : list ErrorDetails :=
  if v <? lo then [mkError [field] (greater_than_equal lo) (InInt v)] else [].

Definition check_ge_le (field : string) (lo hi : Z) (v : Z) : list ErrorDetails :=
  if v <? lo then [mkError [field] (greater_than_equal lo) (InInt v)]
  else if hi <? v then [mkError [field] (less_than_equal hi) (InInt v)]
  else [].

(** [Field(..., min_length=n)] on a [str] and on a [list]. *)
Definition check_str_min_length (field : string) (n : nat) (v : string) : list ErrorDetails :=
  if (Py.len v <? n)%nat then [mkError [field] (string_too_short n) (InStr v)] else [].

Definition check_list_min_length {A : Type} (field : string) (n : nat) (v : list A)
    : list ErrorDetails :=
  if (List.length v <? n)%nat
  then [mkError [field] (too_short n (List.length v)) (InList (List.length v))]
  else [].

(** A [list[Model]] field: each item is validated, the errors of item [i]
    located under index [i]. *)
Fixpoint validate_items {A : Type} (validate : A -> Validation A) (i : nat) (items : list A)
    : list ErrorDetails * list A :=
  match items with
  | [] => ([], [])
  | x :: rest =>
      let r := validate_items validate (S i) rest in
      match validate x with
      | Valid y => (fst r, y :: snd r)
      | Invalid errors => (at_loc [pretty i] errors ++ fst r, snd r)
      end
  end.

(** A nested model field. *)
Definition validate_nested {A : Type} (field : string) (validate : A -> Validation A) (x : A)
    : list ErrorDetails :=
  match validate x with
  | Valid _ => []
  | Invalid errors => at_loc [field] errors
  end.

(** A [field_validator] run after the field's own validation. *)
Definition after_validator {A : Type} (field : string) (received : Input) (r : Result A)
    : list ErrorDetails :=
  match r with
  | Ok _ => []
  | Raise e => [mkError [field] (value_error (str e)) received]
  end.

End pydantic.

(** ** src/schemas/lesson_plan.py *)
Module lesson_plan.
Import Py pydantic.

Inductive Difficulty : Type := LOW | MEDIUM | HARD.
Inductive TeachingApproach : Type := INQUIRY_BASED | DIRECT | PROJECT_BASED | MIXED.
Inductive AssessmentType : Type := FORMATIVE | SUMMATIVE | DIAGNOSTIC.
Inductive ResourceType : Type := VIDEO | ARTICLE | INTERACTIVE | DATASET | TOOL.

Record LessonPlanRequest : Type := mkLessonPlanRequest {
  topic : string;
  grade : string;
  lecture_duration : Z;
  total_periods : Z;
  difficulty : Difficulty;
  teaching_approach : TeachingApproach;
  prior_knowledge : string;
  lab_required : bool;
  programming_language : option string;
  resource_files : list pathlib.Path;
  cached_content_name : option string;
  additional_context : option string
}.

Definition validate_programming_language_for_labs (v : option string) : option string := v.

(** Constructing a [LessonPlanRequest] from the given field values. *)
Definition LessonPlanRequest_model_validate (data : LessonPlanRequest)
    : Validation LessonPlanRequest :=
  model_or_errors
    (check_str_min_length "topic" 3 (topic data)
     ++ check_ge_le "lecture_duration" 30 180 (lecture_duration data)
     ++ check_ge_le "total_periods" 1 30 (total_periods data))
    (mkLessonPlanRequest
       (topic data) (grade data) (lecture_duration data) (total_periods data)
       (difficulty data) (teaching_approach data) (prior_knowledge data)
       (lab_required data)
       (validate_programming_language_for_labs (programming_language data))
       (resource_files data) (cached_content_name data) (additional_context data)).

Record TimelineSegment : Type := mkTimelineSegment {
  start_minute : Z;
  duration : Z;
  activity : string;
  instructor_notes : option string
}.

Definition end_minute (self : TimelineSegment) : Z := start_minute self + duration self.

Definition TimelineSegment_model_validate (data : TimelineSegment)
    : Validation TimelineSegment :=
  model_or_errors
    (check_ge "start_minute" 0 (start_minute data)
     ++ check_ge "duration" 1 (duration data))
    data.

Record Activity : Type := mkActivity {
  activity_title : string;
  activity_description : string;
  activity_duration : Z;
  materials_needed : list string;
  instructions : list string;
  learning_outcomes : list string
}.

Definition Activity_model_validate (data : Activity) : Validation Activity :=
  model_or_errors
    (check_ge "duration" 1 (activity_duration data))
    data.

Record Assessment : Type := mkAssessment {
  assessment_type : AssessmentType;
  assessment_title : string;
  assessment_description : string;
  questions_or_tasks : list string;
  rubric : option string;
  assessment_estimated_time : Z
}.

Definition Assessment_model_validate (data : Assessment) : Validation Assessment :=
  model_or_errors
    (check_ge "estimated_time" 1 (assessment_estimated_time data))
    data.

Record Differentiation : Type := mkDifferentiation {
  support_strategies : list string;
  challenge_strategies : list string;
  accommodations : list string
}.

Definition Differentiation_model_validate (data : Differentiation)
    : Validation Differentiation := Valid data.

Record Homework : Type := mkHomework {
  homework_title : string;
  homework_description : string;
  tasks : list string;
  homework_estimated_time : Z;
  due_date_offset : Z;
  resources_needed : list string
}.

Definition Homework_model_validate (data : Homework) : Validation Homework :=
  model_or_errors
    (check_ge "estimated_time" 5 (homework_estimated_time data))
    data.

(** [sorted(items, key=key)]: a stable sort, here by insertion. *)
Fixpoint insert_by {A : Type} (key : A -> Z) (x : A) (l : list A) : list A :=
  match l with
  | [] => [x]
  | y :: l' => if key x <=? key y then x :: y :: l' else y :: insert_by key x l'
  end.

Definition sorted {A : Type} (items : list A) (key : A -> Z) : list A :=
  fold_right (insert_by key) [] items.

(** The loop [for i in range(len(sorted_segments) - 1)] of
    [validate_timeline_continuity], with [n] iterations left from index [i]. *)
Fixpoint continuity_loop (sorted_segments : list TimelineSegment) (n i : nat) : Result unit :=
  match n with
  | O => Ok tt
  | S n' =>
      match sorted_segments !! i, sorted_segments !! (i + 1)%nat with
      | Some current, Some next =>
          let current_end := end_minute current in
          let next_start := start_minute next in
          if negb (current_end =? next_start) then
            Raise (mkExn ValueError
                     ("Timeline gap detected: segment ends at " +:+ pretty current_end
                      +:+ " but next starts at " +:+ pretty next_start))
          else continuity_loop sorted_segments n' (S i)
      | _, _ => Raise (mkExn IndexError "list index out of range")
      end
  end.

Definition validate_timeline_continuity (segments : list TimelineSegment)
    : Result (list TimelineSegment) :=
  match segments with
  | [] => Raise (mkExn ValueError "Timeline cannot be empty")
  | _ =>
      let sorted_segments := sorted segments start_minute in
      match continuity_loop sorted_segments (List.length sorted_segments - 1) 0 with
      | Raise e => Raise e
      | Ok _ => Ok sorted_segments
      end
  end.

Record LecturePeriod : Type := mkLecturePeriod {
  period_number : Z;
  title : string;
  learning_objectives : list string;
  materials : list string;
  detailed_timeline : list TimelineSegment;
  detailed_activities : list Activity;
  assessment : Assessment;
  differentiation : Differentiation;
  homework : Homework
}.

(** The [detailed_timeline] field: the segments are validated one by one,
    and only when all are valid does [validate_timeline_continuity] run; its
    return value is what the model stores. *)
Definition validate_detailed_timeline (segments : list TimelineSegment)
    : list ErrorDetails * list TimelineSegment :=
  match validate_items TimelineSegment_model_validate 0 segments with
  | ([], valid_segments) =>
      match validate_timeline_continuity valid_segments with
      | Ok stored => ([], stored)
      | Raise e =>
          (after_validator "detailed_timeline" (InList (List.length segments))
                           (@Raise unit e), [])
      end
  | (errors, _) => (at_loc ["detailed_timeline"] errors, [])
  end.

Definition LecturePeriod_model_validate (data : LecturePeriod) : Validation LecturePeriod :=
  let timeline := validate_detailed_timeline (detailed_timeline data) in
  let activities := validate_items Activity_model_validate 0 (detailed_activities data) in
  model_or_errors
    (check_ge "period_number" 1 (period_number data)
     ++ check_list_min_length "learning_objectives" 2 (learning_objectives data)
     ++ fst timeline
     ++ (match fst activities with
         | [] => check_list_min_length "detailed_activities" 1 (detailed_activities data)
         | errors => at_loc ["detailed_activities"] errors
         end)
     ++ validate_nested "assessment" Assessment_model_validate (assessment data)
     ++ validate_nested "differentiation" Differentiation_model_validate
                        (differentiation data)
     ++ validate_nested "homework" Homework_model_validate (homework data))
    (mkLecturePeriod
       (period_number data) (title data) (learning_objectives data) (materials data)
       (snd timeline) (snd activities) (assessment data) (differentiation data)
       (homework data)).

Record ResourceLink : Type := mkResourceLink {
  resource_title : string;
  url : string;
  resource_type : ResourceType;
  resource_description : string;
  recommended_for : list Z
}.

Record CompleteLessonPlan : Type := mkCompleteLessonPlan {
  generated_at : Z;
  course_title : string;
  course_description : string;
  request : LessonPlanRequest;
  lectures : list LecturePeriod;
  resource_links : list ResourceLink;
  progression_map : string;
  prerequisites_summary : string;
  learning_outcomes_summary : list string
}.

(** [validate_lecture_count(lectures, info)], with [info.data.get("request")]
    the request when that field, validated before [lectures], was valid. *)
Definition validate_lecture_count (lectures : list LecturePeriod)
    (info_data_request : option LessonPlanRequest) : Result (list LecturePeriod) :=
  match info_data_request with
  | Some request =>
      if negb (Z.of_nat (List.length lectures) =? total_periods request) then
        Raise (mkExn ValueError
                 ("Expected " +:+ pretty (total_periods request) +:+ " lectures, got "
                  +:+ pretty (Z.of_nat (List.length lectures))))
      else Ok lectures
  | None => Ok lectures
  end.

Section CompleteLessonPlan.

(** pydantic's [HttpUrl]: the normalised URL that is stored for a string it
    accepts (["https://example.com"] is stored as ["https://example.com/"]),
    [None] for a string it rejects.  URL parsing is not part of the
    repository. *)
Variable HttpUrl : string -> option string.

Definition ResourceLink_model_validate (data : ResourceLink) : Validation ResourceLink :=
  match HttpUrl (url data) with
  | Some stored_url =>
      Valid (mkResourceLink (resource_title data) stored_url (resource_type data)
                            (resource_description data) (recommended_for data))
  | None =>
      Invalid [mkError ["url"] (value_error "Input should be a valid URL") (InStr (url data))]
  end.

(** The [lectures] field: items first, then [min_length=1], then
    [validate_lecture_count]. *)
Definition validate_lectures (lectures : list LecturePeriod)
    (info_data_request : option LessonPlanRequest) : list ErrorDetails * list LecturePeriod :=
  match validate_items LecturePeriod_model_validate 0 lectures with
  | ([], valid_lectures) =>
      match check_list_min_length "lectures" 1 valid_lectures with
      | [] =>
          match validate_lecture_count valid_lectures info_data_request with
          | Ok stored => ([], stored)
          | Raise e =>
              (after_validator "lectures" (InList (List.length lectures)) (@Raise unit e), [])
          end
      | errors => (errors, [])
      end
  | (errors, _) => (at_loc ["lectures"] errors, [])
  end.

Definition CompleteLessonPlan_model_validate (data : CompleteLessonPlan)
    : Validation CompleteLessonPlan :=
  let validated_request := LessonPlanRequest_model_validate (request data) in
  let info_data_request :=
    match validated_request with Valid r => Some r | Invalid _ => None end in
  let lectures_field := validate_lectures (lectures data) info_data_request in
  let links := validate_items ResourceLink_model_validate 0 (resource_links data) in
  model_or_errors
    (validate_nested "request" LessonPlanRequest_model_validate (request data)
     ++ fst lectures_field
     ++ at_loc ["resource_links"] (fst links))
    (mkCompleteLessonPlan
       (generated_at data) (course_title data) (course_description data)
       (match validated_request with Valid r => r | Invalid _ => request data end)
       (snd lectures_field) (snd links) (progression_map data)
       (prerequisites_summary data) (learning_outcomes_summary data)).

End CompleteLessonPlan.

Record ClarificationQuestion : Type := mkClarificationQuestion {
  question : string;
  field_name : string;
  suggestions : list string;
  required : bool
}.

Record ClarificationRequest : Type := mkClarificationRequest {
  message : string;
  questions : list ClarificationQuestion
}.

Definition ClarificationRequest_model_validate (data : ClarificationRequest)
    : Validation ClarificationRequest :=
  model_or_errors
    (check_list_min_length "questions" 1 (questions data))
    data.

End lesson_plan.

(** ** src/tools/search_tool.py *)
Module search_tool.
Import Py pydantic lesson_plan.

#[global] Instance ResourceType_eq_dec : EqDecision ResourceType.
Proof. solve_decision. Defined.

(** The values of the [ResourceType] enum (src/schemas/lesson_plan.py), and
    [ResourceType(value)], which raises [ValueError] on any other string. *)
Definition ResourceType_value (rt : ResourceType) : string :=
  match rt with
  | VIDEO => "video"
  | ARTICLE => "article"
  | INTERACTIVE => "interactive"
  | DATASET => "dataset"
  | TOOL => "tool"
  end.

Definition ResourceType_members : list ResourceType :=
  [VIDEO; ARTICLE; INTERACTIVE; DATASET; TOOL].

Definition ResourceType_of_value (value : string) : Result ResourceType :=
  match find (fun rt => String.eqb (ResourceType_value rt) value) ResourceType_members with
  | Some rt => Ok rt
  | None => Raise (mkExn ValueError ("'" +:+ value +:+ "' is not a valid ResourceType"))
  end.

(** [ResourceSearchTool.build_search_query]. *)
Definition build_search_query (topic grade : string) (resource_type : ResourceType) : string :=
  let type_keywords : list (ResourceType * string) :=
    [ (VIDEO, "educational video tutorial");
      (ARTICLE, "lesson article guide");
      (INTERACTIVE, "interactive simulation game");
      (DATASET, "dataset download data");
      (TOOL, "educational tool software") ] in
  let keywords :=
    match find (fun kv => bool_decide (fst kv = resource_type)) type_keywords with
    | Some kv => snd kv
    | None => "educational resource"
    end in
  topic +:+ " " +:+ grade +:+ " " +:+ keywords.

Definition create_resource_search_query (topic grade resource_type : string) : string :=
  let rt :=
    match ResourceType_of_value (Py.lower resource_type) with
    | Ok rt => rt
    | Raise _ => VIDEO
    end in
  build_search_query topic grade rt.

(** [bool(v)] for the value of [dict.get]: [None] and the empty string are
    false. *)
Definition truthy (v : option string) : bool :=
  match v with
  | Some (String _ _) => true
  | _ => false
  end.

Section parse.

(** pydantic's [HttpUrl], as in the lesson-plan schemas. *)
Variable HttpUrl : string -> option string.

(** [ResourceSearchTool.parse_search_results], on search results whose
    values are strings.  A result whose [ResourceLink] fails validation is
    logged and left out. *)
Definition parse_search_results (results : list (gmap string string))
    (resource_type : ResourceType) : list ResourceLink :=
  fold_left
    (fun parsed_links result =>
       let url := if truthy (result !! "url") then result !! "url" else result !! "link" in
       if negb (truthy url) then parsed_links
       else
         match ResourceLink_model_validate HttpUrl
                 (mkResourceLink (default "Untitled Resource" (result !! "title"))
                                 (default "" url) resource_type
                                 (Py.slice_to 200 (default "" (result !! "snippet")))
                                 []) with
         | Valid resource => parsed_links ++ [resource]
         | Invalid _ => parsed_links
         end)
    (firstn 5 results) [].

End parse.

End search_tool.

(* ===================================================================== *)
(** * Part II.  Properties                                                *)
(* ===================================================================== *)

(** ** The lesson-plan schemas *)
Module lesson_plan_proofs.
Import Py pydantic lesson_plan.

(** *** [sorted]: a stable sort *)
Section Sorted.
Context {A : Type} (key : A -> Z).

Definition key_le (a b : A) : Prop := key a <= key b.

Lemma insert_by_perm (x : A) (l : list A) : Permutation (x :: l) (insert_by key x l).
Proof.
  induction l as [|y l IH]; simpl.
  - reflexivity.
  - destruct (key x <=? key y).
    + reflexivity.
    + rewrite perm_swap. now apply perm_skip.
Qed.

Lemma sorted_perm (l : list A) : Permutation l (sorted l key).
Proof.
  induction l as [|x l IH]; simpl.
  - constructor.
  - etransitivity; [apply perm_skip, IH | apply insert_by_perm].
Qed.

Lemma sorted_length (l : list A) : List.length (sorted l key) = List.length l.
Proof. symmetry. apply Permutation_length, sorted_perm. Qed.

Lemma insert_by_hdrel (a x : A) (l : list A) :
  key_le a x -> HdRel key_le a l -> HdRel key_le a (insert_by key x l).
Proof.
  intros Hax Hal. destruct l as [|y l]; simpl.
  - now constructor.
  - destruct (key x <=? key y); constructor; trivial.
    now inversion Hal.
Qed.

Lemma insert_by_sorted (x : A) (l : list A) :
  Sorted key_le l -> Sorted key_le (insert_by key x l).
Proof.
  induction 1 as [|y l Hl IH Hy]; simpl.
  - repeat constructor.
  - destruct (key x <=? key y) eqn:E.
    + apply Z.leb_le in E. repeat constructor; trivial.
    + apply Z.leb_gt in E. constructor; trivial.
      apply insert_by_hdrel; trivial. unfold key_le. lia.
Qed.

Lemma sorted_Sorted (l : list A) : Sorted key_le (sorted l key).
Proof.
  induction l as [|x l IH]; simpl.
  - constructor.
  - now apply insert_by_sorted.
Qed.

Lemma sorted_StronglySorted (l : list A) : StronglySorted key_le (sorted l key).
Proof.
  apply Sorted_StronglySorted; [|apply sorted_Sorted].
  intros a b c. unfold key_le. lia.
Qed.



Lemma sorted_nil_iff (l : list A) : sorted l key = [] <-> l = [].
Proof.
  split; intros H.
  - apply (f_equal (@List.length A)) in H. rewrite sorted_length in H.
    now destruct l.
  - now subst.
Qed.

End Sorted.

(** *** The continuity loop *)


(** Position [j] of [l] is a boundary where the earlier segment ends exactly
    where the next one starts. *)
Definition joined_at (l : list TimelineSegment) (j : nat) : Prop :=
  exists a b, l !! j = Some a /\ l !! (j + 1)%nat = Some b /\ end_minute a = start_minute b.


Lemma continuity_loop_ok (l : list TimelineSegment) (n i : nat) :
  continuity_loop l n i = Ok tt <-> (forall j, (i <= j < i + n)%nat -> joined_at l j).
Proof.
  revert i. induction n as [|n IH]; intros i; simpl.
  - split; trivial. intros _ j Hj. lia.
  - destruct (l !! i) as [a|] eqn:Ea.
    2:{ split; [discriminate|]. intros H.
        destruct (H i) as (a & b & Ha & _); [lia|]. congruence. }
    destruct (l !! (i + 1)%nat) as [b|] eqn:Eb.
    2:{ split; [discriminate|]. intros H.
        destruct (H i) as (a' & b & _ & Hb & _); [lia|]. congruence. }
    destruct (end_minute a =? start_minute b) eqn:E; simpl.
    + apply Z.eqb_eq in E. rewrite IH. split; intros H j Hj.
      * destruct (decide (j = i)) as [->|Hne].
        -- now exists a, b.
        -- apply H. lia.
      * apply H. lia.
    + apply Z.eqb_neq in E. split; [discriminate|]. intros H.
      destruct (H i) as (a' & b' & Ha & Hb & Hab); [lia|]. congruence.
Qed.


(** Every boundary of [l] is joined. *)
Definition tiles (l : list TimelineSegment) : Prop :=
  forall j a b, l !! j = Some a -> l !! (j + 1)%nat = Some b -> end_minute a = start_minute b.

Lemma tiles_joined (l : list TimelineSegment) :
  tiles l <-> (forall j, (0 <= j < 0 + (List.length l - 1))%nat -> joined_at l j).
Proof.
  split.
  - intros H j Hj.
    destruct (lookup_lt_is_Some_2 l j) as [a Ea]; [lia|].
    destruct (lookup_lt_is_Some_2 l (j + 1)%nat) as [b Eb]; [lia|].
    exists a, b. eauto.
  - intros H j a b Ea Eb.
    apply lookup_lt_Some in Eb as Hlt.
    destruct (H j) as (a' & b' & Ea' & Eb' & Hab); [lia|]. congruence.
Qed.

Lemma validate_timeline_continuity_ok (segments stored : list TimelineSegment) :
  validate_timeline_continuity segments = Ok stored
  <-> segments <> [] /\ stored = sorted segments start_minute
      /\ tiles (sorted segments start_minute).
Proof.
  unfold validate_timeline_continuity.
  destruct segments as [|s segments]; [split; [discriminate | intros [[] _]; trivial]|].
  set (l := sorted (s :: segments) start_minute).
  destruct (continuity_loop l (List.length l - 1) 0) as [[]|e] eqn:E.
  - rewrite continuity_loop_ok, <- tiles_joined in E.
    split; [intros [= <-]; auto | intros (_ & -> & _); trivial].
  - split; [discriminate|]. intros (_ & _ & H).
    rewrite tiles_joined, <- continuity_loop_ok in H. congruence.
Qed.


(** *** Building a model *)

Lemma model_or_errors_valid {A : Type} (errors : list ErrorDetails) (model a : A) :
  model_or_errors errors model = Valid a <-> errors = [] /\ a = model.
Proof.
  unfold model_or_errors. destruct errors; split.
  - intros [= <-]. auto.
  - intros [_ ->]. reflexivity.
  - discriminate.
  - intros [[=] _].
Qed.

Lemma model_or_errors_invalid {A : Type} (errors es : list ErrorDetails) (model : A) :
  model_or_errors errors model = Invalid es <-> errors <> [] /\ es = errors.
Proof.
  unfold model_or_errors. destruct errors; split.
  - discriminate.
  - intros [[] _]. reflexivity.
  - intros [= <-]. split; [discriminate | reflexivity].
  - intros [_ ->]. reflexivity.
Qed.

Lemma at_loc_nil (outer : list string) (errors : list ErrorDetails) :
  at_loc outer errors = [] <-> errors = [].
Proof. unfold at_loc. destruct errors; simpl; split; congruence. Qed.

(** A validator that never fails without saying why. *)
Definition reports {A : Type} (validate : A -> Validation A) : Prop :=
  forall x, validate x <> Invalid [].

Lemma model_or_errors_reports {A : Type} (errors : A -> list ErrorDetails) (model : A -> A) :
  reports (fun x => model_or_errors (errors x) (model x)).
Proof. intros x H. apply model_or_errors_invalid in H as [H E]. congruence. Qed.

Lemma validate_nested_nil {A : Type} (field : string) (validate : A -> Validation A) (x : A) :
  reports validate ->
  validate_nested field validate x = [] <-> exists y, validate x = Valid y.
Proof.
  intros Hr. unfold validate_nested. specialize (Hr x).
  destruct (validate x) as [y|es]; split; eauto.
  - rewrite at_loc_nil. congruence.
  - intros [y [=]].
Qed.

Lemma validate_items_nil {A : Type} (validate : A -> Validation A) (i : nat) (items : list A) :
  reports validate ->
  fst (validate_items validate i items) = []
  <-> Forall2 (fun x y => validate x = Valid y) items (snd (validate_items validate i items)).
Proof.
  intros Hr. revert i. induction items as [|x items IH]; intros i; simpl.
  - split; auto.
  - specialize (IH (S i)). specialize (Hr x).
    destruct (validate x) as [y|es] eqn:E; simpl.
    + rewrite IH. split.
      * intros H. now constructor.
      * intros H. inversion H; subst. assumption.
    + split.
      * intros H. apply app_eq_nil in H as [H _]. apply at_loc_nil in H. congruence.
      * intros H. apply Forall2_length in H.
        assert (Hle : forall j, (List.length (snd (validate_items validate j items))
                                 <= List.length items)%nat).
        { clear. induction items as [|z items IHz]; intros j; simpl; [lia|].
          specialize (IHz (S j)). destruct (validate z); simpl; lia. }
        specialize (Hle (S i)). simpl in H. lia.
Qed.

Lemma validate_items_valid {A : Type} (validate : A -> Validation A) (i : nat) (items : list A) :
  Forall (fun x => exists y, validate x = Valid y) items ->
  fst (validate_items validate i items) = []
  /\ Forall2 (fun x y => validate x = Valid y) items (snd (validate_items validate i items)).
Proof.
  intros H. revert i. induction H as [|x items [y Hy] _ IH]; intros i; simpl.
  - auto.
  - rewrite Hy. simpl. destruct (IH (S i)). split; [assumption | now constructor].
Qed.

(** Validators that hand the value back unchanged keep the list. *)
Lemma Forall2_identity {A : Type} (validate : A -> Validation A) (xs ys : list A) :
  (forall x y, validate x = Valid y -> y = x) ->
  Forall2 (fun x y => validate x = Valid y) xs ys -> ys = xs.
Proof.
  intros Hid H. induction H as [|x y xs ys Hxy _ IH]; trivial.
  apply Hid in Hxy. congruence.
Qed.

Lemma TimelineSegment_valid_iff (data y : TimelineSegment) :
  TimelineSegment_model_validate data = Valid y
  <-> 0 <= start_minute data /\ 1 <= duration data /\ y = data.
Proof.
  unfold TimelineSegment_model_validate, check_ge.
  rewrite model_or_errors_valid.
  destruct (Z.ltb_spec (start_minute data) 0), (Z.ltb_spec (duration data) 1); simpl;
    split; intros [H1 H2]; try discriminate; try lia; intuition (try lia).
Qed.

Lemma validate_detailed_timeline_nil (segments : list TimelineSegment) :
  fst (validate_detailed_timeline segments) = []
  <-> Forall (fun s => 0 <= start_minute s /\ 1 <= duration s) segments
      /\ validate_timeline_continuity segments
         = Ok (snd (validate_detailed_timeline segments)).
Proof.
  unfold validate_detailed_timeline.
  pose proof (validate_items_nil TimelineSegment_model_validate 0 segments
                (model_or_errors_reports _ _)) as Hnil.
  destruct (validate_items TimelineSegment_model_validate 0 segments) as [es vs] eqn:E.
  simpl in Hnil. destruct es as [|e es].
  - destruct Hnil as [Hnil _]. specialize (Hnil eq_refl).
    assert (Hall : Forall (fun s => 0 <= start_minute s /\ 1 <= duration s) segments).
    { clear E. induction Hnil as [|x y xs ys Hxy _ IH]; constructor; trivial.
      apply TimelineSegment_valid_iff in Hxy. tauto. }
    assert (vs = segments) as ->.
    { eapply Forall2_identity; [|exact Hnil].
      intros x y Hxy. apply TimelineSegment_valid_iff in Hxy. tauto. }
    destruct (validate_timeline_continuity segments) as [stored|ex]; simpl.
    + tauto.
    + split; [discriminate | intros [_ [=]]].
  - simpl. split; [discriminate|]. intros [Hall _].
    destruct Hnil as [_ Hnil]. enough (e :: es = []) by discriminate. apply Hnil.
    replace vs with (snd (validate_items TimelineSegment_model_validate 0 segments))
      by now rewrite E.
    apply validate_items_valid.
    eapply Forall_impl; [exact Hall|]. intros s [Hs Hd]. exists s.
    apply TimelineSegment_valid_iff. auto.
Qed.

(** What a valid [LecturePeriod] says about its timeline. *)
Lemma LecturePeriod_valid_timeline (data lp : LecturePeriod) :
  LecturePeriod_model_validate data = Valid lp ->
  validate_timeline_continuity (detailed_timeline data) = Ok (detailed_timeline lp).
Proof.
  unfold LecturePeriod_model_validate. rewrite model_or_errors_valid.
  intros [Herr ->]. simpl.
  apply app_eq_nil in Herr as [_ Herr]. apply app_eq_nil in Herr as [_ Herr].
  apply app_eq_nil in Herr as [Herr _].
  now apply validate_detailed_timeline_nil in Herr as [_ Herr].
Qed.


(** *** Sample values *)

Definition segment (start dur : Z) : TimelineSegment :=
  mkTimelineSegment start dur "work" None.

Definition sample_lecture (number : Z) (timeline : list TimelineSegment) : LecturePeriod :=
  mkLecturePeriod number "Light reactions" ["name the stages"; "explain the inputs"] ["slides"]
    timeline
    [mkActivity "leaf lab" "observe stomata" 20 [] ["prepare a slide"] []]
    (mkAssessment FORMATIVE "exit ticket" "recall" ["where does it happen?"] None 5)
    (mkDifferentiation ["word bank"] ["open question"] [])
    (mkHomework "reading" "chapter 3" ["read"; "summarise"] 30 7 []).

Definition sample_request (topic_text : string) (minutes periods : Z) : LessonPlanRequest :=
  mkLessonPlanRequest topic_text "9th Grade" minutes periods MEDIUM MIXED
    "No prior knowledge assumed" false None [] None None.

(** Segments given out of order, tiling 0..45 once sorted. *)
Definition shuffled_timeline : list TimelineSegment :=
  [segment 10 20; segment 30 15; segment 0 10].

(** The same with the last segment starting one minute late. *)
Definition gapped_timeline : list TimelineSegment :=
  [segment 10 20; segment 31 14; segment 0 10].

(** The same with the last segment starting one minute early. *)
Definition overlapping_timeline : list TimelineSegment :=
  [segment 10 20; segment 29 16; segment 0 10].

Example shuffled_timeline_accepted :
  validate_timeline_continuity shuffled_timeline
  = Ok [segment 0 10; segment 10 20; segment 30 15].
Proof. reflexivity. Qed.

Example gapped_timeline_rejected :
  validate_timeline_continuity gapped_timeline
  = Raise (mkExn ValueError
             "Timeline gap detected: segment ends at 30 but next starts at 31").
Proof. vm_compute. reflexivity. Qed.

Example overlapping_timeline_rejected :
  validate_timeline_continuity overlapping_timeline
  = Raise (mkExn ValueError
             "Timeline gap detected: segment ends at 30 but next starts at 29").
Proof. vm_compute. reflexivity. Qed.

Example gapped_lecture_rejected :
  LecturePeriod_model_validate (sample_lecture 1 gapped_timeline)
  = Invalid [mkError ["detailed_timeline"]
               (value_error "Timeline gap detected: segment ends at 30 but next starts at 31")
               (InList 3)].
Proof. vm_compute. reflexivity. Qed.

(** *** Timeline continuity *)



(** C9 (the stored timeline is the sorted one).  For every [LecturePeriod]
    that is built, [detailed_timeline] holds the caller's segments sorted by
    [start_minute]: a permutation of the input, in nondecreasing order of
    start, equal to [sorted] of the input; and the input order is not kept:
    some accepted input is stored in a different order. *)
Theorem stored_timeline_sorted :
  (forall data lp,
     LecturePeriod_model_validate data = Valid lp ->
     detailed_timeline lp = sorted (detailed_timeline data) start_minute
     /\ StronglySorted (key_le start_minute) (detailed_timeline lp)
     /\ Permutation (detailed_timeline data) (detailed_timeline lp))
  /\ (exists data lp,
        LecturePeriod_model_validate data = Valid lp
        /\ detailed_timeline lp <> detailed_timeline data).
Proof.
  split.
  - intros data lp Hvalid. apply LecturePeriod_valid_timeline in Hvalid.
    apply validate_timeline_continuity_ok in Hvalid as (_ & -> & _).
    split; [reflexivity|]. split.
    + apply sorted_StronglySorted.
    + apply sorted_perm.
  - exists (sample_lecture 1 shuffled_timeline),
           (sample_lecture 1 [segment 0 10; segment 10 20; segment 30 15]).
    split; [reflexivity | discriminate].
Qed.

(** The shuffled sample is accepted and stored sorted. *)
Lemma stored_timeline_sorted_witness :
  detailed_timeline (sample_lecture 1 [segment 0 10; segment 10 20; segment 30 15])
  = sorted shuffled_timeline start_minute
  /\ StronglySorted (key_le start_minute)
       (detailed_timeline (sample_lecture 1 [segment 0 10; segment 10 20; segment 30 15]))
  /\ Permutation shuffled_timeline
       (detailed_timeline (sample_lecture 1 [segment 0 10; segment 10 20; segment 30 15])).
Proof.
  apply (proj1 stored_timeline_sorted (sample_lecture 1 shuffled_timeline)).
  reflexivity.
Defined.

(** *** Request bounds *)

Definition within_bounds (data : LessonPlanRequest) : Prop :=
  (3 <= Py.len (topic data))%nat
  /\ 30 <= lecture_duration data <= 180
  /\ 1 <= total_periods data <= 30.

Lemma LessonPlanRequest_valid_iff (data r : LessonPlanRequest) :
  LessonPlanRequest_model_validate data = Valid r <-> within_bounds data /\ r = data.
Proof.
  unfold LessonPlanRequest_model_validate, within_bounds,
    validate_programming_language_for_labs.
  rewrite model_or_errors_valid. unfold check_str_min_length, check_ge_le.
  destruct data as [tp gr ld n ? ? ? ? ? ? ? ?]; simpl.
  destruct (Nat.ltb_spec (Py.len tp) 3), (Z.ltb_spec ld 30), (Z.ltb_spec 180 ld),
    (Z.ltb_spec n 1), (Z.ltb_spec 30 n); simpl;
    (split; [intros [Hnil ->]; try discriminate; (split; [lia | reflexivity])
            | intros [Hb ->]; try lia; auto]).
Qed.

(** C8 (request field bounds).  A [LessonPlanRequest] is built exactly when
    the topic has at least 3 characters (characters, not bytes), [lecture_duration] lies in 30..180
    and [total_periods] in 1..30, and it then holds the values given;
    otherwise construction fails, and for each field out of bounds the
    errors name that field, the bound broken and the value received. *)
Theorem request_field_bounds (data : LessonPlanRequest) :
  (forall r, LessonPlanRequest_model_validate data = Valid r <-> within_bounds data /\ r = data)
  /\ (~ within_bounds data ->
      exists errors,
        LessonPlanRequest_model_validate data = Invalid errors
        /\ ((Py.len (topic data) < 3)%nat ->
            mkError ["topic"] (string_too_short 3) (InStr (topic data)) ∈ errors)
        /\ (lecture_duration data < 30 ->
            mkError ["lecture_duration"] (greater_than_equal 30)
                    (InInt (lecture_duration data)) ∈ errors)
        /\ (180 < lecture_duration data ->
            mkError ["lecture_duration"] (less_than_equal 180)
                    (InInt (lecture_duration data)) ∈ errors)
        /\ (total_periods data < 1 ->
            mkError ["total_periods"] (greater_than_equal 1)
                    (InInt (total_periods data)) ∈ errors)
        /\ (30 < total_periods data ->
            mkError ["total_periods"] (less_than_equal 30)
                    (InInt (total_periods data)) ∈ errors)).
Proof.
  split; [intros r; apply LessonPlanRequest_valid_iff|]. intros Hout.
  destruct (LessonPlanRequest_model_validate data) as [r|errors] eqn:E.
  { apply LessonPlanRequest_valid_iff in E as [Hin _]. contradiction. }
  exists errors. split; [reflexivity|].
  unfold LessonPlanRequest_model_validate in E.
  apply model_or_errors_invalid in E as [_ ->].
  unfold check_str_min_length, check_ge_le. rewrite !elem_of_app.
  repeat split; intros Hbad.
  - left. apply Nat.ltb_lt in Hbad. rewrite Hbad. apply list_elem_of_singleton. reflexivity.
  - right. left. apply Z.ltb_lt in Hbad. rewrite Hbad.
    apply list_elem_of_singleton. reflexivity.
  - right. left. destruct (Z.ltb_spec (lecture_duration data) 30); [lia|].
    apply Z.ltb_lt in Hbad. rewrite Hbad. apply list_elem_of_singleton. reflexivity.
  - right. right. apply Z.ltb_lt in Hbad. rewrite Hbad.
    apply list_elem_of_singleton. reflexivity.
  - right. right. destruct (Z.ltb_spec (total_periods data) 1); [lia|].
    apply Z.ltb_lt in Hbad. rewrite Hbad. apply list_elem_of_singleton. reflexivity.
Qed.

(** A request for 200-minute lectures over 0 periods on "AI": all three
    fields are reported. *)
Lemma request_field_bounds_witness :
  exists errors,
    LessonPlanRequest_model_validate (sample_request "AI" 200 0) = Invalid errors
    /\ mkError ["topic"] (string_too_short 3) (InStr "AI") ∈ errors
    /\ mkError ["lecture_duration"] (less_than_equal 180) (InInt 200) ∈ errors
    /\ mkError ["total_periods"] (greater_than_equal 1) (InInt 0) ∈ errors.
Proof.
  destruct (proj2 (request_field_bounds (sample_request "AI" 200 0)))
    as (errors & Herr & Htopic & _ & Hlong & Hfew & _).
  - unfold within_bounds. simpl. lia.
  - exists errors. split; [exact Herr|]. split; [|split].
    + apply Htopic. simpl. lia.
    + apply Hlong. simpl. lia.
    + apply Hfew. simpl. lia.
Defined.

Example request_accepted :
  LessonPlanRequest_model_validate (sample_request "Photosynthesis" 45 3)
  = Valid (sample_request "Photosynthesis" 45 3).
Proof. reflexivity. Qed.

Example request_rejected :
  LessonPlanRequest_model_validate (sample_request "AI" 200 0)
  = Invalid [mkError ["topic"] (string_too_short 3) (InStr "AI");
             mkError ["lecture_duration"] (less_than_equal 180) (InInt 200);
             mkError ["total_periods"] (greater_than_equal 1) (InInt 0)].
Proof. reflexivity. Qed.

(** The length of the topic is counted in characters: "é!" is three bytes
    in UTF-8 and two characters, and is refused. *)
Example two_character_topic_rejected :
  String.length (String "195" (String "169" "!")) = 3%nat
  /\ LessonPlanRequest_model_validate (sample_request (String "195" (String "169" "!")) 45 3)
     = Invalid [mkError ["topic"] (string_too_short 3)
                        (InStr (String "195" (String "169" "!")))].
Proof. split; reflexivity. Qed.

(** *** Lecture count *)

Definition count_message (expected actual : Z) : string :=
  "Expected " +:+ pretty expected +:+ " lectures, got " +:+ pretty actual.

Lemma LecturePeriod_reports : reports LecturePeriod_model_validate.
Proof.
  intros x H. unfold LecturePeriod_model_validate in H.
  apply model_or_errors_invalid in H as [H E]. congruence.
Qed.

Section CompleteLessonPlan.
Variable HttpUrl : string -> option string.

(** The parts a plan is assembled from are valid on their own. *)
Definition assembled (data : CompleteLessonPlan) : Prop :=
  within_bounds (request data)
  /\ Forall (fun x => exists y, LecturePeriod_model_validate x = Valid y) (lectures data)
  /\ Forall (fun link => is_Some (HttpUrl (url link))) (resource_links data).

Lemma validate_lectures_nil (lectures : list LecturePeriod) (r : LessonPlanRequest) :
  fst (validate_lectures lectures (Some r)) = [] ->
  Forall2 (fun x y => LecturePeriod_model_validate x = Valid y) lectures
          (snd (validate_lectures lectures (Some r)))
  /\ Z.of_nat (List.length lectures) = total_periods r.
Proof.
  unfold validate_lectures.
  pose proof (validate_items_nil LecturePeriod_model_validate 0 lectures
                LecturePeriod_reports) as Hnil.
  destruct (validate_items LecturePeriod_model_validate 0 lectures) as [es vs].
  simpl in Hnil. destruct es as [|e es]; simpl.
  2:{ discriminate. }
  destruct Hnil as [Hnil _]. specialize (Hnil eq_refl).
  apply Forall2_length in Hnil as Hlen.
  unfold check_list_min_length. destruct (List.length vs <? 1)%nat; simpl; [discriminate|].
  destruct (Z.eqb_spec (Z.of_nat (List.length vs)) (total_periods r)); simpl.
  - intros _. split; [assumption | lia].
  - discriminate.
Qed.

Lemma validate_lectures_assembled (lectures : list LecturePeriod) (r : LessonPlanRequest) :
  Forall (fun x => exists y, LecturePeriod_model_validate x = Valid y) lectures ->
  validate_lectures lectures (Some r)
  = match lectures with
    | [] => ([mkError ["lectures"] (too_short 1 0) (InList 0)], [])
    | _ =>
        if Z.of_nat (List.length lectures) =? total_periods r
        then ([], snd (validate_items LecturePeriod_model_validate 0 lectures))
        else ([mkError ["lectures"]
                 (value_error (count_message (total_periods r)
                                             (Z.of_nat (List.length lectures))))
                 (InList (List.length lectures))], [])
    end.
Proof.
  intros Hall. unfold validate_lectures.
  apply (validate_items_valid _ 0) in Hall as [Hfst Hsnd].
  destruct (validate_items LecturePeriod_model_validate 0 lectures) as [es vs].
  simpl in *. subst es. apply Forall2_length in Hsnd as Hlen.
  destruct lectures as [|x lectures].
  - destruct vs; [reflexivity | discriminate].
  - destruct vs as [|v vs]; [discriminate|].
    rewrite Hlen. unfold check_list_min_length, validate_lecture_count.
    replace (List.length (v :: vs) <? 1)%nat with false by reflexivity.
    destruct (Z.of_nat (List.length (v :: vs)) =? total_periods r); reflexivity.
Qed.

Lemma validate_links_valid (links : list ResourceLink) :
  Forall (fun link => is_Some (HttpUrl (url link))) links ->
  fst (validate_items (ResourceLink_model_validate HttpUrl) 0 links) = [].
Proof.
  intros Hall. apply validate_items_valid.
  eapply Forall_impl; [exact Hall|]. intros link [stored_url Hok].
  unfold ResourceLink_model_validate. rewrite Hok. eauto.
Qed.

Lemma validate_request_valid (data : LessonPlanRequest) :
  within_bounds data ->
  LessonPlanRequest_model_validate data = Valid data.
Proof. intros H. apply LessonPlanRequest_valid_iff. auto. Qed.

(** C3 (lecture count), as the code has it.  A [CompleteLessonPlan] is
    built only if the number of lectures equals [request.total_periods]
    (then within 1..30); assembled from valid parts with a matching count it
    is built; with at least one lecture and a different count it fails with
    the error that names the expected and the actual count; with no lecture
    at all it fails with the [min_length] error of the field instead. *)
Theorem lecture_count_match :
  (forall data plan,
     CompleteLessonPlan_model_validate HttpUrl data = Valid plan ->
     Z.of_nat (List.length (lectures plan)) = total_periods (request plan)
     /\ List.length (lectures plan) = List.length (lectures data)
     /\ request plan = request data
     /\ 1 <= total_periods (request plan) <= 30)
  /\ (forall data,
        assembled data ->
        Z.of_nat (List.length (lectures data)) = total_periods (request data) ->
        exists plan, CompleteLessonPlan_model_validate HttpUrl data = Valid plan)
  /\ (forall data,
        assembled data ->
        lectures data <> [] ->
        Z.of_nat (List.length (lectures data)) <> total_periods (request data) ->
        exists errors,
          CompleteLessonPlan_model_validate HttpUrl data = Invalid errors
          /\ mkError ["lectures"]
               (value_error (count_message (total_periods (request data))
                                           (Z.of_nat (List.length (lectures data)))))
               (InList (List.length (lectures data))) ∈ errors)
  /\ (forall data,
        assembled data ->
        lectures data = [] ->
        CompleteLessonPlan_model_validate HttpUrl data
        = Invalid [mkError ["lectures"] (too_short 1 0) (InList 0)]).
Proof.
  split; [|split; [|split]].
  - intros data plan Hvalid. unfold CompleteLessonPlan_model_validate in Hvalid.
    apply model_or_errors_valid in Hvalid as [Herr ->]. simpl.
    apply app_eq_nil in Herr as [Hreq Herr]. apply app_eq_nil in Herr as [Hlec _].
    apply validate_nested_nil in Hreq as [r Hr].
    2:{ intros x Hx. unfold LessonPlanRequest_model_validate in Hx.
        apply model_or_errors_invalid in Hx as [Hx Ex]. congruence. }
    rewrite Hr in *. apply LessonPlanRequest_valid_iff in Hr as [Hb ->].
    apply validate_lectures_nil in Hlec as [Hall Hcount].
    apply Forall2_length in Hall. unfold within_bounds in Hb.
    repeat split; try lia.
  - intros data (Hb & Hlec & Hlinks) Hcount.
    unfold CompleteLessonPlan_model_validate, validate_nested.
    rewrite (validate_request_valid _ Hb), (validate_lectures_assembled _ _ Hlec).
    rewrite (validate_links_valid _ Hlinks).
    apply Z.eqb_eq in Hcount. rewrite Hcount.
    destruct (lectures data) eqn:El.
    + apply Z.eqb_eq in Hcount. unfold within_bounds in Hb. simpl in Hcount. lia.
    + simpl. eauto.
  - intros data (Hb & Hlec & Hlinks) Hne Hcount.
    unfold CompleteLessonPlan_model_validate, validate_nested.
    rewrite (validate_request_valid _ Hb), (validate_lectures_assembled _ _ Hlec).
    rewrite (validate_links_valid _ Hlinks).
    apply Z.eqb_neq in Hcount. rewrite Hcount.
    destruct (lectures data) eqn:El; [congruence|].
    simpl. eexists. split; [reflexivity|]. apply list_elem_of_here.
  - intros data (Hb & Hlec & Hlinks) Hnil.
    unfold CompleteLessonPlan_model_validate, validate_nested.
    rewrite (validate_request_valid _ Hb), (validate_lectures_assembled _ _ Hlec).
    rewrite (validate_links_valid _ Hlinks). rewrite Hnil. reflexivity.
Qed.

End CompleteLessonPlan.

(** A stand-in for pydantic's [HttpUrl] in the samples: a string that starts
    with a scheme is accepted, and a slash is added when nothing but the
    host follows the scheme. *)
Definition sample_HttpUrl (s : string) : option string :=
  let normalised (scheme : string) :=
    if Py.contains "/" (String.substring (String.length scheme) (String.length s) s)
    then s else s +:+ "/" in
  if String.prefix "https://" s then Some (normalised "https://")
  else if String.prefix "http://" s then Some (normalised "http://")
  else None.

Definition tiling_timeline : list TimelineSegment :=
  [segment 0 10; segment 10 20; segment 30 15].

(** A plan whose request asks for [periods] lectures and that holds [count]. *)
Definition sample_plan (periods : Z) (count : nat) : CompleteLessonPlan :=
  mkCompleteLessonPlan 0 "Plant biology" "How plants make food"
    (sample_request "Photosynthesis" 45 periods)
    (map (fun i => sample_lecture (Z.of_nat i) tiling_timeline) (seq 1 count))
    [] "Each lecture builds on the last" "None" ["explain photosynthesis"].

Lemma sample_lecture_valid (number : Z) :
  1 <= number ->
  LecturePeriod_model_validate (sample_lecture number tiling_timeline)
  = Valid (sample_lecture number tiling_timeline).
Proof.
  intros H. unfold LecturePeriod_model_validate, check_ge. simpl.
  destruct (Z.ltb_spec number 1); [lia|]. reflexivity.
Qed.

Lemma sample_plan_assembled (periods : Z) (count : nat) :
  1 <= periods <= 30 -> assembled sample_HttpUrl (sample_plan periods count).
Proof.
  intros H. split; [|split].
  - unfold within_bounds. simpl. lia.
  - simpl. apply Forall_map, Forall_forall. intros i Hi.
    apply list_elem_of_In, in_seq in Hi.
    eexists. apply sample_lecture_valid. lia.
  - constructor.
Qed.

(** Plans of every size from 1 to 30 with a matching count are built. *)
Lemma lecture_count_match_witness :
  forallb (fun k =>
             match CompleteLessonPlan_model_validate sample_HttpUrl
                     (sample_plan (Z.of_nat k) k) with
             | Valid _ => true
             | Invalid _ => false
             end) (seq 1 30) = true
  /\ exists plan,
       CompleteLessonPlan_model_validate sample_HttpUrl (sample_plan 3 3) = Valid plan.
Proof.
  split; [vm_compute; reflexivity|].
  apply (proj1 (proj2 (lecture_count_match sample_HttpUrl)) (sample_plan 3 3)).
  - apply sample_plan_assembled. lia.
  - reflexivity.
Defined.

(** A plan of three lectures for a request of four. *)
Example three_lectures_for_four_periods :
  CompleteLessonPlan_model_validate sample_HttpUrl (sample_plan 4 3)
  = Invalid [mkError ["lectures"] (value_error "Expected 4 lectures, got 3") (InList 3)].
Proof. vm_compute. reflexivity. Qed.

(** The claim as the specification words it fails on a plan with no lecture:
    the counts differ (0 against 4), yet the only error reported is the
    [min_length] one, which names no expected count. *)
Lemma lecture_count_empty_counterexample :
  Z.of_nat (List.length (lectures (sample_plan 4 0))) <> total_periods (request (sample_plan 4 0))
  /\ CompleteLessonPlan_model_validate sample_HttpUrl (sample_plan 4 0)
     = Invalid [mkError ["lectures"] (too_short 1 0) (InList 0)]
  /\ ~ (exists errors msg received,
          CompleteLessonPlan_model_validate sample_HttpUrl (sample_plan 4 0) = Invalid errors
          /\ mkError ["lectures"] (value_error msg) received ∈ errors).
Proof.
  split; [discriminate|]. split; [reflexivity|].
  intros (errors & msg & received & Herr & Hin).
  vm_compute in Herr. injection Herr as <-.
  apply list_elem_of_singleton in Hin. discriminate.
Qed.

End lesson_plan_proofs.

(** ** File staging and context caches *)
Module tools_proofs.
Import Cloud context_cache.

(** *** Hashing *)

Lemma read_blocks_concat (size fuel : nat) (data : list byte) (h : SHA256.t) :
  (List.length data <= fuel)%nat ->
  fold_left SHA256.update (read_blocks fuel (S size) data) h = h ++ data.
Proof.
  revert data h. induction fuel as [|fuel IH]; intros data h Hlen.
  - destruct data; [|simpl in Hlen; lia]. simpl. now rewrite app_nil_r.
  - destruct data as [|b data]; [simpl; now rewrite app_nil_r|].
    change (read_blocks (S fuel) (S size) (b :: data))
      with (firstn (S size) (b :: data)
            :: read_blocks fuel (S size) (skipn (S size) (b :: data))).
    cbn [fold_left]. rewrite IH.
    + unfold SHA256.update. rewrite <- app_assoc. f_equal. apply firstn_skipn.
    + rewrite length_skipn. simpl in *. lia.
Qed.

(** The digest on the standard's test messages. *)
Example sha256_empty :
  SHA256.hexdigest_of []
  = "e3b0c44298fc1c149afbf4c8996fb92427ae41e4649b934ca495991b7852b855".
Proof. vm_compute. reflexivity. Qed.

Example sha256_two_blocks :
  SHA256.hexdigest_of
    (list_byte_of_string "abcdbcdecdefdefgefghfghighijhijkijkljklmklmnlmnomnopnopq")
  = "248d6a61d20638b8e5c026930c3e6039a33ce45964ff2167f6ecedd419db06c1".
Proof. vm_compute. reflexivity. Qed.

(** [pathlib] on a few names. *)
Example suffix_of_names :
  map (fun n => (suffix (mkPath "" n), stem (mkPath "" n)))
      ["Slides.v2.PDF"; ".bashrc"; "notes."; "README"]
  = [(".PDF", "Slides.v2"); ("", ".bashrc"); ("", "notes."); ("", "README")].
Proof. reflexivity. Qed.

Example upper_case_suffix_supported :
  bool_decide (Py.lower (suffix (mkPath "" "Slides.v2.PDF")) ∈ SUPPORTED_EXTENSIONS) = true.
Proof. reflexivity. Qed.

(** The blob name and the URI a file with content [data] and final path
    component [file_name] is staged under. *)
Definition blob_name_of (data : list byte) (file_name : string) : string :=
  "lesson-materials/" +:+ SHA256.hexdigest_of data +:+ "/" +:+ file_name.

Definition gcs_uri_of (bucket_name blob_name : string) : string :=
  "gs://" +:+ bucket_name +:+ "/" +:+ blob_name.

(** Reading in blocks of 4096 bytes hashes the whole content. *)
Lemma compute_file_hash_run (file_path : Path) (data : list byte) (w : World) :
  files w !! to_str file_path = Some data ->
  _compute_file_hash file_path w = (Ok (SHA256.hexdigest_of data), w).
Proof.
  intros Hfile. unfold _compute_file_hash, read_bytes, bind, get_world, ret.
  rewrite Hfile. unfold SHA256.hexdigest.
  now rewrite (read_blocks_concat 4095 (List.length data) data SHA256.new (Nat.le_refl _)).
Qed.

(** *** One turn of the staging loop *)

Definition unsupported_message (file_path : Path) : string :=
  "Unsupported file type: " +:+ suffix file_path +:+ ". Supported: "
  +:+ Py.join ", " SUPPORTED_EXTENSIONS.

Lemma upload_files_loop_cons (bucket_name : string) (file_path : Path) (rest : list Path)
    (gcs_uris : list string) (w : World) :
  upload_files_loop bucket_name (file_path :: rest) gcs_uris w
  = match files w !! to_str file_path with
    | None =>
        (Raise (mkExn ContextCacheError ("File not found: " +:+ to_str file_path)), w)
    | Some data =>
        if bool_decide (Py.lower (suffix file_path) ∈ SUPPORTED_EXTENSIONS) then
          let blob_name := blob_name_of data (name file_path) in
          let w1 := sent (BlobExists bucket_name blob_name) w in
          match faults w with
          | Some msg :: _ => (Raise (mkExn ServiceError msg), w1)
          | _ =>
              if bool_decide (is_Some (blobs w !! (bucket_name, blob_name))) then
                upload_files_loop bucket_name rest
                  (gcs_uris ++ [gcs_uri_of bucket_name blob_name]) w1
              else
                let w2 := sent (BlobUpload bucket_name blob_name (to_str file_path)) w1 in
                match faults w1 with
                | Some msg :: _ => (Raise (mkExn ServiceError msg), w2)
                | _ =>
                    upload_files_loop bucket_name rest
                      (gcs_uris ++ [gcs_uri_of bucket_name blob_name])
                      (with_blobs (<[(bucket_name, blob_name) := data]> (blobs w)) w2)
                end
          end
        else (Raise (mkExn ContextCacheError (unsupported_message file_path)), w)
    end.
Proof.
  cbn [upload_files_loop]. unfold bind at 1. unfold path_exists, bind, get_world, ret.
  destruct (files w !! to_str file_path) as [data|] eqn:Hfile.
  2:{ rewrite bool_decide_eq_false_2; [reflexivity | intros [? [=]]]. }
  rewrite bool_decide_eq_true_2 by eauto. cbn [negb].
  destruct (bool_decide (Py.lower (suffix file_path) ∈ SUPPORTED_EXTENSIONS)); cbn [negb].
  2:{ reflexivity. }
  unfold bind. rewrite (compute_file_hash_run _ _ _ Hfile).
  unfold blob_exists, bind, remote, get_world, ret.
  fold (blob_name_of data (name file_path)).
  set (blob_name := blob_name_of data (name file_path)).
  destruct (faults w) as [|[msg|] fs] eqn:Hfaults; try reflexivity.
  - cbn [blobs sent].
    destruct (bool_decide (is_Some (blobs w !! (bucket_name, blob_name)))); cbn [negb].
    + reflexivity.
    + unfold blob_upload_from_filename, read_bytes, bind, get_world, ret, remote.
      cbn [files sent]. rewrite Hfile. cbn [faults sent]. rewrite Hfaults. reflexivity.
  - cbn [blobs sent].
    destruct (bool_decide (is_Some (blobs w !! (bucket_name, blob_name)))); cbn [negb].
    + reflexivity.
    + unfold blob_upload_from_filename, read_bytes, bind, get_world, ret, remote.
      cbn [files sent]. rewrite Hfile. cbn [faults sent]. rewrite Hfaults. cbn [tail].
      destruct fs as [|[msg|] fs]; reflexivity.
Qed.

(** *** Counting the uploads a run sends *)

Definition is_upload (c : Call) : bool :=
  match c with
  | BlobUpload _ _ _ => true
  | _ => false
  end.

Definition is_upload_of (bucket_name blob_name : string) (c : Call) : bool :=
  match c with
  | BlobUpload b n _ => String.eqb b bucket_name && String.eqb n blob_name
  | _ => false
  end.

Fixpoint count_calls (f : Call -> bool) (cs : list Call) : nat :=
  match cs with
  | [] => 0
  | c :: cs' => (if f c then 1 else 0) + count_calls f cs'
  end.

Lemma count_calls_app (f : Call -> bool) (cs1 cs2 : list Call) :
  count_calls f (cs1 ++ cs2) = (count_calls f cs1 + count_calls f cs2)%nat.
Proof. induction cs1 as [|c cs1 IH]; simpl; [reflexivity | rewrite IH; lia]. Qed.

(** The uploads of one blob among the requests [cs]. *)
Definition uploads_of (bucket_name blob_name : string) (cs : list Call) : nat :=
  count_calls (is_upload_of bucket_name blob_name) cs.

Lemma uploads_of_upload (bucket_name blob_name b filename : string) (cs : list Call) :
  uploads_of bucket_name b (BlobUpload bucket_name blob_name filename :: cs)
  = ((if decide (blob_name = b) then 1 else 0) + uploads_of bucket_name b cs)%nat.
Proof.
  unfold uploads_of. simpl. rewrite String.eqb_refl. simpl.
  destruct (String.eqb_spec blob_name b), (decide (blob_name = b)); congruence.
Qed.

(** The services other than Cloud Storage are left as they were. *)
Definition same_services (w w' : World) : Prop :=
  caches w' = caches w /\ documents w' = documents w
  /\ now w' = now w /\ next_cache_id w' = next_cache_id w.

(** [uri] is the URI under which the file at [file_path] of [w] is staged. *)
Definition staged (bucket_name : string) (w : World) (file_path : Path) (uri : string) : Prop :=
  exists data,
    files w !! to_str file_path = Some data
    /\ bool_decide (Py.lower (suffix file_path) ∈ SUPPORTED_EXTENSIONS) = true
    /\ uri = gcs_uri_of bucket_name (blob_name_of data (name file_path)).

(** What a run of the staging loop from [w] to [w'] with result [r] did. *)
Definition staging_run (bucket_name : string) (paths : list Path) (gcs_uris : list string)
    (w : World) (r : Result (list string)) (w' : World) : Prop :=
  exists new,
    calls w' = calls w ++ new
    /\ files w' = files w
    /\ same_services w w'
    /\ (forall k, is_Some (blobs w !! k) -> is_Some (blobs w' !! k))
    /\ (forall blob_name,
          (uploads_of bucket_name blob_name new <= 1)%nat
          /\ (is_Some (blobs w !! (bucket_name, blob_name)) ->
              uploads_of bucket_name blob_name new = 0%nat)
          /\ (forall uris, r = Ok uris -> uploads_of bucket_name blob_name new = 1%nat ->
              is_Some (blobs w' !! (bucket_name, blob_name))))
    /\ (forall uris, r = Ok uris ->
          exists us, uris = gcs_uris ++ us /\ Forall2 (staged bucket_name w) paths us).

Lemma staging_run_stop (bucket_name : string) (paths : list Path) (gcs_uris : list string)
    (w : World) (e : Exn) (new : list Call) (w' : World) :
  calls w' = calls w ++ new -> files w' = files w -> same_services w w' ->
  blobs w' = blobs w ->
  (forall blob_name,
     (uploads_of bucket_name blob_name new <= 1)%nat
     /\ (is_Some (blobs w !! (bucket_name, blob_name)) ->
         uploads_of bucket_name blob_name new = 0%nat)) ->
  staging_run bucket_name paths gcs_uris w (Raise e) w'.
Proof.
  intros Hcalls Hfiles Hsame Hblobs Hup. exists new.
  split; [assumption|]. split; [assumption|]. split; [assumption|].
  split; [now rewrite Hblobs|]. split; [|discriminate].
  intros blob_name. destruct (Hup blob_name). split; [assumption|]. split; [assumption|].
  discriminate.
Qed.

Lemma uploads_of_nil (bucket_name blob_name : string) :
  uploads_of bucket_name blob_name [] = 0%nat.
Proof. reflexivity. Qed.

Lemma uploads_of_exists (bucket_name blob_name b n : string) (cs : list Call) :
  uploads_of bucket_name blob_name (BlobExists b n :: cs) = uploads_of bucket_name blob_name cs.
Proof. reflexivity. Qed.

(** The file's blob was there: one existence check, then the rest. *)
Lemma staging_run_present (bucket_name : string) (file_path : Path) (rest : list Path)
    (gcs_uris : list string) (blob : string) (w : World) (r : Result (list string))
    (w' : World) :
  staged bucket_name w file_path (gcs_uri_of bucket_name blob) ->
  staging_run bucket_name rest (gcs_uris ++ [gcs_uri_of bucket_name blob])
              (sent (BlobExists bucket_name blob) w) r w' ->
  staging_run bucket_name (file_path :: rest) gcs_uris w r w'.
Proof.
  intros Hstaged (new & Hcalls & Hfiles & Hsame & Hmono & Hup & Huris).
  exists (BlobExists bucket_name blob :: new).
  split; [rewrite Hcalls; simpl; now rewrite <- app_assoc|].
  split; [assumption|]. split; [assumption|]. split; [assumption|]. split.
  - intros b. rewrite uploads_of_exists. apply Hup.
  - intros uris Hr. destruct (Huris uris Hr) as (us & -> & Hall).
    exists (gcs_uri_of bucket_name blob :: us). rewrite <- app_assoc.
    split; [reflexivity|]. now constructor.
Qed.

(** The file's blob was missing and the upload went through: an existence
    check, the upload, then the rest, which finds the blob in place. *)
Lemma staging_run_uploaded (bucket_name : string) (file_path : Path) (rest : list Path)
    (gcs_uris : list string) (blob : string) (data : list byte) (w : World)
    (r : Result (list string)) (w' : World) :
  staged bucket_name w file_path (gcs_uri_of bucket_name blob) ->
  ~ is_Some (blobs w !! (bucket_name, blob)) ->
  staging_run bucket_name rest (gcs_uris ++ [gcs_uri_of bucket_name blob])
              (with_blobs (<[(bucket_name, blob) := data]> (blobs w))
                 (sent (BlobUpload bucket_name blob (to_str file_path))
                    (sent (BlobExists bucket_name blob) w))) r w' ->
  staging_run bucket_name (file_path :: rest) gcs_uris w r w'.
Proof.
  intros Hstaged Habsent (new & Hcalls & Hfiles & Hsame & Hmono & Hup & Huris).
  cbn [blobs with_blobs] in Hmono, Hup.
  exists (BlobExists bucket_name blob
            :: BlobUpload bucket_name blob (to_str file_path) :: new).
  split; [rewrite Hcalls; simpl; now rewrite <- !app_assoc|].
  split; [assumption|]. split; [assumption|]. split.
  { intros k Hk. apply Hmono. rewrite lookup_insert. case_decide; eauto. }
  split.
  - intros b. destruct (Hup b) as (H1 & H2 & H3).
    rewrite uploads_of_exists, uploads_of_upload.
    destruct (decide (blob = b)) as [<-|Hne].
    + assert (Hzero : uploads_of bucket_name blob new = 0%nat).
      { apply H2. rewrite lookup_insert_eq. eauto. }
      rewrite Hzero. split; [lia|]. split; [intros Hin; contradiction|].
      intros uris Hr _. apply Hmono. rewrite lookup_insert_eq. eauto.
    + split; [simpl; lia|]. split.
      * intros Hin. simpl. apply H2. rewrite lookup_insert_ne by congruence. assumption.
      * intros uris Hr Hone. apply (H3 uris Hr). simpl in Hone. lia.
  - intros uris Hr. destruct (Huris uris Hr) as (us & -> & Hall).
    exists (gcs_uri_of bucket_name blob :: us). rewrite <- app_assoc.
    split; [reflexivity|]. now constructor.
Qed.

(** The run stopped on an upload the network failed. *)
Lemma staging_run_upload_failed (bucket_name : string) (paths : list Path)
    (gcs_uris : list string) (blob filename : string) (w : World) (e : Exn) :
  ~ is_Some (blobs w !! (bucket_name, blob)) ->
  staging_run bucket_name paths gcs_uris w (Raise e)
              (sent (BlobUpload bucket_name blob filename)
                 (sent (BlobExists bucket_name blob) w)).
Proof.
  intros Habsent.
  apply staging_run_stop
    with (new := [BlobExists bucket_name blob; BlobUpload bucket_name blob filename]);
    try reflexivity; [simpl; now rewrite <- app_assoc | now repeat split |].
  intros b. rewrite uploads_of_exists, uploads_of_upload, uploads_of_nil.
  destruct (decide (blob = b)) as [<-|Hne]; split; try lia. intros Hin. contradiction.
Qed.

Lemma upload_files_loop_run (bucket_name : string) (paths : list Path) :
  forall gcs_uris w r w',
    upload_files_loop bucket_name paths gcs_uris w = (r, w') ->
    staging_run bucket_name paths gcs_uris w r w'.
Proof.
  assert (Hstop : forall paths gcs_uris w e,
            staging_run bucket_name paths gcs_uris w (Raise e) w).
  { intros ps us w e. apply staging_run_stop with (new := []);
      rewrite ?app_nil_r; try reflexivity; [now repeat split|].
    intros b. rewrite uploads_of_nil. split; [lia | reflexivity]. }
  induction paths as [|file_path rest IH]; intros gcs_uris w r w' Hrun.
  { injection Hrun as <- <-. exists []. rewrite app_nil_r.
    split; [reflexivity|]. split; [reflexivity|]. split; [now repeat split|].
    split; [auto|]. split.
    - intros b. rewrite uploads_of_nil. split; [lia|]. split; [reflexivity | discriminate].
    - intros uris [= <-]. exists []. rewrite app_nil_r. split; [reflexivity | constructor]. }
  rewrite upload_files_loop_cons in Hrun.
  destruct (files w !! to_str file_path) as [data|] eqn:Hfile.
  2:{ injection Hrun as <- <-. apply Hstop. }
  destruct (bool_decide (Py.lower (suffix file_path) ∈ SUPPORTED_EXTENSIONS)) eqn:Hext.
  2:{ injection Hrun as <- <-. apply Hstop. }
  cbv zeta in Hrun. set (blob := blob_name_of data (name file_path)) in *.
  assert (Hstaged : staged bucket_name w file_path (gcs_uri_of bucket_name blob)).
  { exists data. auto. }
  assert (Hfailed : forall e, staging_run bucket_name (file_path :: rest) gcs_uris w (Raise e)
                                (sent (BlobExists bucket_name blob) w)).
  { intros e. apply staging_run_stop with (new := [BlobExists bucket_name blob]);
      try reflexivity; [now repeat split|].
    intros b. rewrite uploads_of_exists, uploads_of_nil. split; [lia | reflexivity]. }
  destruct (faults w) as [|[msg|] fs] eqn:Hf.
  2:{ injection Hrun as <- <-. apply Hfailed. }
  all: destruct (bool_decide (is_Some (blobs w !! (bucket_name, blob)))) eqn:Hpresent.
  all: try (apply bool_decide_eq_false in Hpresent).
  all: try (apply IH in Hrun; now apply staging_run_present with (blob := blob)).
  all: cbn [faults sent tail] in Hrun; rewrite Hf in Hrun; cbn [tail] in Hrun.
  - apply IH in Hrun. now apply staging_run_uploaded with (blob := blob) (data := data).
  - destruct fs as [|[msg|] fs].
    + apply IH in Hrun. now apply staging_run_uploaded with (blob := blob) (data := data).
    + injection Hrun as <- <-. now apply staging_run_upload_failed.
    + apply IH in Hrun. now apply staging_run_uploaded with (blob := blob) (data := data).
Qed.

(** *** [upload_files_to_gcs] *)

(** The [except] clause only rewords the exception. *)
Lemma upload_files_to_gcs_unfold (paths : list Path) (settings : Settings)
    (bucket_name : string) (w : World) :
  upload_files_to_gcs paths settings bucket_name w
  = match upload_files_loop bucket_name paths [] w with
    | (Ok uris, w') => (Ok uris, w')
    | (Raise e, w') =>
        (Raise (mkExn ContextCacheError ("GCS upload failed: " +:+ str e)), w')
    end.
Proof. reflexivity. Qed.

Lemma upload_files_to_gcs_run (paths : list Path) (settings : Settings)
    (bucket_name : string) (w : World) (r : Result (list string)) (w' : World) :
  upload_files_to_gcs paths settings bucket_name w = (r, w') ->
  staging_run bucket_name paths [] w r w'.
Proof.
  rewrite upload_files_to_gcs_unfold.
  destruct (upload_files_loop bucket_name paths [] w) as [[uris|e] w1] eqn:Hloop;
    intros [= <- <-]; apply upload_files_loop_run in Hloop.
  - assumption.
  - destruct Hloop as (new & Hcalls & Hfiles & Hsame & Hmono & Hup & Huris).
    exists new. repeat (split; [assumption|]). split; [|discriminate].
    intros b. destruct (Hup b) as (H1 & H2 & _). repeat (split; [assumption|]). discriminate.
Qed.

Lemma upload_files_loop_app (bucket_name : string) (before rest : list Path) :
  forall gcs_uris w,
    upload_files_loop bucket_name (before ++ rest) gcs_uris w
    = match upload_files_loop bucket_name before gcs_uris w with
      | (Ok uris, w') => upload_files_loop bucket_name rest uris w'
      | (Raise e, w') => (Raise e, w')
      end.
Proof.
  induction before as [|file_path before IH]; intros gcs_uris w; [reflexivity|].
  rewrite <- app_comm_cons, !upload_files_loop_cons.
  destruct (files w !! to_str file_path); [|reflexivity].
  destruct (bool_decide (Py.lower (suffix file_path) ∈ SUPPORTED_EXTENSIONS)); [|reflexivity].
  cbv zeta. destruct (faults w) as [|[msg|] fs]; try reflexivity.
  all: destruct (bool_decide (is_Some (blobs w !! _))); try apply IH.
  all: destruct (faults (sent _ w)) as [|[msg|] fs']; try reflexivity; apply IH.
Qed.

(** Staging a non-empty list that succeeds starts with an existence check. *)
Lemma upload_files_to_gcs_first_call (file_path : Path) (rest : list Path)
    (settings : Settings) (bucket_name : string) (w : World) (uris : list string)
    (w' : World) :
  upload_files_to_gcs (file_path :: rest) settings bucket_name w = (Ok uris, w') ->
  exists blob_name later,
    calls w' = calls w ++ BlobExists bucket_name blob_name :: later.
Proof.
  rewrite upload_files_to_gcs_unfold, upload_files_loop_cons.
  destruct (files w !! to_str file_path) as [data|]; [|discriminate].
  destruct (bool_decide (Py.lower (suffix file_path) ∈ SUPPORTED_EXTENSIONS)); [|discriminate].
  cbv zeta. set (blob := blob_name_of data (name file_path)).
  assert (Hrest : forall us w1,
            calls w1 = calls w ++ [BlobExists bucket_name blob]
                       \/ calls w1 = calls w ++ [BlobExists bucket_name blob;
                                                 BlobUpload bucket_name blob (to_str file_path)] ->
            match upload_files_loop bucket_name rest us w1 with
            | (Ok uris0, w'0) => (Ok uris0, w'0)
            | (Raise e, w'0) =>
                (Raise (mkExn ContextCacheError ("GCS upload failed: " +:+ str e)), w'0)
            end = (Ok uris, w') ->
            exists blob_name later,
              calls w' = calls w ++ BlobExists bucket_name blob_name :: later).
  { intros us w1 Hw1 Hrun.
    destruct (upload_files_loop bucket_name rest us w1) as [[uris0|e] w2] eqn:Hloop;
      [|discriminate]. injection Hrun as <- <-.
    apply upload_files_loop_run in Hloop as (new & Hcalls & _).
    rewrite Hcalls. destruct Hw1 as [-> | ->]; rewrite <- app_assoc; simpl; eauto. }
  destruct (faults w) as [|[msg|] fs] eqn:Hf; try discriminate.
  all: destruct (bool_decide (is_Some (blobs w !! _))).
  all: try (apply Hrest; left; reflexivity).
  all: cbn [faults sent tail]; rewrite Hf; cbn [tail].
  - apply Hrest. right. simpl. now rewrite <- app_assoc.
  - destruct fs as [|[msg|] fs]; try discriminate.
    all: apply Hrest; right; simpl; now rewrite <- app_assoc.
Qed.

(** *** [create_context_cache] *)

Definition instruction_text_of (system_instruction : option string) : string :=
  match system_instruction with
  | Some text => if String.eqb text "" then default_instruction else text
  | None => default_instruction
  end.

(** The contents built from the staged URIs. *)
Definition contents_of (gcs_uris : list string) : list Content :=
  map (fun uri => mkContent [Part_from_uri uri "application/pdf"]) gcs_uris.

(** The create request sent for the files [first :: _] staged as [gcs_uris]. *)
Definition create_request (settings : Settings) (system_instruction : option string)
    (gcs_uris : list string) (ttl : Z) (first : Path) : Call :=
  CachedContentCreate (specialist_model settings) (instruction_text_of system_instruction)
                      (contents_of gcs_uris) ttl ("lesson-materials-" +:+ stem first).

(** The cache the service stores for that request in world [w]. *)
Definition created_cache (settings : Settings) (system_instruction : option string)
    (gcs_uris : list string) (ttl : Z) (first : Path) (w : World) : CachedContent :=
  mkCachedContent ("cachedContents/" +:+ pretty (next_cache_id w)) (specialist_model settings)
                  (instruction_text_of system_instruction) (contents_of gcs_uris)
                  (now w + ttl) ("lesson-materials-" +:+ stem first).

(** [create_context_cache] once staging has returned. *)
Lemma create_context_cache_staged (first : Path) (rest : list Path) (settings : Settings)
    (system_instruction : option string) (ttl : Z) (w : World) (uris : list string)
    (w1 : World) :
  upload_files_to_gcs (first :: rest) settings default_bucket_name w = (Ok uris, w1) ->
  create_context_cache (Some (first :: rest)) settings system_instruction ttl w
  = let request := create_request settings system_instruction uris ttl first in
    match faults w1 with
    | Some msg :: _ =>
        (Raise (mkExn ContextCacheError ("Cache creation failed: " +:+ msg)), sent request w1)
    | _ =>
        let cache := created_cache settings system_instruction uris ttl first w1 in
        (Ok (cc_name cache),
         with_caches (<[cc_name cache := cache]> (caches w1)) (S (next_cache_id w1))
                     (sent request w1))
    end.
Proof.
  intros Hstage. unfold create_context_cache, try_except.
  unfold bind at 1. unfold ret at 1. unfold bind at 1. rewrite Hstage.
  unfold bind at 1. unfold ret at 1. unfold bind at 1.
  unfold CachedContent_create, bind, remote, raise, ret.
  fold (instruction_text_of system_instruction). fold (contents_of uris).
  fold (create_request settings system_instruction uris ttl first).
  cbv zeta. destruct (faults w1) as [|[msg|] fs]; reflexivity.
Qed.

Lemma create_context_cache_not_staged (paths : list Path) (settings : Settings)
    (system_instruction : option string) (ttl : Z) (w : World) (e : Exn) (w1 : World) :
  upload_files_to_gcs paths settings default_bucket_name w = (Raise e, w1) ->
  create_context_cache (Some paths) settings system_instruction ttl w
  = (Raise (mkExn ContextCacheError ("Cache creation failed: " +:+ str e)), w1).
Proof.
  intros Hstage. unfold create_context_cache, try_except.
  unfold bind at 1. unfold ret at 1. unfold bind at 1. now rewrite Hstage.
Qed.

(** *** [delete_cache] *)

Lemma delete_cache_unfold (cache_name : string) (settings : Settings) (w : World) :
  delete_cache cache_name settings w
  = let w1 := sent (CachedContentGet cache_name) w in
    match faults w with
    | Some msg :: _ =>
        (Raise (mkExn ContextCacheError ("Cache deletion failed: " +:+ msg)), w1)
    | _ =>
        match live_cache w cache_name with
        | None =>
            (Raise (mkExn ContextCacheError
                      ("Cache deletion failed: 404 Not found: " +:+ cache_name)), w1)
        | Some c =>
            let w2 := sent (CachedContentDelete (cc_name c)) w1 in
            match tail (faults w) with
            | Some msg :: _ =>
                (Raise (mkExn ContextCacheError ("Cache deletion failed: " +:+ msg)), w2)
            | _ => (Ok tt, with_caches (delete (cc_name c) (caches w)) (next_cache_id w) w2)
            end
        end
    end.
Proof.
  unfold delete_cache, try_except, CachedContent_get.
  unfold bind at 1. unfold bind at 1. unfold remote at 1.
  assert (Hlive : live_cache (sent (CachedContentGet cache_name) w) cache_name
                  = live_cache w cache_name) by reflexivity.
  cbv zeta.
  destruct (faults w) as [|[msg|] fs] eqn:Hf; try reflexivity.
  all: unfold bind at 1; unfold get_world at 1; rewrite Hlive.
  all: destruct (live_cache w cache_name) as [c|]; try reflexivity.
  all: unfold ret at 1; unfold CachedContent_delete, bind, remote.
  all: cbn [faults sent]; rewrite Hf; cbn [tail]; try reflexivity.
  destruct fs as [|[msg|] fs]; reflexivity.
Qed.

(** *** Sample worlds *)

Definition sample_settings : Settings :=
  mkSettings "edu-teacher-assistant" "us-central1" "gemini-2.5-pro"
             (Some "projects/edu/locations/global/collections/default_collection/dataStores/curriculum").

(** Content A. *)
Definition content_A : list byte := list_byte_of_string "abc".

(** Three copies of content A, a slide deck and a program; nothing staged,
    no cache, a network without faults. *)
Definition sample_world : World :=
  mkWorld {[ "week1/slides.pdf" := content_A;
             "week2/slides.pdf" := content_A;
             "week2/notes.pdf" := content_A;
             "deck.pptx" := list_byte_of_string "slides";
             "setup.exe" := list_byte_of_string "MZ" ]}
          ∅ ∅ ∅ 0 0 [] [].

Definition hash_A : string :=
  "ba7816bf8f01cfea414140de5dae2223b00361a396177a9cb410ff61f20015ad".

Example hash_of_content_A : SHA256.hexdigest_of content_A = hash_A.
Proof. vm_compute. reflexivity. Qed.

(** The world after [week1/slides.pdf] was staged. *)
Definition world_after_week1 : World :=
  snd (upload_files_to_gcs [mkPath "week1" "slides.pdf"] sample_settings
                           default_bucket_name sample_world).

(** The world after a cache was created from [week1/slides.pdf]. *)
Definition world_with_cache : World :=
  snd (create_context_cache (Some [mkPath "week1" "slides.pdf"]) sample_settings None
                            DEFAULT_CACHE_TTL sample_world).

Example cache_created :
  fst (create_context_cache (Some [mkPath "week1" "slides.pdf"]) sample_settings None
                            DEFAULT_CACHE_TTL sample_world) = Ok "cachedContents/0"
  /\ cc_expire_time <$> live_cache world_with_cache "cachedContents/0" = Some 3600.
Proof. vm_compute. split; reflexivity. Qed.

(** *** Staging: deduplication *)

(** C1 (dedup of staging), as the code has it.  When the same bucket is
    staged into twice and both calls return, no blob is uploaded more than
    once over the two calls; and two files with the same content and the
    same final path component (whatever their directories) get the same
    URI, the one built from the content hash and that name. *)
Theorem staging_dedup (settings : Settings) (bucket_name : string)
    (paths1 paths2 : list Path) (w w1 w2 : World) (uris1 uris2 : list string) :
  upload_files_to_gcs paths1 settings bucket_name w = (Ok uris1, w1) ->
  upload_files_to_gcs paths2 settings bucket_name w1 = (Ok uris2, w2) ->
  exists sent1 sent2,
    calls w1 = calls w ++ sent1 /\ calls w2 = calls w1 ++ sent2
    /\ (forall blob_name, (uploads_of bucket_name blob_name (sent1 ++ sent2) <= 1)%nat)
    /\ (forall i j p1 p2 data,
          paths1 !! i = Some p1 -> paths2 !! j = Some p2 ->
          name p1 = name p2 ->
          files w !! to_str p1 = Some data -> files w !! to_str p2 = Some data ->
          uris1 !! i = Some (gcs_uri_of bucket_name (blob_name_of data (name p1)))
          /\ uris2 !! j = Some (gcs_uri_of bucket_name (blob_name_of data (name p1)))).
Proof.
  intros Hrun1 Hrun2.
  apply upload_files_to_gcs_run in Hrun1
    as (sent1 & Hcalls1 & Hfiles1 & _ & _ & Hup1 & Huris1).
  apply upload_files_to_gcs_run in Hrun2
    as (sent2 & Hcalls2 & Hfiles2 & _ & _ & Hup2 & Huris2).
  exists sent1, sent2. split; [assumption|]. split; [assumption|]. split.
  - intros b. unfold uploads_of. rewrite count_calls_app.
    destruct (Hup1 b) as (Hle1 & _ & Hstored). destruct (Hup2 b) as (Hle2 & Hzero & _).
    fold (uploads_of bucket_name b sent1) (uploads_of bucket_name b sent2) in *.
    destruct (decide (uploads_of bucket_name b sent1 = 1%nat)) as [Hone|Hnone]; [|lia].
    rewrite Hzero; [lia|]. now apply (Hstored uris1).
  - intros i j p1 p2 data Hp1 Hp2 Hname Hd1 Hd2.
    destruct (Huris1 uris1 eq_refl) as (us1 & -> & Hall1).
    destruct (Huris2 uris2 eq_refl) as (us2 & -> & Hall2). simpl.
    destruct (Forall2_lookup_l _ _ _ _ _ Hall1 Hp1) as (u1 & Hu1 & d1 & Hf1 & _ & ->).
    destruct (Forall2_lookup_l _ _ _ _ _ Hall2 Hp2) as (u2 & Hu2 & d2 & Hf2 & _ & ->).
    rewrite Hfiles1 in Hf2. rewrite Hname. split; congruence.
Qed.

Lemma run_eta {A : Type} (m : Io A) (w : World) (r : Result A) :
  fst (m w) = r -> m w = (r, snd (m w)).
Proof. destruct (m w). simpl. congruence. Qed.

(** [week1/slides.pdf] and then [week2/slides.pdf], both content A: one
    upload, one URI. *)
Lemma staging_dedup_witness :
  exists uri,
    fst (upload_files_to_gcs [mkPath "week1" "slides.pdf"] sample_settings
                             default_bucket_name sample_world) = Ok [uri]
    /\ fst (upload_files_to_gcs [mkPath "week2" "slides.pdf"] sample_settings
                                default_bucket_name world_after_week1) = Ok [uri]
    /\ forall blob_name,
         (uploads_of default_bucket_name blob_name
            (calls (snd (upload_files_to_gcs [mkPath "week2" "slides.pdf"] sample_settings
                                             default_bucket_name world_after_week1)))
          <= 1)%nat.
Proof.
  set (uri := gcs_uri_of default_bucket_name (blob_name_of content_A "slides.pdf")).
  set (w2 := snd (upload_files_to_gcs [mkPath "week2" "slides.pdf"] sample_settings
                                      default_bucket_name world_after_week1)).
  assert (Hrun1 : upload_files_to_gcs [mkPath "week1" "slides.pdf"] sample_settings
                    default_bucket_name sample_world = (Ok [uri], world_after_week1))
    by (apply run_eta; vm_compute; reflexivity).
  assert (Hrun2 : upload_files_to_gcs [mkPath "week2" "slides.pdf"] sample_settings
                    default_bucket_name world_after_week1 = (Ok [uri], w2))
    by (apply run_eta; vm_compute; reflexivity).
  destruct (staging_dedup _ _ _ _ _ _ _ _ _ Hrun1 Hrun2)
    as (sent1 & sent2 & Hc1 & Hc2 & Hup & _).
  exists uri. split; [now rewrite Hrun1|]. split; [now rewrite Hrun2|].
  intros b. rewrite Hc2, Hc1. apply Hup.
Defined.

(** The claim as the specification words it fails when the name differs:
    [week1/slides.pdf] and [week2/notes.pdf] hold the same content A, yet
    staging one and then the other uploads twice and returns two URIs. *)
Lemma staging_dedup_other_name_counterexample :
  files sample_world !! "week1/slides.pdf" = Some content_A
  /\ files sample_world !! "week2/notes.pdf" = Some content_A
  /\ fst (upload_files_to_gcs [mkPath "week1" "slides.pdf"] sample_settings
                              default_bucket_name sample_world)
     = Ok ["gs://teacher-assistant-uploads/lesson-materials/" +:+ hash_A +:+ "/slides.pdf"]
  /\ fst (upload_files_to_gcs [mkPath "week2" "notes.pdf"] sample_settings
                              default_bucket_name world_after_week1)
     = Ok ["gs://teacher-assistant-uploads/lesson-materials/" +:+ hash_A +:+ "/notes.pdf"]
  /\ count_calls is_upload
       (calls (snd (upload_files_to_gcs [mkPath "week2" "notes.pdf"] sample_settings
                                        default_bucket_name world_after_week1))) = 2%nat.
Proof. vm_compute. repeat split; reflexivity. Qed.

(** *** Staging: unsupported file types *)

(** C7 (unsupported extensions), as the code has it.  The allow-list of the
    search-indexing path is that of the context-cache path plus [.html].
    In [upload_files_to_gcs] a file that exists and whose lower-cased suffix
    is not on the list makes the call fail with the [ContextCacheError]
    whose text names the suffix, and the world is the one the files before
    it left: the rejection sends nothing.  In [upload_to_datastore] such a
    file is skipped instead: no error, no request, no entry. *)
Theorem unsupported_extension_handling :
  datastore_upload.SUPPORTED_EXTENSIONS = SUPPORTED_EXTENSIONS ++ [".html"]
  /\ (forall settings bucket_name before file_path rest w uris w1,
        upload_files_to_gcs before settings bucket_name w = (Ok uris, w1) ->
        is_Some (files w !! to_str file_path) ->
        Py.lower (suffix file_path) ∉ SUPPORTED_EXTENSIONS ->
        upload_files_to_gcs (before ++ file_path :: rest) settings bucket_name w
        = (Raise (mkExn ContextCacheError
                    ("GCS upload failed: Unsupported file type: " +:+ suffix file_path
                     +:+ ". Supported: " +:+ Py.join ", " SUPPORTED_EXTENSIONS)), w1))
  /\ (forall settings parent file_path rest uploaded_docs w,
        is_Some (files w !! to_str file_path) ->
        Py.lower (suffix file_path) ∉ datastore_upload.SUPPORTED_EXTENSIONS ->
        datastore_upload.upload_to_datastore_loop settings parent (file_path :: rest)
                                                  uploaded_docs w
        = datastore_upload.upload_to_datastore_loop settings parent rest uploaded_docs w).
Proof.
  split; [reflexivity|]. split.
  - intros settings bucket_name before file_path rest w uris w1 Hbefore [data Hfile] Hext.
    pose proof (upload_files_to_gcs_run _ _ _ _ _ _ Hbefore) as (_ & _ & Hfiles & _).
    rewrite upload_files_to_gcs_unfold in Hbefore |- *.
    rewrite upload_files_loop_app.
    destruct (upload_files_loop bucket_name before [] w) as [[uris0|e] w0]; [|discriminate].
    injection Hbefore as -> ->.
    rewrite upload_files_loop_cons, Hfiles, Hfile.
    now rewrite bool_decide_eq_false_2.
  - intros settings parent file_path rest uploaded_docs w Hfile Hext.
    cbn [datastore_upload.upload_to_datastore_loop].
    unfold bind at 1. unfold path_exists, bind, get_world, ret.
    rewrite bool_decide_eq_true_2 by assumption. cbn [negb].
    now rewrite bool_decide_eq_false_2.
Qed.

(** [setup.exe] after [deck.pptx]: the deck is staged, the program rejected
    by name of its suffix. *)
Lemma unsupported_extension_handling_witness :
  upload_files_to_gcs ([mkPath "" "deck.pptx"] ++ [mkPath "" "setup.exe"])
                      sample_settings default_bucket_name sample_world
  = (Raise (mkExn ContextCacheError
              ("GCS upload failed: Unsupported file type: " +:+ suffix (mkPath "" "setup.exe")
               +:+ ". Supported: " +:+ Py.join ", " SUPPORTED_EXTENSIONS)),
     snd (upload_files_to_gcs [mkPath "" "deck.pptx"] sample_settings default_bucket_name
                              sample_world)).
Proof.
  eapply (proj1 (proj2 unsupported_extension_handling)).
  - apply run_eta. vm_compute. reflexivity.
  - vm_compute. eauto.
  - vm_compute. intros H. repeat (inversion H as [|? ? ? H']; clear H; rename H' into H).
Defined.

Example unsupported_message_names_suffix :
  fst (upload_files_to_gcs [mkPath "" "setup.exe"] sample_settings default_bucket_name
                           sample_world)
  = Raise (mkExn ContextCacheError
             "GCS upload failed: Unsupported file type: .exe. Supported: .pdf, .pptx, .docx, .txt, .md").
Proof. vm_compute. reflexivity. Qed.

(** The claim as the specification words it fails on the search-indexing
    path: [setup.exe] exists and its suffix is not on the list, yet
    [upload_to_datastore] returns normally, with an empty result and no
    request sent. *)
Lemma unsupported_extension_skipped_counterexample :
  is_Some (files sample_world !! "setup.exe")
  /\ (Py.lower (suffix (mkPath "" "setup.exe")) ∉ datastore_upload.SUPPORTED_EXTENSIONS)
  /\ fst (datastore_upload.upload_to_datastore [mkPath "" "setup.exe"] sample_settings
                                               sample_world) = Ok ∅
  /\ calls (snd (datastore_upload.upload_to_datastore [mkPath "" "setup.exe"] sample_settings
                                                      sample_world)) = [].
Proof.
  split; [vm_compute; eauto|]. split.
  - vm_compute. intros H. repeat (inversion H as [|? ? ? H']; clear H; rename H' into H).
  - split; reflexivity.
Qed.

(** *** Cache creation *)

(** C4 (cache TTL), as the code has it.  [create_context_cache] does not
    look at the TTL: for any TTL, positive or not, it stages the files
    first, which for a list that is not empty sends at least the existence
    check of the first file, and then sends the create request carrying that
    very TTL.  The code raises nothing of its own for a TTL that is not
    positive: when the create request is answered the call returns the name
    of the cache, and when the call fails it is the create request that
    failed, after the requests before it went out. *)
Theorem ttl_never_validated (settings : Settings) (first : Path) (rest : list Path)
    (system_instruction : option string) (ttl : Z) (w : World) (uris : list string)
    (w1 : World) :
  upload_files_to_gcs (first :: rest) settings default_bucket_name w = (Ok uris, w1) ->
  exists r w2 blob_name later,
    create_context_cache (Some (first :: rest)) settings system_instruction ttl w = (r, w2)
    /\ calls w1 = calls w ++ BlobExists default_bucket_name blob_name :: later
    /\ calls w2
       = calls w1 ++ [create_request settings system_instruction uris ttl first]
    /\ ((forall msg, head (faults w1) <> Some (Some msg)) ->
        exists cache_name, r = Ok cache_name)
    /\ (forall e,
          r = Raise e ->
          exists msg,
            head (faults w1) = Some (Some msg)
            /\ e = mkExn ContextCacheError ("Cache creation failed: " +:+ msg)).
Proof.
  intros Hstage.
  destruct (upload_files_to_gcs_first_call _ _ _ _ _ _ _ Hstage) as (blob_name & later & Hfirst).
  rewrite (create_context_cache_staged _ _ _ _ _ _ _ _ Hstage). cbv zeta.
  destruct (faults w1) as [|[msg|] fs].
  all: do 2 eexists; exists blob_name, later; split; [reflexivity|].
  all: split; [assumption|]; split; [reflexivity|]; split.
  all: try (intros _; eauto; fail).
  all: try discriminate.
  - intros Hnet. now destruct (Hnet msg).
  - intros e [= <-]. eauto.
Qed.

(** [week1/slides.pdf] with a TTL of minus one second. *)
Lemma ttl_never_validated_witness :
  exists r w2 blob_name later,
    create_context_cache (Some [mkPath "week1" "slides.pdf"]) sample_settings None (-1)
                         sample_world = (r, w2)
    /\ calls world_after_week1
       = calls sample_world ++ BlobExists default_bucket_name blob_name :: later
    /\ calls w2
       = calls world_after_week1
         ++ [create_request sample_settings None
               [gcs_uri_of default_bucket_name (blob_name_of content_A "slides.pdf")]
               (-1) (mkPath "week1" "slides.pdf")]
    /\ ((forall msg, head (faults world_after_week1) <> Some (Some msg)) ->
        exists cache_name, r = Ok cache_name)
    /\ (forall e,
          r = Raise e ->
          exists msg,
            head (faults world_after_week1) = Some (Some msg)
            /\ e = mkExn ContextCacheError ("Cache creation failed: " +:+ msg)).
Proof.
  apply ttl_never_validated.
  apply run_eta. vm_compute. reflexivity.
Defined.

(** The claim as the specification words it fails: with a TTL of zero no
    validation error is raised before the remote calls; three requests go
    out, the last of them the create request itself, carrying the TTL of
    zero. *)
Lemma ttl_zero_reaches_service_counterexample :
  calls sample_world = []
  /\ calls (snd (create_context_cache (Some [mkPath "week1" "slides.pdf"]) sample_settings
                                      None 0 sample_world))
     = [ BlobExists "teacher-assistant-uploads"
           ("lesson-materials/" +:+ hash_A +:+ "/slides.pdf");
         BlobUpload "teacher-assistant-uploads"
           ("lesson-materials/" +:+ hash_A +:+ "/slides.pdf") "week1/slides.pdf";
         CachedContentCreate "gemini-2.5-pro" default_instruction
           [mkContent [Part_from_uri ("gs://teacher-assistant-uploads/lesson-materials/"
                                      +:+ hash_A +:+ "/slides.pdf") "application/pdf"]]
           0 "lesson-materials-slides" ].
Proof. vm_compute. split; reflexivity. Qed.

(** C5 (empty input).  [create_context_cache] called with an empty list,
    or with no list, raises [ContextCacheError] and leaves the world as it
    was: nothing is sent and no cache is created.  (The error comes from
    [files[0]], respectively [len(files)].) *)
Theorem empty_files_rejected (settings : Settings) (system_instruction : option string)
    (ttl : Z) (w : World) :
  create_context_cache (Some []) settings system_instruction ttl w
  = (Raise (mkExn ContextCacheError "Cache creation failed: list index out of range"), w)
  /\ create_context_cache None settings system_instruction ttl w
     = (Raise (mkExn ContextCacheError
                 "Cache creation failed: object of type 'NoneType' has no len()"), w).
Proof. split; reflexivity. Qed.

(** C10 (MIME type of the contents).  When the files are staged, the
    create request that [create_context_cache] sends holds one content per
    file, in order, each a single part made of the file's staged URI and the
    MIME type ["application/pdf"], whatever the file's suffix; a cache that
    is created stores exactly these contents. *)
Theorem contents_labelled_pdf (settings : Settings) (first : Path) (rest : list Path)
    (system_instruction : option string) (ttl : Z) (w : World) (uris : list string)
    (w1 : World) :
  upload_files_to_gcs (first :: rest) settings default_bucket_name w = (Ok uris, w1) ->
  exists r w2 model_name instruction contents display_name,
    create_context_cache (Some (first :: rest)) settings system_instruction ttl w = (r, w2)
    /\ calls w2
       = calls w1 ++ [CachedContentCreate model_name instruction contents ttl display_name]
    /\ (forall i file_path,
          (first :: rest) !! i = Some file_path ->
          exists data,
            files w !! to_str file_path = Some data
            /\ contents !! i
               = Some (mkContent
                         [Part_from_uri
                            (gcs_uri_of default_bucket_name
                                        (blob_name_of data (name file_path)))
                            "application/pdf"]))
    /\ List.length contents = List.length (first :: rest)
    /\ (forall cache_name,
          r = Ok cache_name ->
          exists cache, caches w2 !! cache_name = Some cache /\ cc_contents cache = contents).
Proof.
  intros Hstage.
  pose proof (upload_files_to_gcs_run _ _ _ _ _ _ Hstage)
    as (_ & _ & _ & _ & _ & _ & Huris).
  destruct (Huris uris eq_refl) as (us & -> & Hall). simpl app in *.
  rewrite (create_context_cache_staged _ _ _ _ _ _ _ _ Hstage). cbv zeta.
  assert (Hparts : forall i file_path,
            (first :: rest) !! i = Some file_path ->
            exists data,
              files w !! to_str file_path = Some data
              /\ contents_of us !! i
                 = Some (mkContent
                           [Part_from_uri
                              (gcs_uri_of default_bucket_name
                                          (blob_name_of data (name file_path)))
                              "application/pdf"])).
  { intros i file_path Hi.
    destruct (Forall2_lookup_l _ _ _ _ _ Hall Hi) as (u & Hu & data & Hf & _ & ->).
    exists data. split; [assumption|]. unfold contents_of.
    change (map ?f us) with (f <$> us). now rewrite list_lookup_fmap, Hu. }
  assert (Hlen : List.length (contents_of us) = List.length (first :: rest)).
  { unfold contents_of. rewrite length_map. symmetry. eapply Forall2_length, Hall. }
  destruct (faults w1) as [|[msg|] fs].
  2:{ do 2 eexists. exists (specialist_model settings), (instruction_text_of system_instruction),
        (contents_of us), ("lesson-materials-" +:+ stem first).
      split; [reflexivity|]. split; [reflexivity|]. split; [assumption|].
      split; [assumption|]. discriminate. }
  all: do 2 eexists; exists (specialist_model settings),
         (instruction_text_of system_instruction), (contents_of us),
         ("lesson-materials-" +:+ stem first).
  all: split; [reflexivity|]; split; [reflexivity|]; split; [assumption|].
  all: split; [assumption|].
  all: intros cache_name [= <-]; eexists; split;
    [cbn [caches with_caches]; apply lookup_insert_eq | reflexivity].
Qed.

(** A slide deck, [deck.pptx], is handed over as a PDF. *)
Lemma contents_labelled_pdf_witness :
  exists r w2 model_name instruction contents display_name,
    create_context_cache (Some [mkPath "" "deck.pptx"]) sample_settings None
                         DEFAULT_CACHE_TTL sample_world = (r, w2)
    /\ calls w2
       = calls (snd (upload_files_to_gcs [mkPath "" "deck.pptx"] sample_settings
                                         default_bucket_name sample_world))
         ++ [CachedContentCreate model_name instruction contents DEFAULT_CACHE_TTL
                                 display_name]
    /\ (forall i file_path,
          [mkPath "" "deck.pptx"] !! i = Some file_path ->
          exists data,
            files sample_world !! to_str file_path = Some data
            /\ contents !! i
               = Some (mkContent
                         [Part_from_uri
                            (gcs_uri_of default_bucket_name
                                        (blob_name_of data (name file_path)))
                            "application/pdf"]))
    /\ List.length contents = List.length [mkPath "" "deck.pptx"]
    /\ (forall cache_name,
          r = Ok cache_name ->
          exists cache, caches w2 !! cache_name = Some cache /\ cc_contents cache = contents).
Proof.
  eapply contents_labelled_pdf.
  apply run_eta. vm_compute. reflexivity.
Defined.

Example deck_sent_as_pdf :
  last (calls (snd (create_context_cache (Some [mkPath "" "deck.pptx"]) sample_settings None
                                         DEFAULT_CACHE_TTL sample_world)))
  = Some (CachedContentCreate "gemini-2.5-pro" default_instruction
            [mkContent
               [Part_from_uri
                  ("gs://teacher-assistant-uploads/lesson-materials/"
                   +:+ "fd2c8f1dc03ce50ff48749f0a7a1bbf62f03c4960e07db60a4f55fedb3b752b5"
                   +:+ "/deck.pptx")
                  "application/pdf"]]
            3600 "lesson-materials-deck").
Proof. vm_compute. reflexivity. Qed.

(** *** Cache deletion *)

(** C6 (deleting twice), as the code has it.  [delete_cache] first looks
    the handle up.  For a handle the service no longer serves (deleted,
    expired or never created) the call raises [ContextCacheError] after the
    lookup and changes no cache.  For a live handle, with no network fault
    pending, it succeeds and the handle is gone; so of two deletes in a row
    the first succeeds and the second raises "404 Not found".  A handle
    whose expiry time has passed is treated like a deleted one. *)
Theorem delete_cache_not_idempotent (settings : Settings) (cache_name : string) (w : World) :
  (live_cache w cache_name = None ->
   exists msg,
     delete_cache cache_name settings w
     = (Raise (mkExn ContextCacheError ("Cache deletion failed: " +:+ msg)),
        sent (CachedContentGet cache_name) w))
  /\ (forall c,
        live_cache w cache_name = Some c -> cc_name c = cache_name -> faults w = [] ->
        exists w1,
          delete_cache cache_name settings w = (Ok tt, w1)
          /\ live_cache w1 cache_name = None
          /\ delete_cache cache_name settings w1
             = (Raise (mkExn ContextCacheError
                         ("Cache deletion failed: 404 Not found: " +:+ cache_name)),
                sent (CachedContentGet cache_name) w1))
  /\ (forall c dt,
        caches w !! cache_name = Some c -> cc_expire_time c <= now w + dt ->
        exists msg w',
          delete_cache cache_name settings (advance dt w)
          = (Raise (mkExn ContextCacheError ("Cache deletion failed: " +:+ msg)), w')).
Proof.
  assert (Hgone : forall w0,
            live_cache w0 cache_name = None ->
            exists msg,
              delete_cache cache_name settings w0
              = (Raise (mkExn ContextCacheError ("Cache deletion failed: " +:+ msg)),
                 sent (CachedContentGet cache_name) w0)).
  { intros w0 Hnone. rewrite delete_cache_unfold, Hnone. cbv zeta.
    destruct (faults w0) as [|[msg|] fs]; eauto. }
  split; [apply Hgone|]. split.
  - intros c Hlive Hname Hfaults.
    rewrite delete_cache_unfold, Hlive, Hfaults, Hname. cbv zeta. cbn [tail].
    eexists. split; [reflexivity|].
    assert (Hnone : live_cache
                      (with_caches (delete cache_name (caches w)) (next_cache_id w)
                         (sent (CachedContentDelete cache_name)
                            (sent (CachedContentGet cache_name) w))) cache_name = None).
    { unfold live_cache. cbn [caches with_caches]. now rewrite lookup_delete_eq. }
    split; [exact Hnone|].
    rewrite delete_cache_unfold, Hnone. cbv zeta. cbn [faults with_caches sent].
    rewrite Hfaults. reflexivity.
  - intros c dt Hc Hexpired.
    destruct (Hgone (advance dt w)) as [msg Hmsg]; [|eauto].
    unfold live_cache. cbn [caches now advance]. rewrite Hc.
    destruct (Z.ltb_spec (now w + dt) (cc_expire_time c)); [lia | reflexivity].
Qed.

(** The cache created from [week1/slides.pdf], deleted twice. *)
Lemma delete_cache_not_idempotent_witness :
  exists w1,
    delete_cache "cachedContents/0" sample_settings world_with_cache = (Ok tt, w1)
    /\ live_cache w1 "cachedContents/0" = None
    /\ delete_cache "cachedContents/0" sample_settings w1
       = (Raise (mkExn ContextCacheError
                   ("Cache deletion failed: 404 Not found: " +:+ "cachedContents/0")),
          sent (CachedContentGet "cachedContents/0") w1).
Proof.
  eapply (proj1 (proj2 (delete_cache_not_idempotent sample_settings "cachedContents/0"
                                                    world_with_cache))
            (created_cache sample_settings None
               [gcs_uri_of default_bucket_name (blob_name_of content_A "slides.pdf")]
               DEFAULT_CACHE_TTL (mkPath "week1" "slides.pdf") world_after_week1)).
  - vm_compute. reflexivity.
  - vm_compute. reflexivity.
  - vm_compute. reflexivity.
Defined.

(** The claim as the specification words it fails: the second of two
    deletes of the same handle raises. *)
Lemma delete_twice_counterexample :
  fst (delete_cache "cachedContents/0" sample_settings world_with_cache) = Ok tt
  /\ fst (delete_cache "cachedContents/0" sample_settings
            (snd (delete_cache "cachedContents/0" sample_settings world_with_cache)))
     = Raise (mkExn ContextCacheError
                "Cache deletion failed: 404 Not found: cachedContents/0").
Proof. vm_compute. split; reflexivity. Qed.

(** The same after the hour has passed, without any delete before. *)
Example delete_expired :
  fst (delete_cache "cachedContents/0" sample_settings (advance 3600 world_with_cache))
  = Raise (mkExn ContextCacheError
             "Cache deletion failed: 404 Not found: cachedContents/0").
Proof. vm_compute. reflexivity. Qed.

End tools_proofs.

(** ** More on the lesson-plan schemas *)
Module lesson_plan_more.
Import Py pydantic lesson_plan lesson_plan_proofs.

(** *** Field checks *)

Lemma check_ge_nil (field : string) (lo v : Z) : check_ge field lo v = [] <-> lo <= v.
Proof. unfold check_ge. destruct (Z.ltb_spec v lo); split; (discriminate || lia || trivial). Qed.

Lemma check_list_min_length_nil {A : Type} (field : string) (n : nat) (v : list A) :
  check_list_min_length field n v = [] <-> (n <= List.length v)%nat.
Proof.
  unfold check_list_min_length.
  destruct (Nat.ltb_spec (List.length v) n); split; (discriminate || lia || trivial).
Qed.

(** A list of models whose validation hands each item back as it is. *)
Lemma validate_items_same {A : Type} (validate : A -> Validation A) (ok : A -> Prop)
    (i : nat) (items : list A) :
  (forall x y, validate x = Valid y <-> ok x /\ y = x) ->
  reports validate ->
  (fst (validate_items validate i items) = [] <-> Forall ok items)
  /\ (Forall ok items -> snd (validate_items validate i items) = items).
Proof.
  intros Hok Hr.
  assert (Hall : Forall ok items ->
                 Forall (fun x => exists y, validate x = Valid y) items).
  { intros H. eapply Forall_impl; [exact H|]. intros x Hx. exists x. apply Hok. auto. }
  assert (Hsame : Forall ok items -> snd (validate_items validate i items) = items).
  { intros H. apply Hall in H. apply (validate_items_valid _ i) in H as [_ H].
    eapply Forall2_identity; [|exact H]. intros x y Hxy. apply Hok in Hxy. tauto. }
  split; [|exact Hsame]. split.
  - intros Hnil. apply validate_items_nil in Hnil; [|assumption].
    remember (snd (validate_items validate i items)) as ys eqn:E. clear E Hall Hsame.
    induction Hnil as [|x y xs ys Hxy _ IH]; constructor; trivial.
    apply Hok in Hxy. tauto.
  - intros H. apply Hall in H. now apply validate_items_valid.
Qed.

Definition segment_ok (s : TimelineSegment) : Prop := 0 <= start_minute s /\ 1 <= duration s.

Definition activity_ok (a : Activity) : Prop := 1 <= activity_duration a.

Lemma Activity_valid_iff (data y : Activity) :
  Activity_model_validate data = Valid y <-> activity_ok data /\ y = data.
Proof.
  unfold Activity_model_validate, activity_ok.
  rewrite model_or_errors_valid, check_ge_nil. tauto.
Qed.

Lemma Assessment_valid_iff (data : Assessment) :
  (exists y, Assessment_model_validate data = Valid y) <-> 1 <= assessment_estimated_time data.
Proof.
  unfold Assessment_model_validate. split.
  - intros [y Hy]. apply model_or_errors_valid in Hy as [Hy _]. now apply check_ge_nil in Hy.
  - intros H. exists data. apply model_or_errors_valid. now rewrite check_ge_nil.
Qed.

Lemma Homework_valid_iff (data : Homework) :
  (exists y, Homework_model_validate data = Valid y) <-> 5 <= homework_estimated_time data.
Proof.
  unfold Homework_model_validate. split.
  - intros [y Hy]. apply model_or_errors_valid in Hy as [Hy _]. now apply check_ge_nil in Hy.
  - intros H. exists data. apply model_or_errors_valid. now rewrite check_ge_nil.
Qed.

(** *** What makes a [LecturePeriod] *)

(** [data] with another timeline. *)
Definition with_timeline (data : LecturePeriod) (timeline : list TimelineSegment)
    : LecturePeriod :=
  mkLecturePeriod (period_number data) (title data) (learning_objectives data)
                  (materials data) timeline (detailed_activities data) (assessment data)
                  (differentiation data) (homework data).

(** The constraints on the fields other than the timeline's continuity. *)
Definition fields_ok (data : LecturePeriod) : Prop :=
  1 <= period_number data
  /\ (2 <= List.length (learning_objectives data))%nat
  /\ Forall segment_ok (detailed_timeline data)
  /\ Forall activity_ok (detailed_activities data)
  /\ (1 <= List.length (detailed_activities data))%nat
  /\ 1 <= assessment_estimated_time (assessment data)
  /\ 5 <= homework_estimated_time (homework data).

Lemma activities_field_nil (activities : list Activity) :
  match fst (validate_items Activity_model_validate 0 activities) with
  | [] => check_list_min_length "detailed_activities" 1 activities
  | errors => at_loc ["detailed_activities"] errors
  end = []
  <-> Forall activity_ok activities /\ (1 <= List.length activities)%nat.
Proof.
  destruct (validate_items_same Activity_model_validate activity_ok 0 activities)
    as [Hnil _].
  { intros x y. apply Activity_valid_iff. }
  { apply model_or_errors_reports. }
  destruct (fst (validate_items Activity_model_validate 0 activities)) as [|e es].
  - rewrite check_list_min_length_nil. destruct Hnil as [Hnil _]. specialize (Hnil eq_refl).
    tauto.
  - split; [discriminate|]. intros [Hall _]. apply Hnil in Hall. discriminate.
Qed.

Lemma LecturePeriod_valid_iff (data lp : LecturePeriod) :
  LecturePeriod_model_validate data = Valid lp
  <-> fields_ok data
      /\ validate_timeline_continuity (detailed_timeline data) = Ok (detailed_timeline lp)
      /\ lp = with_timeline data (detailed_timeline lp).
Proof.
  unfold LecturePeriod_model_validate. rewrite model_or_errors_valid.
  rewrite !app_nil, check_ge_nil, check_list_min_length_nil, activities_field_nil.
  rewrite validate_detailed_timeline_nil.
  rewrite (validate_nested_nil "assessment") by apply model_or_errors_reports.
  rewrite (validate_nested_nil "differentiation") by (intros x; discriminate).
  rewrite (validate_nested_nil "homework") by apply model_or_errors_reports.
  rewrite Assessment_valid_iff, Homework_valid_iff.
  unfold fields_ok. split.
  - intros ((Hn & Hobj & (Hseg & Htl) & (Hact & Hlen) & Ha & _ & Hh) & ->).
    cbn [detailed_timeline]. rewrite Htl.
    destruct (validate_items_same Activity_model_validate activity_ok 0
                (detailed_activities data)) as [_ Hsame].
    { intros x y. apply Activity_valid_iff. }
    { apply model_or_errors_reports. }
    unfold with_timeline. rewrite (Hsame Hact). tauto.
  - intros ((Hn & Hobj & Hseg & Hact & Hlen & Ha & Hh) & Htl & Hlp).
    destruct (validate_items_same Activity_model_validate activity_ok 0
                (detailed_activities data)) as [_ Hsame].
    { intros x y. apply Activity_valid_iff. }
    { apply model_or_errors_reports. }
    assert (Hstored : snd (validate_detailed_timeline (detailed_timeline data))
                      = detailed_timeline lp).
    { assert (H0 : fst (validate_detailed_timeline (detailed_timeline data)) = []).
      { apply validate_detailed_timeline_nil. split; [assumption|].
        unfold validate_detailed_timeline.
        destruct (validate_items_same TimelineSegment_model_validate segment_ok 0
                    (detailed_timeline data)) as [Hnil Hs].
        { intros x y. rewrite TimelineSegment_valid_iff. unfold segment_ok. tauto. }
        { apply model_or_errors_reports. }
        destruct (validate_items TimelineSegment_model_validate 0 (detailed_timeline data))
          as [es vs]. simpl in *. rewrite (proj2 Hnil Hseg), (Hs Hseg), Htl. reflexivity. }
      apply validate_detailed_timeline_nil in H0 as [_ H0]. congruence. }
    split.
    + repeat split; try assumption.
      * rewrite Hstored. assumption.
      * exists (differentiation data). reflexivity.
    + rewrite Hlp at 1. unfold with_timeline. now rewrite Hstored, (Hsame Hact).
Qed.

(** *** Timelines that tile *)

Definition start_lt (a b : TimelineSegment) : Prop := start_minute a < start_minute b.

(** Minutes covered by the segments, counted one by one. *)
Definition total_duration (l : list TimelineSegment) : Z :=
  fold_right (fun s acc => duration s + acc) 0 l.

Lemma tiles_tail (a : TimelineSegment) (l : list TimelineSegment) : tiles (a :: l) -> tiles l.
Proof. intros H j x y Hx Hy. apply (H (S j) x y); assumption. Qed.

Lemma tiles_strict (l : list TimelineSegment) :
  tiles l -> Forall segment_ok l -> StronglySorted start_lt l.
Proof.
  intros Ht Hok. apply Sorted_StronglySorted.
  { intros a b c. unfold start_lt. lia. }
  induction l as [|a l IH]; [constructor|].
  inversion Hok as [|? ? [_ Ha] Hok']; subst.
  constructor; [apply IH; [eapply tiles_tail; eassumption | assumption]|].
  destruct l as [|b l]; constructor.
  unfold start_lt. specialize (Ht 0%nat a b eq_refl eq_refl). unfold end_minute in Ht. lia.
Qed.

Lemma sorted_id {A : Type} (key : A -> Z) (l : list A) :
  Sorted (key_le key) l -> sorted l key = l.
Proof.
  induction 1 as [|a l Hl IH Hhd]; [reflexivity|].
  cbn [sorted fold_right]. fold (sorted l key). rewrite IH.
  destruct Hhd as [|b l' Hab]; [reflexivity|]. cbn [insert_by].
  unfold key_le in Hab. now destruct (Z.leb_spec (key a) (key b)); [|lia].
Qed.

Lemma strict_le (l : list TimelineSegment) :
  StronglySorted start_lt l -> Sorted (key_le start_minute) l.
Proof.
  intros H. apply StronglySorted_Sorted.
  induction H as [|a l Hl IH Ha]; constructor; trivial.
  eapply Forall_impl; [exact Ha|]. intros b. unfold start_lt, key_le. lia.
Qed.

(** A strictly increasing list is the only sorted arrangement of its items. *)
Lemma strict_sorted_unique (l1 l2 : list TimelineSegment) :
  StronglySorted start_lt l1 -> StronglySorted (key_le start_minute) l2 ->
  Permutation l1 l2 -> l2 = l1.
Proof.
  intros H1. revert l2. induction H1 as [|a l1 Hl1 IH Ha]; intros l2 H2 Hperm.
  - now apply Permutation_nil in Hperm.
  - destruct l2 as [|b l2]; [now apply Permutation_sym, Permutation_nil in Hperm|].
    inversion H2 as [|? ? Hl2 Hb]; subst.
    assert (b = a) as ->.
    { assert (Hin_b : b ∈ a :: l1).
      { rewrite Hperm. apply list_elem_of_here. }
      assert (Hin_a : a ∈ b :: l2).
      { rewrite <- Hperm. apply list_elem_of_here. }
      apply elem_of_cons in Hin_b as [->|Hin_b]; [reflexivity|].
      apply elem_of_cons in Hin_a as [->|Hin_a]; [reflexivity|].
      rewrite Forall_forall in Ha, Hb.
      specialize (Ha b Hin_b). specialize (Hb a Hin_a).
      unfold start_lt, key_le in *. lia. }
    f_equal. apply IH; [assumption|]. eapply Permutation_cons_inv. exact Hperm.
Qed.

Lemma tiles_span (a : TimelineSegment) (l : list TimelineSegment) :
  tiles (a :: l) ->
  exists z,
    last (a :: l) = Some z
    /\ total_duration (a :: l) = end_minute z - start_minute a.
Proof.
  revert a. induction l as [|b l IH]; intros a Ht.
  - exists a. split; [reflexivity|]. unfold end_minute. simpl. lia.
  - destruct (IH b (tiles_tail _ _ Ht)) as (z & Hlast & Hsum).
    exists z. split; [exact Hlast|].
    specialize (Ht 0%nat a b eq_refl eq_refl). unfold end_minute in *.
    change (total_duration (a :: b :: l)) with (duration a + total_duration (b :: l)). lia.
Qed.

Lemma total_duration_perm (l1 l2 : list TimelineSegment) :
  Permutation l1 l2 -> total_duration l1 = total_duration l2.
Proof.
  induction 1 as [|x l l' _ IH|x y l|l l' l'' _ IH1 _ IH2]; simpl; try lia.
Qed.

(** *** Constructed lecture periods *)

(** What holds of every [LecturePeriod] that validation returns. *)
Definition lecture_ok (lp : LecturePeriod) : Prop :=
  fields_ok lp
  /\ detailed_timeline lp <> []
  /\ StronglySorted start_lt (detailed_timeline lp)
  /\ tiles (detailed_timeline lp).

Lemma valid_lecture_ok (data lp : LecturePeriod) :
  LecturePeriod_model_validate data = Valid lp -> lecture_ok lp.
Proof.
  intros H. apply LecturePeriod_valid_iff in H as (Hf & Htl & Hlp).
  apply validate_timeline_continuity_ok in Htl as (Hne & Hsorted & Htiles).
  rewrite <- Hsorted in Htiles.
  destruct Hf as (Hn & Hobj & Hseg & Hact & Hlen & Ha & Hh).
  assert (Hseg' : Forall segment_ok (detailed_timeline lp)).
  { rewrite Hsorted. eapply Permutation_Forall; [apply sorted_perm | exact Hseg]. }
  split; [|split; [|split]].
  - rewrite Hlp. unfold fields_ok, with_timeline. cbn. tauto.
  - rewrite Hsorted. intros Hnil. apply sorted_nil_iff in Hnil. contradiction.
  - now apply tiles_strict.
  - assumption.
Qed.

Lemma lecture_ok_valid (lp : LecturePeriod) :
  lecture_ok lp -> LecturePeriod_model_validate lp = Valid lp.
Proof.
  intros (Hf & Hne & Hstrict & Htiles). apply LecturePeriod_valid_iff.
  split; [assumption|]. split.
  - apply validate_timeline_continuity_ok.
    rewrite (sorted_id start_minute _ (strict_le _ Hstrict)). auto.
  - now destruct lp.
Qed.

(** X1.  Every [LecturePeriod] that is built has a positive period number,
    at least two learning objectives and one activity, activities of at
    least a minute, an assessment of at least a minute, homework of at least
    five, and a timeline that is not empty, whose segments start at minute 0
    or later and last a minute or more, start strictly one after the other
    and each end where the next starts. *)
Theorem lecture_period_invariants (data lp : LecturePeriod) :
  LecturePeriod_model_validate data = Valid lp ->
  1 <= period_number lp
  /\ (2 <= List.length (learning_objectives lp))%nat
  /\ (1 <= List.length (detailed_activities lp))%nat
  /\ Forall (fun a => 1 <= activity_duration a) (detailed_activities lp)
  /\ 1 <= assessment_estimated_time (assessment lp)
  /\ 5 <= homework_estimated_time (homework lp)
  /\ detailed_timeline lp <> []
  /\ Forall (fun s => 0 <= start_minute s /\ 1 <= duration s) (detailed_timeline lp)
  /\ StronglySorted (fun a b => start_minute a < start_minute b) (detailed_timeline lp)
  /\ (forall j a b,
        detailed_timeline lp !! j = Some a -> detailed_timeline lp !! (j + 1)%nat = Some b ->
        end_minute a = start_minute b).
Proof.
  intros H. apply valid_lecture_ok in H
    as ((Hn & Hobj & Hseg & Hact & Hlen & Ha & Hh) & Hne & Hstrict & Htiles).
  repeat (split; [assumption|]). exact Htiles.
Qed.

Lemma lecture_period_invariants_witness :
  1 <= period_number (sample_lecture 1 tiling_timeline)
  /\ (2 <= List.length (learning_objectives (sample_lecture 1 tiling_timeline)))%nat
  /\ (1 <= List.length (detailed_activities (sample_lecture 1 tiling_timeline)))%nat
  /\ Forall (fun a => 1 <= activity_duration a)
            (detailed_activities (sample_lecture 1 tiling_timeline))
  /\ 1 <= assessment_estimated_time (assessment (sample_lecture 1 tiling_timeline))
  /\ 5 <= homework_estimated_time (homework (sample_lecture 1 tiling_timeline))
  /\ detailed_timeline (sample_lecture 1 tiling_timeline) <> []
  /\ Forall (fun s => 0 <= start_minute s /\ 1 <= duration s)
            (detailed_timeline (sample_lecture 1 tiling_timeline))
  /\ StronglySorted (fun a b => start_minute a < start_minute b)
                    (detailed_timeline (sample_lecture 1 tiling_timeline))
  /\ (forall j a b,
        detailed_timeline (sample_lecture 1 tiling_timeline) !! j = Some a ->
        detailed_timeline (sample_lecture 1 tiling_timeline) !! (j + 1)%nat = Some b ->
        end_minute a = start_minute b).
Proof.
  apply (lecture_period_invariants (sample_lecture 1 shuffled_timeline)). reflexivity.
Defined.

(** X2.  In a [LecturePeriod] that is built the durations of the segments
    add up to the span from the start of the first segment to the end of the
    last, and so do the durations of the segments as they were given. *)
Theorem timeline_covers_its_span (data lp : LecturePeriod) :
  LecturePeriod_model_validate data = Valid lp ->
  exists first final,
    head (detailed_timeline lp) = Some first
    /\ last (detailed_timeline lp) = Some final
    /\ total_duration (detailed_timeline lp) = end_minute final - start_minute first
    /\ total_duration (detailed_timeline data) = end_minute final - start_minute first.
Proof.
  intros H. pose proof (valid_lecture_ok _ _ H) as (_ & Hne & _ & Htiles).
  apply LecturePeriod_valid_iff in H as (_ & Htl & _).
  apply validate_timeline_continuity_ok in Htl as (_ & Hsorted & _).
  destruct (detailed_timeline lp) as [|a l] eqn:E; [congruence|].
  destruct (tiles_span a l Htiles) as (z & Hlast & Hsum).
  exists a, z. split; [reflexivity|]. split; [assumption|]. split; [assumption|].
  rewrite <- Hsum, Hsorted. apply total_duration_perm, sorted_perm.
Qed.

Lemma timeline_covers_its_span_witness :
  exists first final,
    head (detailed_timeline (sample_lecture 1 tiling_timeline)) = Some first
    /\ last (detailed_timeline (sample_lecture 1 tiling_timeline)) = Some final
    /\ total_duration (detailed_timeline (sample_lecture 1 tiling_timeline))
       = end_minute final - start_minute first
    /\ total_duration (detailed_timeline (sample_lecture 1 shuffled_timeline))
       = end_minute final - start_minute first.
Proof.
  apply (timeline_covers_its_span (sample_lecture 1 shuffled_timeline)). reflexivity.
Defined.

(** X3.  The order in which the segments are given does not matter: a
    [LecturePeriod] is built from a list of segments exactly when it is
    built from any rearrangement of that list, and it is the same one. *)
Theorem timeline_order_irrelevant (data lp : LecturePeriod)
    (segments : list TimelineSegment) :
  Permutation (detailed_timeline data) segments ->
  LecturePeriod_model_validate data = Valid lp ->
  LecturePeriod_model_validate (with_timeline data segments) = Valid lp.
Proof.
  intros Hperm H. pose proof (valid_lecture_ok _ _ H) as (_ & _ & Hstrict & _).
  apply LecturePeriod_valid_iff in H as (Hf & Htl & Hlp).
  apply validate_timeline_continuity_ok in Htl as (Hne & Hsorted & Htiles).
  apply LecturePeriod_valid_iff.
  destruct Hf as (Hn & Hobj & Hseg & Hact & Hlen & Ha & Hh).
  assert (Hsame : sorted segments start_minute = detailed_timeline lp).
  { apply strict_sorted_unique; [assumption | apply sorted_StronglySorted |].
    rewrite Hsorted, <- (sorted_perm start_minute segments), <- Hperm.
    symmetry. apply sorted_perm. }
  split; [|split].
  - unfold fields_ok, with_timeline. cbn. repeat (split; [assumption|]).
    split; [|tauto]. eapply Permutation_Forall; [exact Hperm | exact Hseg].
  - unfold with_timeline. cbn [detailed_timeline].
    apply validate_timeline_continuity_ok. rewrite Hsame. split; [|split].
    + intros ->. apply Permutation_nil_r in Hperm. contradiction.
    + reflexivity.
    + now rewrite <- Hsorted in Htiles.
  - rewrite Hlp at 1. reflexivity.
Qed.

Lemma timeline_order_irrelevant_witness :
  LecturePeriod_model_validate
    (with_timeline (sample_lecture 1 shuffled_timeline)
                   [segment 0 10; segment 30 15; segment 10 20])
  = Valid (sample_lecture 1 tiling_timeline).
Proof.
  apply timeline_order_irrelevant.
  - unfold sample_lecture, shuffled_timeline. cbn [detailed_timeline].
    change [segment 10 20; segment 30 15; segment 0 10]
      with ([segment 10 20; segment 30 15] ++ [segment 0 10]).
    rewrite <- Permutation_cons_append. apply perm_skip, perm_swap.
  - reflexivity.
Defined.

(** X4.  A [LecturePeriod] is built exactly when every field constraint
    holds, the timeline is not empty, and what is stored is the input with
    its timeline replaced by the rearrangement of the segments that is in
    order of start and tiles; nothing else is changed. *)
Theorem lecture_period_accepted_iff (data lp : LecturePeriod) :
  LecturePeriod_model_validate data = Valid lp
  <-> (1 <= period_number data
       /\ (2 <= List.length (learning_objectives data))%nat
       /\ Forall (fun s => 0 <= start_minute s /\ 1 <= duration s) (detailed_timeline data)
       /\ Forall (fun a => 1 <= activity_duration a) (detailed_activities data)
       /\ (1 <= List.length (detailed_activities data))%nat
       /\ 1 <= assessment_estimated_time (assessment data)
       /\ 5 <= homework_estimated_time (homework data))
      /\ detailed_timeline data <> []
      /\ Permutation (detailed_timeline data) (detailed_timeline lp)
      /\ StronglySorted (key_le start_minute) (detailed_timeline lp)
      /\ tiles (detailed_timeline lp)
      /\ lp = with_timeline data (detailed_timeline lp).
Proof.
  rewrite LecturePeriod_valid_iff, validate_timeline_continuity_ok.
  change (_ /\ _ /\ _ /\ _ /\ _ /\ _ /\ 5 <= homework_estimated_time (homework data))
    with (fields_ok data).
  split.
  - intros (Hf & (Hne & Hs & Ht) & Hlp). rewrite Hs.
    split; [assumption|]. split; [assumption|]. split; [apply sorted_perm|].
    split; [apply sorted_StronglySorted|]. split; [assumption|]. now rewrite <- Hs.
  - intros (Hf & Hne & Hperm & Hsorted & Ht & Hlp).
    assert (Hs : sorted (detailed_timeline data) start_minute = detailed_timeline lp).
    { apply strict_sorted_unique.
      - apply tiles_strict; [assumption|].
        eapply Permutation_Forall; [exact Hperm | apply Hf].
      - apply sorted_StronglySorted.
      - rewrite <- Hperm. apply sorted_perm. }
    rewrite Hs. auto.
Qed.

(** X5.  Validation is idempotent on lecture periods: one that was built
    passes validation again and comes back unchanged. *)
Theorem lecture_period_revalidates (data lp : LecturePeriod) :
  LecturePeriod_model_validate data = Valid lp ->
  LecturePeriod_model_validate lp = Valid lp.
Proof. intros H. apply lecture_ok_valid. eapply valid_lecture_ok. exact H. Qed.

Lemma lecture_period_revalidates_witness :
  LecturePeriod_model_validate (sample_lecture 1 tiling_timeline)
  = Valid (sample_lecture 1 tiling_timeline).
Proof.
  apply (lecture_period_revalidates (sample_lecture 1 shuffled_timeline)). reflexivity.
Defined.

(** *** Complete plans *)

(** [data] with other lectures. *)
Definition with_lectures (data : CompleteLessonPlan) (periods : list LecturePeriod)
    : CompleteLessonPlan :=
  mkCompleteLessonPlan (generated_at data) (course_title data) (course_description data)
                       (request data) periods (resource_links data) (progression_map data)
                       (prerequisites_summary data) (learning_outcomes_summary data).

(** [data] with another request. *)
Definition with_request (data : CompleteLessonPlan) (r : LessonPlanRequest)
    : CompleteLessonPlan :=
  mkCompleteLessonPlan (generated_at data) (course_title data) (course_description data)
                       r (lectures data) (resource_links data) (progression_map data)
                       (prerequisites_summary data) (learning_outcomes_summary data).

Definition with_lecture_duration (r : LessonPlanRequest) (minutes : Z) : LessonPlanRequest :=
  mkLessonPlanRequest (topic r) (grade r) minutes (total_periods r) (difficulty r)
                      (teaching_approach r) (prior_knowledge r) (lab_required r)
                      (programming_language r) (resource_files r) (cached_content_name r)
                      (additional_context r).

Definition with_period_number (lp : LecturePeriod) (number : Z) : LecturePeriod :=
  mkLecturePeriod number (title lp) (learning_objectives lp) (materials lp)
                  (detailed_timeline lp) (detailed_activities lp) (assessment lp)
                  (differentiation lp) (homework lp).

(** [data] with other resource links. *)
Definition with_links (data : CompleteLessonPlan) (links : list ResourceLink)
    : CompleteLessonPlan :=
  mkCompleteLessonPlan (generated_at data) (course_title data) (course_description data)
                       (request data) (lectures data) links (progression_map data)
                       (prerequisites_summary data) (learning_outcomes_summary data).

Definition with_url (link : ResourceLink) (stored_url : string) : ResourceLink :=
  mkResourceLink (resource_title link) stored_url (resource_type link)
                 (resource_description link) (recommended_for link).

(** [y] is [x] with its timeline put in order of start. *)
Definition timeline_put_in_order (x y : LecturePeriod) : Prop :=
  y = with_timeline x (detailed_timeline y)
  /\ Permutation (detailed_timeline x) (detailed_timeline y)
  /\ StronglySorted (key_le start_minute) (detailed_timeline y).

Lemma validate_items_built {A : Type} (validate : A -> Validation A) (i : nat)
    (xs ys : list A) :
  Forall2 (fun x y => validate x = Valid y) xs ys ->
  validate_items validate i xs = ([], ys).
Proof.
  intros H. revert i. induction H as [|x y xs ys Hxy _ IH]; intros i; simpl; [reflexivity|].
  now rewrite Hxy, IH.
Qed.

Lemma valid_timeline_put_in_order (x y : LecturePeriod) :
  LecturePeriod_model_validate x = Valid y -> timeline_put_in_order x y.
Proof.
  intros H. apply LecturePeriod_valid_iff in H as (_ & Htl & Hy).
  apply validate_timeline_continuity_ok in Htl as (_ & Hs & _).
  split; [assumption|]. rewrite Hs.
  split; [apply sorted_perm | apply sorted_StronglySorted].
Qed.

Section Plans.
Variable HttpUrl : string -> option string.

(** [stored] is [link] with its URL normalised. *)
Definition url_normalised (link stored : ResourceLink) : Prop :=
  HttpUrl (url link) = Some (url stored) /\ stored = with_url link (url stored).

Lemma ResourceLink_valid_iff (x y : ResourceLink) :
  ResourceLink_model_validate HttpUrl x = Valid y <-> url_normalised x y.
Proof.
  unfold ResourceLink_model_validate, url_normalised, with_url.
  destruct (HttpUrl (url x)) as [u|]; split.
  - intros [= <-]. auto.
  - intros [[= ->] ->]. reflexivity.
  - discriminate.
  - intros [[=] _].
Qed.

Lemma ResourceLink_reports : reports (ResourceLink_model_validate HttpUrl).
Proof.
  intros x. unfold ResourceLink_model_validate. destruct (HttpUrl (url x)); discriminate.
Qed.

Lemma CompleteLessonPlan_valid_iff (data plan : CompleteLessonPlan) :
  CompleteLessonPlan_model_validate HttpUrl data = Valid plan
  <-> within_bounds (request data)
      /\ Forall2 (fun x y => LecturePeriod_model_validate x = Valid y)
                 (lectures data) (lectures plan)
      /\ Z.of_nat (List.length (lectures data)) = total_periods (request data)
      /\ Forall2 url_normalised (resource_links data) (resource_links plan)
      /\ plan = with_links (with_lectures data (lectures plan)) (resource_links plan).
Proof.
  split.
  - intros Hvalid. unfold CompleteLessonPlan_model_validate in Hvalid.
    apply model_or_errors_valid in Hvalid as [Herr ->]. cbn [lectures resource_links].
    apply app_eq_nil in Herr as [Hreq Herr]. apply app_eq_nil in Herr as [Hlec Hlinks].
    apply validate_nested_nil in Hreq as [r Hr].
    2:{ apply model_or_errors_reports. }
    rewrite Hr in *. apply LessonPlanRequest_valid_iff in Hr as [Hb ->].
    apply validate_lectures_nil in Hlec as [Hall Hcount].
    apply at_loc_nil in Hlinks. apply validate_items_nil in Hlinks; [|apply ResourceLink_reports].
    repeat (split; [assumption|]). split; [|reflexivity].
    eapply Forall2_impl; [exact Hlinks|]. intros x y. apply ResourceLink_valid_iff.
  - intros (Hb & Hall & Hcount & Hlinks & Hplan).
    unfold CompleteLessonPlan_model_validate, validate_nested.
    rewrite (validate_request_valid _ Hb).
    rewrite validate_lectures_assembled.
    2:{ clear -Hall. induction Hall; constructor; eauto. }
    assert (Hbuilt : validate_items (ResourceLink_model_validate HttpUrl) 0 (resource_links data)
                     = ([], resource_links plan)).
    { apply validate_items_built. eapply Forall2_impl; [exact Hlinks|].
      intros x y. apply ResourceLink_valid_iff. }
    rewrite Hbuilt, (validate_items_built _ _ _ _ Hall).
    apply Z.eqb_eq in Hcount as Hcount'. rewrite Hcount'.
    destruct (lectures data) eqn:El.
    + unfold within_bounds in Hb. simpl in Hcount. lia.
    + simpl. f_equal. symmetry. exact Hplan.
Qed.

(** X6.  A [CompleteLessonPlan] that is built is the input with the
    timeline of each lecture put in order of start and the URL of each
    resource link normalised; the request, the number and the order of the
    lectures and of the links, and every other field are as given. *)
Theorem plan_is_input_with_sorted_timelines (data plan : CompleteLessonPlan) :
  CompleteLessonPlan_model_validate HttpUrl data = Valid plan ->
  plan = with_links (with_lectures data (lectures plan)) (resource_links plan)
  /\ Forall2 timeline_put_in_order (lectures data) (lectures plan)
  /\ Forall2 url_normalised (resource_links data) (resource_links plan).
Proof.
  intros H. apply CompleteLessonPlan_valid_iff in H as (_ & Hall & _ & Hlinks & Hplan).
  split; [assumption|]. split; [|assumption].
  eapply Forall2_impl; [exact Hall|]. apply valid_timeline_put_in_order.
Qed.

(** X7.  Validation is idempotent on plans as far as the code goes: a plan
    that was built, validated again from its own field values, comes back
    unchanged, provided the URLs it stores are left as they are by the URL
    normalisation (which is pydantic's, not the repository's). *)
Theorem plan_revalidates (data plan : CompleteLessonPlan) :
  CompleteLessonPlan_model_validate HttpUrl data = Valid plan ->
  Forall (fun link => HttpUrl (url link) = Some (url link)) (resource_links plan) ->
  CompleteLessonPlan_model_validate HttpUrl plan = Valid plan.
Proof.
  intros H Hfixed.
  apply CompleteLessonPlan_valid_iff in H as (Hb & Hall & Hcount & Hlinks & Hplan).
  apply CompleteLessonPlan_valid_iff.
  assert (Hreq : request plan = request data) by now rewrite Hplan.
  rewrite Hreq. split; [assumption|]. split; [|split; [|split]].
  - clear -Hall. induction Hall as [|x y xs ys Hxy _ IH]; constructor; [|assumption].
    apply lecture_ok_valid. eapply valid_lecture_ok. exact Hxy.
  - apply Forall2_length in Hall. now rewrite <- Hall.
  - clear -Hfixed. induction Hfixed as [|link links Hlink _ IH]; constructor; [|assumption].
    split; [assumption | now destruct link].
  - now destruct plan.
Qed.

(** X8.  The length of a lecture's timeline is never compared with the
    request's [lecture_duration]: a plan that is built is still built when
    the request asks for any other duration from 30 to 180 minutes. *)
Theorem lecture_duration_unchecked (data plan : CompleteLessonPlan) (minutes : Z) :
  CompleteLessonPlan_model_validate HttpUrl data = Valid plan ->
  30 <= minutes <= 180 ->
  CompleteLessonPlan_model_validate HttpUrl
    (with_request data (with_lecture_duration (request data) minutes))
  = Valid (with_request plan (with_lecture_duration (request data) minutes)).
Proof.
  intros H Hm. apply CompleteLessonPlan_valid_iff in H as (Hb & Hall & Hcount & Hlinks & Hplan).
  apply CompleteLessonPlan_valid_iff. cbn.
  split; [|split; [|split; [|split]]]; try assumption.
  - unfold within_bounds in *. cbn. tauto.
  - rewrite Hplan at 1. reflexivity.
Qed.

(** X9.  Period numbers are only required to be at least 1: a plan that is
    built is still built when its lectures are numbered in any other way,
    in sequence or not, with repetitions or not. *)
Theorem period_numbers_unchecked (data plan : CompleteLessonPlan) (numbers : list Z) :
  CompleteLessonPlan_model_validate HttpUrl data = Valid plan ->
  List.length numbers = List.length (lectures data) ->
  Forall (fun n => 1 <= n) numbers ->
  CompleteLessonPlan_model_validate HttpUrl
    (with_lectures data (zip_with with_period_number (lectures data) numbers))
  = Valid (with_lectures plan (zip_with with_period_number (lectures plan) numbers)).
Proof.
  intros H Hlen Hpos.
  apply CompleteLessonPlan_valid_iff in H as (Hb & Hall & Hcount & Hlinks & Hplan).
  apply CompleteLessonPlan_valid_iff. cbn.
  split; [assumption|]. split; [|split; [|split]].
  - clear -Hall Hlen Hpos. revert numbers Hlen Hpos.
    induction Hall as [|x y xs ys Hxy _ IH]; intros [|n numbers] Hlen Hpos;
      try discriminate; [constructor|].
    simpl. inversion Hpos; subst. constructor; [|apply IH; [simpl in Hlen; lia | assumption]].
    apply LecturePeriod_valid_iff in Hxy as (Hf & Htl & Hy).
    apply LecturePeriod_valid_iff. cbn. split; [|split].
    + unfold fields_ok in *. cbn. tauto.
    + assumption.
    + rewrite Hy at 1. reflexivity.
  - rewrite length_zip_with. lia.
  - assumption.
  - rewrite Hplan at 1. reflexivity.
Qed.

End Plans.

(** Three lectures given with their segments out of order, and a link to a
    site given without a path. *)
Definition linked_plan : CompleteLessonPlan :=
  with_links
    (with_lectures (sample_plan 3 3)
       (map (fun i => sample_lecture (Z.of_nat i) shuffled_timeline) (seq 1 3)))
    [mkResourceLink "Light and life" "https://example.com" VIDEO "An introduction" [1]].

(** The same as it is stored. *)
Definition linked_plan_stored : CompleteLessonPlan :=
  with_links (sample_plan 3 3)
    [mkResourceLink "Light and life" "https://example.com/" VIDEO "An introduction" [1]].

Lemma plan_is_input_with_sorted_timelines_witness :
  linked_plan_stored
  = with_links (with_lectures linked_plan (lectures linked_plan_stored))
               (resource_links linked_plan_stored)
  /\ Forall2 timeline_put_in_order (lectures linked_plan) (lectures linked_plan_stored)
  /\ Forall2 (url_normalised sample_HttpUrl)
             (resource_links linked_plan) (resource_links linked_plan_stored).
Proof.
  apply (plan_is_input_with_sorted_timelines sample_HttpUrl linked_plan linked_plan_stored).
  reflexivity.
Defined.

Lemma plan_revalidates_witness :
  CompleteLessonPlan_model_validate sample_HttpUrl linked_plan_stored
  = Valid linked_plan_stored.
Proof.
  apply (plan_revalidates sample_HttpUrl linked_plan).
  - reflexivity.
  - repeat constructor.
Defined.

(** The 45-minute sample timelines under a request for 180-minute lectures. *)
Lemma lecture_duration_unchecked_witness :
  CompleteLessonPlan_model_validate sample_HttpUrl
    (with_request (sample_plan 3 3)
       (with_lecture_duration (request (sample_plan 3 3)) 180))
  = Valid (with_request (sample_plan 3 3)
             (with_lecture_duration (request (sample_plan 3 3)) 180)).
Proof.
  apply lecture_duration_unchecked; [reflexivity | lia].
Defined.

(** Three lectures numbered 7, 7 and 2. *)
Lemma period_numbers_unchecked_witness :
  CompleteLessonPlan_model_validate sample_HttpUrl
    (with_lectures (sample_plan 3 3)
       (zip_with with_period_number (lectures (sample_plan 3 3)) [7; 7; 2]))
  = Valid (with_lectures (sample_plan 3 3)
             (zip_with with_period_number (lectures (sample_plan 3 3)) [7; 7; 2])).
Proof.
  apply period_numbers_unchecked; [reflexivity | reflexivity |].
  repeat constructor; lia.
Defined.

End lesson_plan_more.

(** ** More on file staging and context caches *)
Module tools_more.
Import Cloud context_cache tools_proofs.

(** The coming request is not failed by the network. *)
Definition next_request_passes (w : World) : Prop :=
  forall msg, head (faults w) <> Some (Some msg).

(** No coming request is failed by the network. *)
Definition network_up (w : World) : Prop := Forall (fun f => f = None) (faults w).

Lemma network_up_tail (c : Call) (w : World) : network_up w -> network_up (sent c w).
Proof.
  unfold network_up. cbn [faults sent]. intros H. destruct (faults w); [constructor|].
  now inversion H.
Qed.

(** *** What staging leaves in place *)

Lemma upload_files_loop_keeps_blobs (bucket_name : string) (paths : list Path) :
  forall gcs_uris w r w',
    upload_files_loop bucket_name paths gcs_uris w = (r, w') ->
    blobs w ⊆ blobs w'
    /\ (forall b n, b <> bucket_name -> blobs w' !! (b, n) = blobs w !! (b, n)).
Proof.
  induction paths as [|file_path rest IH]; intros gcs_uris w r w' Hrun.
  { injection Hrun as <- <-. split; [reflexivity | auto]. }
  rewrite upload_files_loop_cons in Hrun.
  destruct (files w !! to_str file_path) as [data|] eqn:Hfile.
  2:{ injection Hrun as <- <-. split; [reflexivity | auto]. }
  destruct (bool_decide (Py.lower (suffix file_path) ∈ SUPPORTED_EXTENSIONS)) eqn:Hext.
  2:{ injection Hrun as <- <-. split; [reflexivity | auto]. }
  cbv zeta in Hrun. set (blob := blob_name_of data (name file_path)) in *.
  assert (Huploaded : forall us w0,
            blobs w0 = <[(bucket_name, blob) := data]> (blobs w) ->
            ~ is_Some (blobs w !! (bucket_name, blob)) ->
            upload_files_loop bucket_name rest us w0 = (r, w') ->
            blobs w ⊆ blobs w'
            /\ (forall b n, b <> bucket_name -> blobs w' !! (b, n) = blobs w !! (b, n))).
  { intros us w0 Hw0 Habsent Hrest. apply IH in Hrest as [Hsub Hother]. rewrite Hw0 in *. split.
    - etrans; [|exact Hsub]. apply insert_subseteq. now apply eq_None_not_Some.
    - intros b n Hb. rewrite Hother by assumption. apply lookup_insert_ne. congruence. }
  destruct (faults w) as [|[msg|] fs] eqn:Hf.
  2:{ injection Hrun as <- <-. split; [reflexivity | auto]. }
  all: destruct (bool_decide (is_Some (blobs w !! (bucket_name, blob)))) eqn:Hpresent.
  all: try (apply IH in Hrun; exact Hrun).
  all: apply bool_decide_eq_false in Hpresent.
  all: cbn [faults sent tail] in Hrun; rewrite Hf in Hrun; cbn [tail] in Hrun.
  - eapply Huploaded; [|exact Hpresent|exact Hrun]. reflexivity.
  - destruct fs as [|[msg|] fs].
    + eapply Huploaded; [|exact Hpresent|exact Hrun]. reflexivity.
    + injection Hrun as <- <-. split; [reflexivity | auto].
    + eapply Huploaded; [|exact Hpresent|exact Hrun]. reflexivity.
Qed.


(** X10.  Staging only ever adds blobs, and only to the bucket it is given:
    whether it returns or raises, the local files, the caches and the
    indexed documents are as before, every blob that was stored is still
    stored with the content it had, and the other buckets are untouched. *)
Theorem staging_only_adds_blobs (settings : Settings) (bucket_name : string)
    (paths : list Path) (w : World) (r : Result (list string)) (w' : World) :
  upload_files_to_gcs paths settings bucket_name w = (r, w') ->
  files w' = files w /\ caches w' = caches w /\ documents w' = documents w
  /\ (forall k data, blobs w !! k = Some data -> blobs w' !! k = Some data)
  /\ (forall b n, b <> bucket_name -> blobs w' !! (b, n) = blobs w !! (b, n)).
Proof.
  intros Hrun.
  pose proof (upload_files_to_gcs_run _ _ _ _ _ _ Hrun)
    as (_ & _ & Hfiles & (Hcaches & Hdocs & _) & _).
  rewrite upload_files_to_gcs_unfold in Hrun.
  destruct (upload_files_loop bucket_name paths [] w) as [r0 w0] eqn:Hloop.
  apply upload_files_loop_keeps_blobs in Hloop as [Hsub Hother].
  assert (w0 = w') as -> by (destruct r0; congruence).
  repeat (split; [assumption|]). split; [|assumption].
  intros k data Hk. eapply lookup_weaken; eassumption.
Qed.

Lemma staging_only_adds_blobs_witness :
  files world_after_week1 = files sample_world
  /\ caches world_after_week1 = caches sample_world
  /\ documents world_after_week1 = documents sample_world
  /\ (forall k data,
        blobs sample_world !! k = Some data -> blobs world_after_week1 !! k = Some data)
  /\ (forall b n, b <> default_bucket_name ->
        blobs world_after_week1 !! (b, n) = blobs sample_world !! (b, n)).
Proof.
  apply (staging_only_adds_blobs sample_settings default_bucket_name
           [mkPath "week1" "slides.pdf"] sample_world
           (Ok [gcs_uri_of default_bucket_name (blob_name_of content_A "slides.pdf")])).
  apply run_eta. vm_compute. reflexivity.
Defined.

(** *** What staging leaves behind *)

(** The file at [file_path] of [w] is staged as [uri], and its blob is in
    the bucket of [w']. *)
Definition stored (bucket_name : string) (w w' : World) (file_path : Path) (uri : string)
    : Prop :=
  exists data,
    files w !! to_str file_path = Some data
    /\ Py.lower (suffix file_path) ∈ SUPPORTED_EXTENSIONS
    /\ uri = gcs_uri_of bucket_name (blob_name_of data (name file_path))
    /\ is_Some (blobs w' !! (bucket_name, blob_name_of data (name file_path))).

Lemma upload_files_loop_stores (bucket_name : string) (paths : list Path) :
  forall gcs_uris w uris w',
    upload_files_loop bucket_name paths gcs_uris w = (Ok uris, w') ->
    Forall (fun file_path =>
              forall data, files w !! to_str file_path = Some data ->
                           is_Some (blobs w' !! (bucket_name,
                                                 blob_name_of data (name file_path))))
           paths.
Proof.
  induction paths as [|file_path rest IH]; intros gcs_uris w uris w' Hrun; [constructor|].
  rewrite upload_files_loop_cons in Hrun.
  destruct (files w !! to_str file_path) as [data|] eqn:Hfile; [|discriminate].
  destruct (bool_decide (Py.lower (suffix file_path) ∈ SUPPORTED_EXTENSIONS)); [|discriminate].
  cbv zeta in Hrun. set (blob := blob_name_of data (name file_path)) in *.
  assert (Hrest : forall us w0,
            files w0 = files w ->
            is_Some (blobs w0 !! (bucket_name, blob)) ->
            upload_files_loop bucket_name rest us w0 = (Ok uris, w') ->
            Forall (fun file_path =>
                      forall data, files w !! to_str file_path = Some data ->
                                   is_Some (blobs w' !! (bucket_name,
                                                         blob_name_of data (name file_path))))
                   (file_path :: rest)).
  { intros us w0 Hfiles Hin Hloop. constructor.
    - intros d Hd. assert (d = data) as -> by congruence.
      apply upload_files_loop_keeps_blobs in Hloop as [Hsub _].
      destruct Hin as [x Hx]. exists x. eapply lookup_weaken; eassumption.
    - apply IH in Hloop. now rewrite Hfiles in Hloop. }
  destruct (faults w) as [|[msg|] fs] eqn:Hf; [|discriminate|].
  all: destruct (bool_decide (is_Some (blobs w !! (bucket_name, blob)))) eqn:Hpresent.
  all: try (apply bool_decide_eq_true in Hpresent;
            eapply Hrest; [| |exact Hrun]; [reflexivity | exact Hpresent]).
  all: cbn [faults sent tail] in Hrun; rewrite Hf in Hrun; cbn [tail] in Hrun.
  - eapply Hrest; [| |exact Hrun]; [reflexivity|].
    cbn [blobs with_blobs]. rewrite lookup_insert_eq. eauto.
  - destruct fs as [|[msg|] fs]; [|discriminate|].
    all: eapply Hrest; [| |exact Hrun]; [reflexivity|].
    all: cbn [blobs with_blobs]; rewrite lookup_insert_eq; eauto.
Qed.

Lemma upload_files_to_gcs_stored (settings : Settings) (bucket_name : string)
    (paths : list Path) (w : World) (uris : list string) (w' : World) :
  upload_files_to_gcs paths settings bucket_name w = (Ok uris, w') ->
  Forall2 (stored bucket_name w w') paths uris.
Proof.
  intros Hrun.
  pose proof (upload_files_to_gcs_run _ _ _ _ _ _ Hrun) as (_ & _ & _ & _ & _ & _ & Huris).
  destruct (Huris uris eq_refl) as (us & -> & Hall). simpl.
  rewrite upload_files_to_gcs_unfold in Hrun.
  destruct (upload_files_loop bucket_name paths [] w) as [[uris0|e] w0] eqn:Hloop;
    [|discriminate].
  injection Hrun as _ ->. apply upload_files_loop_stores in Hloop.
  clear Huris. induction Hall as [|p u ps us' (data & Hfile & Hext & Hu) _ IH]; [constructor|].
  inversion Hloop as [|? ? Hp Hps]; subst. constructor; [|now apply IH].
  exists data. split; [assumption|]. split; [now apply bool_decide_eq_true in Hext|].
  split; [reflexivity | now apply Hp].
Qed.

(** X11.  When staging returns, it returns one URI per file, in the order
    of the files; each file exists and has a supported suffix, its URI is
    [gs://bucket/lesson-materials/<sha256 of the content>/<file name>], and
    the blob of that name is in the bucket. *)
Theorem staged_blobs_are_stored (settings : Settings) (bucket_name : string)
    (paths : list Path) (w : World) (uris : list string) (w' : World) :
  upload_files_to_gcs paths settings bucket_name w = (Ok uris, w') ->
  List.length uris = List.length paths
  /\ forall i file_path,
       paths !! i = Some file_path ->
       exists data,
         files w !! to_str file_path = Some data
         /\ Py.lower (suffix file_path) ∈ SUPPORTED_EXTENSIONS
         /\ uris !! i
            = Some ("gs://" +:+ bucket_name +:+ "/lesson-materials/"
                    +:+ SHA256.hexdigest_of data +:+ "/" +:+ name file_path)
         /\ is_Some (blobs w' !! (bucket_name,
                                  "lesson-materials/" +:+ SHA256.hexdigest_of data
                                  +:+ "/" +:+ name file_path)).
Proof.
  intros Hrun. apply upload_files_to_gcs_stored in Hrun. split.
  - symmetry. eapply Forall2_length, Hrun.
  - intros i file_path Hi.
    destruct (Forall2_lookup_l _ _ _ _ _ Hrun Hi) as (u & Hu & data & Hf & Hext & -> & Hin).
    exists data. repeat (split; [assumption|]). exact Hin.
Qed.

Lemma staged_blobs_are_stored_witness :
  List.length [gcs_uri_of default_bucket_name (blob_name_of content_A "slides.pdf")]
  = List.length [mkPath "week1" "slides.pdf"]
  /\ forall i file_path,
       [mkPath "week1" "slides.pdf"] !! i = Some file_path ->
       exists data,
         files sample_world !! to_str file_path = Some data
         /\ Py.lower (suffix file_path) ∈ SUPPORTED_EXTENSIONS
         /\ [gcs_uri_of default_bucket_name (blob_name_of content_A "slides.pdf")] !! i
            = Some ("gs://" +:+ default_bucket_name +:+ "/lesson-materials/"
                    +:+ SHA256.hexdigest_of data +:+ "/" +:+ name file_path)
         /\ is_Some (blobs world_after_week1
                     !! (default_bucket_name,
                         "lesson-materials/" +:+ SHA256.hexdigest_of data
                         +:+ "/" +:+ name file_path)).
Proof.
  apply (staged_blobs_are_stored sample_settings).
  apply run_eta. vm_compute. reflexivity.
Defined.

(** *** Staging again *)

(** The file is there, supported, and its blob already in the bucket. *)
Definition in_place (bucket_name : string) (w : World) (file_path : Path) : Prop :=
  exists data,
    files w !! to_str file_path = Some data
    /\ Py.lower (suffix file_path) ∈ SUPPORTED_EXTENSIONS
    /\ is_Some (blobs w !! (bucket_name, blob_name_of data (name file_path))).

Lemma upload_files_loop_in_place (bucket_name : string) (paths : list Path) :
  forall gcs_uris w r w',
    Forall (in_place bucket_name w) paths ->
    upload_files_loop bucket_name paths gcs_uris w = (r, w') ->
    blobs w' = blobs w
    /\ (exists checks,
          calls w' = calls w ++ checks
          /\ count_calls is_upload checks = 0%nat
          /\ (List.length checks <= List.length paths)%nat)
    /\ (network_up w -> exists uris, r = Ok uris).
Proof.
  induction paths as [|file_path rest IH]; intros gcs_uris w r w' Hall Hrun.
  { injection Hrun as <- <-. split; [reflexivity|]. split; [|eauto].
    exists []. rewrite app_nil_r. auto. }
  inversion Hall as [|? ? (data & Hfile & Hext & Hin) Hrest]; subst.
  rewrite upload_files_loop_cons, Hfile in Hrun.
  rewrite bool_decide_eq_true_2 in Hrun by assumption. cbv zeta in Hrun.
  rewrite (bool_decide_eq_true_2 _ Hin) in Hrun.
  assert (Hnext : upload_files_loop bucket_name rest
                    (gcs_uris ++ [gcs_uri_of bucket_name (blob_name_of data (name file_path))])
                    (sent (BlobExists bucket_name (blob_name_of data (name file_path))) w)
                  = (r, w') ->
                  blobs w' = blobs w
                  /\ (exists checks,
                        calls w' = calls w ++ checks
                        /\ count_calls is_upload checks = 0%nat
                        /\ (List.length checks <= List.length (file_path :: rest))%nat)
                  /\ (network_up w -> exists uris, r = Ok uris)).
  { intros Hloop. apply IH in Hloop as (Hblobs & (checks & Hcalls & Hnone & Hlen) & Hup);
      [|exact Hrest].
    split; [exact Hblobs|]. split.
    - exists (BlobExists bucket_name (blob_name_of data (name file_path)) :: checks).
      split; [rewrite Hcalls; cbn [calls sent]; now rewrite <- app_assoc|].
      split; [exact Hnone | simpl; lia].
    - intros Hnet. apply Hup. now apply network_up_tail. }
  destruct (faults w) as [|[msg|] fs] eqn:Hf; [now apply Hnext| |now apply Hnext].
  injection Hrun as <- <-. split; [reflexivity|]. split.
  - exists [BlobExists bucket_name (blob_name_of data (name file_path))].
    split; [reflexivity|]. split; [reflexivity | simpl; lia].
  - unfold network_up. rewrite Hf. intros Hnet. inversion Hnet; discriminate.
Qed.

(** X12.  Staging the same files again is harmless: the second call sends
    existence checks only, at most one per file and no upload, leaves the
    bucket as it is, and if it returns it returns the same URIs; it does
    return when the network fails none of its requests. *)
Theorem restaging_sends_no_upload (settings : Settings) (bucket_name : string)
    (paths : list Path) (w w1 w2 : World) (uris : list string) (r : Result (list string)) :
  upload_files_to_gcs paths settings bucket_name w = (Ok uris, w1) ->
  upload_files_to_gcs paths settings bucket_name w1 = (r, w2) ->
  blobs w2 = blobs w1
  /\ (exists checks,
        calls w2 = calls w1 ++ checks
        /\ count_calls is_upload checks = 0%nat
        /\ (List.length checks <= List.length paths)%nat)
  /\ (forall uris2, r = Ok uris2 -> uris2 = uris)
  /\ (network_up w1 -> r = Ok uris).
Proof.
  intros Hrun1 Hrun2.
  pose proof (upload_files_to_gcs_run _ _ _ _ _ _ Hrun1) as (_ & _ & Hfiles & _).
  assert (Hplace : Forall (in_place bucket_name w1) paths).
  { apply upload_files_to_gcs_stored in Hrun1. clear Hrun2.
    induction Hrun1 as [|p u ps us (data & Hfile & Hext & _ & Hin) _ IH]; constructor; trivial.
    exists data. now rewrite Hfiles. }
  assert (Hsame : forall uris2, r = Ok uris2 -> uris2 = uris).
  { intros uris2 ->.
    pose proof (upload_files_to_gcs_run _ _ _ _ _ _ Hrun1) as (_ & _ & _ & _ & _ & _ & Hu1).
    pose proof (upload_files_to_gcs_run _ _ _ _ _ _ Hrun2) as (_ & _ & _ & _ & _ & _ & Hu2).
    destruct (Hu1 uris eq_refl) as (us1 & -> & Hall1).
    destruct (Hu2 uris2 eq_refl) as (us2 & -> & Hall2). simpl. clear -Hall1 Hall2 Hfiles.
    revert us2 Hall2. induction Hall1 as [|p u ps us (d & Hd & _ & ->) _ IH]; intros us2 Hall2.
    - now inversion Hall2.
    - inversion Hall2 as [|? u2 ? us2' (d2 & Hd2 & _ & ->) Hrest]; subst.
      rewrite Hfiles in Hd2. f_equal; [congruence | now apply IH]. }
  rewrite upload_files_to_gcs_unfold in Hrun2.
  destruct (upload_files_loop bucket_name paths [] w1) as [r0 w0] eqn:Hloop.
  apply (upload_files_loop_in_place _ _ _ _ _ _ Hplace) in Hloop as (Hblobs & Hchecks & Hup).
  assert (w0 = w2) as -> by (destruct r0; congruence).
  split; [assumption|]. split; [assumption|]. split; [assumption|].
  intros Hnet. destruct (Hup Hnet) as [uris0 ->]. injection Hrun2 as <-.
  f_equal. now apply Hsame.
Qed.

Lemma restaging_sends_no_upload_witness :
  blobs (snd (upload_files_to_gcs [mkPath "week1" "slides.pdf"] sample_settings
                                  default_bucket_name world_after_week1))
  = blobs world_after_week1
  /\ (exists checks,
        calls (snd (upload_files_to_gcs [mkPath "week1" "slides.pdf"] sample_settings
                                        default_bucket_name world_after_week1))
        = calls world_after_week1 ++ checks
        /\ count_calls is_upload checks = 0%nat
        /\ (List.length checks <= List.length [mkPath "week1" "slides.pdf"])%nat)
  /\ (forall uris2,
        fst (upload_files_to_gcs [mkPath "week1" "slides.pdf"] sample_settings
                                 default_bucket_name world_after_week1) = Ok uris2 ->
        uris2 = [gcs_uri_of default_bucket_name (blob_name_of content_A "slides.pdf")])
  /\ (network_up world_after_week1 ->
      fst (upload_files_to_gcs [mkPath "week1" "slides.pdf"] sample_settings
                               default_bucket_name world_after_week1)
      = Ok [gcs_uri_of default_bucket_name (blob_name_of content_A "slides.pdf")]).
Proof.
  apply (restaging_sends_no_upload sample_settings default_bucket_name
           [mkPath "week1" "slides.pdf"] sample_world).
  - apply run_eta. vm_compute. reflexivity.
  - apply surjective_pairing.
Defined.

(** *** Missing files *)

(** X13.  A file that does not exist stops staging with the
    [ContextCacheError] that names its path, whatever its suffix: the files
    before it have been staged, nothing is sent for it, and the files after
    it are not looked at. *)
Theorem missing_file_stops_staging (settings : Settings) (bucket_name : string)
    (before : list Path) (file_path : Path) (rest : list Path) (w : World)
    (uris : list string) (w1 : World) :
  upload_files_to_gcs before settings bucket_name w = (Ok uris, w1) ->
  files w !! to_str file_path = None ->
  upload_files_to_gcs (before ++ file_path :: rest) settings bucket_name w
  = (Raise (mkExn ContextCacheError
              ("GCS upload failed: File not found: " +:+ to_str file_path)), w1).
Proof.
  intros Hbefore Hfile.
  pose proof (upload_files_to_gcs_run _ _ _ _ _ _ Hbefore) as (_ & _ & Hfiles & _).
  rewrite upload_files_to_gcs_unfold in Hbefore |- *.
  rewrite upload_files_loop_app.
  destruct (upload_files_loop bucket_name before [] w) as [[uris0|e] w0]; [|discriminate].
  injection Hbefore as -> ->.
  now rewrite upload_files_loop_cons, Hfiles, Hfile.
Qed.

Lemma missing_file_stops_staging_witness :
  upload_files_to_gcs ([mkPath "" "deck.pptx"] ++ [mkPath "week3" "slides.pdf"])
                      sample_settings default_bucket_name sample_world
  = (Raise (mkExn ContextCacheError
              ("GCS upload failed: File not found: " +:+ to_str (mkPath "week3" "slides.pdf"))),
     snd (upload_files_to_gcs [mkPath "" "deck.pptx"] sample_settings default_bucket_name
                              sample_world)).
Proof.
  eapply missing_file_stops_staging.
  - apply run_eta. vm_compute. reflexivity.
  - vm_compute. reflexivity.
Defined.

(** *** Creating a cache *)

Lemma create_context_cache_cases (files : option (list Path)) (settings : Settings)
    (system_instruction : option string) (ttl : Z) (w : World) (r : Result string)
    (w' : World) :
  create_context_cache files settings system_instruction ttl w = (r, w') ->
  (exists e, r = Raise e /\ caches w' = caches w /\ next_cache_id w' = next_cache_id w)
  \/ (exists first rest uris w1,
        files = Some (first :: rest)
        /\ upload_files_to_gcs (first :: rest) settings default_bucket_name w = (Ok uris, w1)
        /\ r = Ok (cc_name (created_cache settings system_instruction uris ttl first w1))
        /\ w' = with_caches
                  (<[cc_name (created_cache settings system_instruction uris ttl first w1)
                     := created_cache settings system_instruction uris ttl first w1]>
                     (caches w1))
                  (S (next_cache_id w1))
                  (sent (create_request settings system_instruction uris ttl first) w1)).
Proof.
  intros Hrun. destruct files as [[|first rest]|].
  1,3: left; injection Hrun as <- <-; eauto.
  destruct (upload_files_to_gcs (first :: rest) settings default_bucket_name w)
    as [[uris|e] w1] eqn:Hstage.
  2:{ rewrite (create_context_cache_not_staged _ _ _ _ _ _ _ Hstage) in Hrun.
      injection Hrun as <- <-. left.
      apply upload_files_to_gcs_run in Hstage as (_ & _ & _ & (Hc & _ & _ & Hn) & _).
      eauto. }
  rewrite (create_context_cache_staged _ _ _ _ _ _ _ _ Hstage) in Hrun. cbv zeta in Hrun.
  pose proof (upload_files_to_gcs_run _ _ _ _ _ _ Hstage)
    as (_ & _ & _ & (Hc & _ & _ & Hn) & _).
  destruct (faults w1) as [|[msg|] fs].
  2:{ injection Hrun as <- <-. left. eauto. }
  all: injection Hrun as <- <-.
  all: right; exists first, rest, uris, w1.
  all: split; [reflexivity|]; split; [assumption|]; split; reflexivity.
Qed.

(** X14.  When [create_context_cache] returns a name, the list of files was
    not empty and the last request sent is the create request, made as the
    code says: for the model [settings.specialist_model], with the TTL as
    given, named after the stem of the first file only, and with the
    instruction given, or the default one when none or an empty one is
    given.  The name returned is that of the cache the service, which
    stores what it is asked to create, made of that request. *)
Theorem cache_created_as_requested (files : option (list Path)) (settings : Settings)
    (system_instruction : option string) (ttl : Z) (w : World) (cache_name : string)
    (w' : World) :
  create_context_cache files settings system_instruction ttl w = (Ok cache_name, w') ->
  exists first rest contents cache,
    files = Some (first :: rest)
    /\ last (calls w')
       = Some (CachedContentCreate
                 (specialist_model settings)
                 match system_instruction with
                 | None | Some "" => default_instruction
                 | Some text => text
                 end
                 contents ttl ("lesson-materials-" +:+ stem first))
    /\ caches w' !! cache_name = Some cache
    /\ cc_name cache = cache_name
    /\ cc_model_name cache = specialist_model settings
    /\ cc_contents cache = contents
    /\ cc_expire_time cache = now w + ttl
    /\ cc_display_name cache = "lesson-materials-" +:+ stem first
    /\ cc_system_instruction cache
       = match system_instruction with
         | None | Some "" => default_instruction
         | Some text => text
         end.
Proof.
  intros Hrun. apply create_context_cache_cases in Hrun
    as [(e & [=] & _) | (first & rest & uris & w1 & -> & Hstage & [= ->] & ->)].
  apply upload_files_to_gcs_run in Hstage as (_ & _ & _ & (_ & _ & Hnow & _) & _).
  assert (Htext : instruction_text_of system_instruction
                  = match system_instruction with
                    | None | Some "" => default_instruction
                    | Some text => text
                    end).
  { unfold instruction_text_of. destruct system_instruction as [[|c text]|]; reflexivity. }
  exists first, rest, (contents_of uris),
    (created_cache settings system_instruction uris ttl first w1).
  split; [reflexivity|]. split.
  { cbn [calls with_caches sent]. rewrite last_snoc. unfold create_request.
    now rewrite Htext. }
  split; [cbn [caches with_caches]; apply lookup_insert_eq|].
  split; [reflexivity|]. split; [reflexivity|]. split; [reflexivity|].
  split; [cbn; now rewrite Hnow|]. split; [reflexivity|]. exact Htext.
Qed.

(** [week1/slides.pdf] with an empty instruction and a TTL of zero. *)
Lemma cache_created_as_requested_witness :
  exists first rest contents cache,
    Some [mkPath "week1" "slides.pdf"] = Some (first :: rest)
    /\ last (calls (snd (create_context_cache (Some [mkPath "week1" "slides.pdf"])
                                              sample_settings (Some "") 0 sample_world)))
       = Some (CachedContentCreate
                 (specialist_model sample_settings)
                 match Some "" with
                 | None | Some "" => default_instruction
                 | Some text => text
                 end
                 contents 0 ("lesson-materials-" +:+ stem first))
    /\ caches (snd (create_context_cache (Some [mkPath "week1" "slides.pdf"])
                                         sample_settings (Some "") 0 sample_world))
       !! "cachedContents/0" = Some cache
    /\ cc_name cache = "cachedContents/0"
    /\ cc_model_name cache = specialist_model sample_settings
    /\ cc_contents cache = contents
    /\ cc_expire_time cache = now sample_world + 0
    /\ cc_display_name cache = "lesson-materials-" +:+ stem first
    /\ cc_system_instruction cache
       = match Some "" with
         | None | Some "" => default_instruction
         | Some text => text
         end.
Proof.
  apply (cache_created_as_requested (Some [mkPath "week1" "slides.pdf"]) sample_settings
           (Some "") 0 sample_world "cachedContents/0").
  apply run_eta. vm_compute. reflexivity.
Defined.






(** *** Looking a cache up *)

Lemma get_cache_info_unfold (cache_name : string) (settings : Settings) (w : World) :
  get_cache_info cache_name settings w
  = let w1 := sent (CachedContentGet cache_name) w in
    match faults w with
    | Some msg :: _ =>
        (Raise (mkExn ContextCacheError ("Failed to retrieve cache info: " +:+ msg)), w1)
    | _ =>
        match live_cache w cache_name with
        | None =>
            (Raise (mkExn ContextCacheError
                      ("Failed to retrieve cache info: 404 Not found: " +:+ cache_name)), w1)
        | Some c =>
            (Ok (mkCacheInfo (cc_name c) (cc_model_name c) (pretty (cc_expire_time c))
                             (if String.eqb (cc_display_name c) "" then "N/A"
                              else cc_display_name c)), w1)
        end
    end.
Proof.
  unfold get_cache_info, try_except, CachedContent_get.
  unfold bind at 1. unfold bind at 1. unfold remote at 1.
  assert (Hlive : live_cache (sent (CachedContentGet cache_name) w) cache_name
                  = live_cache w cache_name) by reflexivity.
  cbv zeta.
  destruct (faults w) as [|[msg|] fs] eqn:Hf; try reflexivity.
  all: unfold bind at 1; unfold get_world at 1; rewrite Hlive.
  all: destruct (live_cache w cache_name) as [c|]; reflexivity.
Qed.

(** X16.  A cache that was created can be looked up until its TTL has
    passed: [get_cache_info] on the name returned gives back that name, the
    model, the expiry time and the display name made from the first file's
    stem; once [ttl] or more has passed it raises [ContextCacheError] with
    "404 Not found" instead.  Either way the lookup changes nothing
    but the log of requests. *)
Theorem created_cache_can_be_queried (settings : Settings) (first : Path) (rest : list Path)
    (system_instruction : option string) (ttl : Z) (w : World) (cache_name : string)
    (w1 : World) (dt : Z) :
  create_context_cache (Some (first :: rest)) settings system_instruction ttl w
  = (Ok cache_name, w1) ->
  next_request_passes w1 ->
  get_cache_info cache_name settings (advance dt w1)
  = (if dt <? ttl
     then Ok (mkCacheInfo cache_name (specialist_model settings) (pretty (now w + ttl))
                          ("lesson-materials-" +:+ stem first))
     else Raise (mkExn ContextCacheError
                   ("Failed to retrieve cache info: 404 Not found: " +:+ cache_name)),
     sent (CachedContentGet cache_name) (advance dt w1)).
Proof.
  intros Hrun Hnet. apply create_context_cache_cases in Hrun
    as [(e & [=] & _) | (f & rs & uris & w0 & [= <- <-] & Hstage & [= ->] & ->)].
  apply upload_files_to_gcs_run in Hstage as (_ & _ & _ & (_ & _ & Hnow & _) & _).
  rewrite get_cache_info_unfold. cbv zeta.
  set (cache := created_cache settings system_instruction uris ttl first w0) in *.
  assert (Hlive : live_cache
                    (advance dt (with_caches (<[cc_name cache := cache]> (caches w0))
                                             (S (next_cache_id w0))
                                             (sent (create_request settings system_instruction
                                                                   uris ttl first) w0)))
                    (cc_name cache)
                  = if dt <? ttl then Some cache else None).
  { unfold live_cache. cbn [caches with_caches advance now sent].
    rewrite lookup_insert_eq. cbn [cc_expire_time cache created_cache].
    destruct (Z.ltb_spec (now w0 + dt) (now w0 + ttl)), (Z.ltb_spec dt ttl);
      (reflexivity || lia). }
  change ("cachedContents/" +:+ pretty (next_cache_id w0)) with (cc_name cache).
  rewrite Hlive.
  assert (Hf : match faults (advance dt (with_caches (<[cc_name cache := cache]> (caches w0))
                                             (S (next_cache_id w0))
                                             (sent (create_request settings system_instruction
                                                                   uris ttl first) w0))) with
               | Some msg :: _ => False
               | _ => True
               end).
  { unfold next_request_passes in Hnet. cbn [faults advance with_caches] in Hnet |- *.
    destruct (faults (sent _ w0)) as [|[msg|] fs]; trivial. now apply (Hnet msg). }
  destruct (faults _) as [|[msg|] fs]; [|contradiction|].
  all: destruct (dt <? ttl); try reflexivity.
  all: cbn [cc_name cc_model_name cc_expire_time cc_display_name cache created_cache].
  all: now rewrite Hnow.
Qed.

(** Half an hour after the creation, and an hour after it. *)
Lemma created_cache_can_be_queried_witness :
  fst (get_cache_info "cachedContents/0" sample_settings (advance 1800 world_with_cache))
  = Ok (mkCacheInfo "cachedContents/0" "gemini-2.5-pro" "3600" "lesson-materials-slides")
  /\ fst (get_cache_info "cachedContents/0" sample_settings (advance 3600 world_with_cache))
     = Raise (mkExn ContextCacheError
                "Failed to retrieve cache info: 404 Not found: cachedContents/0").
Proof.
  assert (Hrun : create_context_cache (Some (mkPath "week1" "slides.pdf" :: [])) sample_settings
                   None DEFAULT_CACHE_TTL sample_world
                 = (Ok "cachedContents/0", world_with_cache))
    by (apply run_eta; vm_compute; reflexivity).
  assert (Hnet : next_request_passes world_with_cache) by (intros msg; vm_compute; discriminate).
  split.
  - now rewrite (created_cache_can_be_queried _ _ _ _ _ _ _ _ 1800 Hrun Hnet).
  - now rewrite (created_cache_can_be_queried _ _ _ _ _ _ _ _ 3600 Hrun Hnet).
Defined.

End tools_more.

(** ** More on the search-indexing path *)
Module datastore_more.
Import Cloud datastore_upload tools_proofs tools_more.

(** *** MIME types *)

(** X17.  The MIME table and the allow-list of the search-indexing path
    agree: a file gets a MIME type of its own exactly when its lower-cased
    suffix is on the allow-list, and ["application/octet-stream"] exactly
    when it is not; so no file that is indexed is labelled as a byte
    stream. *)
Theorem mime_type_matches_allow_list (file_path : Path) :
  Py.lower (suffix file_path) ∈ SUPPORTED_EXTENSIONS
  <-> _get_mime_type file_path <> "application/octet-stream".
Proof.
  unfold _get_mime_type, SUPPORTED_EXTENSIONS.
  generalize (Py.lower (suffix file_path)) as s. intros s. cbn [find fst snd].
  repeat (match goal with
          | |- context [String.eqb ?a s] =>
              destruct (String.eqb_spec a s) as [<-|?];
              [split; [discriminate | intros _; apply list_elem_of_In; simpl; tauto]|]
          end).
  split; [|congruence]. intros H. apply list_elem_of_In in H. simpl in H. intuition congruence.
Qed.

(** *** One file to Cloud Storage *)

Lemma upload_file_to_gcs_unfold (file_path : Path) (settings : Settings)
    (bucket_name : string) (w : World) :
  upload_file_to_gcs file_path settings bucket_name w
  = let blob_name := "curriculum/" +:+ name file_path in
    let gcs_uri := "gs://" +:+ bucket_name +:+ "/" +:+ blob_name in
    let failed := fun msg =>
      @Raise string (mkExn DatastoreUploadError
                       ("Failed to upload " +:+ name file_path +:+ ": " +:+ msg)) in
    let w1 := sent (BlobExists bucket_name blob_name) w in
    match faults w with
    | Some msg :: _ => (failed msg, w1)
    | _ =>
        if bool_decide (is_Some (blobs w !! (bucket_name, blob_name))) then (Ok gcs_uri, w1)
        else
          match files w !! to_str file_path with
          | None =>
              (failed ("[Errno 2] No such file or directory: '" +:+ to_str file_path +:+ "'"),
               w1)
          | Some data =>
              let w2 := sent (BlobUpload bucket_name blob_name (to_str file_path)) w1 in
              match tail (faults w) with
              | Some msg :: _ => (failed msg, w2)
              | _ => (Ok gcs_uri, with_blobs (<[(bucket_name, blob_name) := data]> (blobs w)) w2)
              end
          end
    end.
Proof.
  unfold upload_file_to_gcs, try_except, blob_exists.
  unfold bind at 1. unfold bind at 1. unfold remote at 1. cbv zeta.
  destruct (faults w) as [|[msg|] fs] eqn:Hf; try reflexivity.
  all: unfold bind at 1; unfold get_world at 1; unfold ret at 1; cbn [blobs sent].
  all: destruct (bool_decide (is_Some (blobs w !! _))); cbn [negb]; try reflexivity.
  all: unfold blob_upload_from_filename, read_bytes, bind, get_world, ret, remote, raise.
  all: cbn [files sent]; destruct (files w !! to_str file_path); try reflexivity.
  all: cbn [faults sent]; rewrite Hf; cbn [tail]; try reflexivity.
  destruct fs as [|[msg|] fs]; reflexivity.
Qed.

(** What a run leaves in place: local files and caches as they were, blobs
    and documents only added. *)
Definition only_adds (w w' : World) : Prop :=
  files w' = files w /\ caches w' = caches w
  /\ blobs w ⊆ blobs w' /\ documents w ⊆ documents w'.

Lemma only_adds_refl (w : World) : only_adds w w.
Proof. repeat split; reflexivity. Qed.

Lemma only_adds_trans (w1 w2 w3 : World) : only_adds w1 w2 -> only_adds w2 w3 -> only_adds w1 w3.
Proof.
  intros (Hf1 & Hc1 & Hb1 & Hd1) (Hf2 & Hc2 & Hb2 & Hd2).
  split; [congruence|]. split; [congruence|]. split; etrans; eassumption.
Qed.

Lemma only_adds_sent (c : Call) (w : World) : only_adds w (sent c w).
Proof. repeat split; reflexivity. Qed.

Lemma upload_file_to_gcs_only_adds (file_path : Path) (settings : Settings)
    (bucket_name : string) (w : World) (r : Result string) (w' : World) :
  upload_file_to_gcs file_path settings bucket_name w = (r, w') -> only_adds w w'.
Proof.
  rewrite upload_file_to_gcs_unfold. cbv zeta.
  assert (Hput : forall data w0,
            ~ is_Some (blobs w !! (bucket_name, "curriculum/" +:+ name file_path)) ->
            files w0 = files w -> caches w0 = caches w -> documents w0 = documents w ->
            only_adds w (with_blobs (<[(bucket_name, "curriculum/" +:+ name file_path)
                                       := data]> (blobs w)) w0)).
  { intros data w0 Habsent Hf Hc Hd. split; [exact Hf|]. split; [exact Hc|]. split.
    - apply insert_subseteq. now apply eq_None_not_Some.
    - cbn [documents with_blobs]. now rewrite Hd. }
  destruct (faults w) as [|[msg|] fs].
  2:{ intros [= <- <-]. apply only_adds_sent. }
  all: destruct (bool_decide (is_Some (blobs w !! _))) eqn:Hpresent;
    [intros [= <- <-]; apply only_adds_sent|].
  all: apply bool_decide_eq_false in Hpresent.
  all: destruct (files w !! to_str file_path); [|intros [= <- <-]; apply only_adds_sent].
  all: cbn [tail].
  - intros [= <- <-]. now apply Hput.
  - destruct fs as [|[msg|] fs]; intros [= <- <-]; try (now apply Hput).
    repeat split; reflexivity.
Qed.

(** X18.  On the search-indexing path a blob is named after the file name
    alone: once a file has been uploaded, a file of the same name (in
    whatever directory, with whatever content) gets the same URI and is not
    uploaded; the bucket keeps the content of the first. *)
Theorem datastore_blob_keyed_by_name (settings : Settings) (bucket_name : string)
    (first second : Path) (w : World) (uri : string) (w1 : World) :
  upload_file_to_gcs first settings bucket_name w = (Ok uri, w1) ->
  name second = name first ->
  next_request_passes w1 ->
  upload_file_to_gcs second settings bucket_name w1
  = (Ok uri, sent (BlobExists bucket_name ("curriculum/" +:+ name first)) w1).
Proof.
  intros Hfirst Hname Hnet.
  assert (Hin : is_Some (blobs w1 !! (bucket_name, "curriculum/" +:+ name first))
                /\ uri = "gs://" +:+ bucket_name +:+ "/" +:+ "curriculum/" +:+ name first).
  { rewrite upload_file_to_gcs_unfold in Hfirst. cbv zeta in Hfirst.
    destruct (faults w) as [|[msg|] fs]; [|discriminate|].
    all: destruct (bool_decide (is_Some (blobs w !! _))) eqn:Hpresent;
      [apply bool_decide_eq_true in Hpresent; injection Hfirst as <- <-; auto|].
    all: destruct (files w !! to_str first); [|discriminate].
    all: cbn [tail] in Hfirst.
    2: destruct fs as [|[msg|] fs]; [|discriminate|].
    all: injection Hfirst as <- <-; split; [|reflexivity].
    all: cbn [blobs with_blobs]; rewrite lookup_insert_eq; eauto. }
  destruct Hin as [Hin ->].
  rewrite upload_file_to_gcs_unfold, Hname. cbv zeta.
  rewrite (bool_decide_eq_true_2 _ Hin).
  unfold next_request_passes in Hnet.
  destruct (faults w1) as [|[msg|] fs]; try reflexivity. now destruct (Hnet msg).
Qed.

(** [week1/slides.pdf], then [week2/slides.pdf]. *)
Lemma datastore_blob_keyed_by_name_witness :
  upload_file_to_gcs (mkPath "week2" "slides.pdf") sample_settings "teacher-assistant-uploads"
    (snd (upload_file_to_gcs (mkPath "week1" "slides.pdf") sample_settings
                             "teacher-assistant-uploads" sample_world))
  = (Ok "gs://teacher-assistant-uploads/curriculum/slides.pdf",
     sent (BlobExists "teacher-assistant-uploads" ("curriculum/" +:+ name (mkPath "week1" "slides.pdf")))
          (snd (upload_file_to_gcs (mkPath "week1" "slides.pdf") sample_settings
                                   "teacher-assistant-uploads" sample_world))).
Proof.
  apply (datastore_blob_keyed_by_name sample_settings "teacher-assistant-uploads"
           (mkPath "week1" "slides.pdf") (mkPath "week2" "slides.pdf") sample_world).
  - apply run_eta. vm_compute. reflexivity.
  - reflexivity.
  - intros msg. vm_compute. discriminate.
Defined.

(** *** Indexing *)

(** The [try] around [client.create_document] for one file. *)
Definition index_document (parent : string) (file_path : Path) (gcs_uri : string)
    (uploaded_docs : gmap string string) : Io (gmap string string) :=
  let doc_id := stem file_path in
  let document := mkDocument doc_id gcs_uri (_get_mime_type file_path)
                             (name file_path) (suffix file_path) in
  try_except
    (let* response_name := create_document parent document doc_id in
     ret (<[name file_path := response_name]> uploaded_docs))
    (fun e =>
       if Py.contains "already exists" (Py.lower (str e))
       then ret (<[name file_path := doc_id]> uploaded_docs)
       else raise e).

(** The file is there and of a supported type. *)
Definition indexable (w : World) (file_path : Path) : Prop :=
  is_Some (files w !! to_str file_path)
  /\ Py.lower (suffix file_path) ∈ SUPPORTED_EXTENSIONS.

Lemma upload_to_datastore_loop_cons (settings : Settings) (parent : string) (file_path : Path)
    (rest : list Path) (uploaded_docs : gmap string string) (w : World) :
  upload_to_datastore_loop settings parent (file_path :: rest) uploaded_docs w
  = if bool_decide (indexable w file_path)
    then
      match upload_file_to_gcs file_path settings "teacher-assistant-uploads" w with
      | (Ok gcs_uri, w1) =>
          match index_document parent file_path gcs_uri uploaded_docs w1 with
          | (Ok uploaded_docs', w2) =>
              upload_to_datastore_loop settings parent rest uploaded_docs' w2
          | (Raise e, w2) => (Raise e, w2)
          end
      | (Raise e, w1) => (Raise e, w1)
      end
    else upload_to_datastore_loop settings parent rest uploaded_docs w.
Proof.
  cbn [upload_to_datastore_loop]. unfold bind at 1.
  change (path_exists file_path w)
    with (Ok (bool_decide (is_Some (files w !! to_str file_path))), w).
  cbv beta iota. unfold indexable.
  destruct (decide (is_Some (files w !! to_str file_path))) as [Hfile|Hfile].
  2:{ rewrite (bool_decide_eq_false_2 _ Hfile). cbn [negb].
      rewrite bool_decide_eq_false_2; [reflexivity | tauto]. }
  rewrite (bool_decide_eq_true_2 _ Hfile). cbn [negb].
  destruct (decide (Py.lower (suffix file_path) ∈ SUPPORTED_EXTENSIONS)) as [Hext|Hext].
  2:{ rewrite (bool_decide_eq_false_2 _ Hext). cbn [negb].
      rewrite bool_decide_eq_false_2; [reflexivity | tauto]. }
  rewrite (bool_decide_eq_true_2 _ Hext). cbn [negb].
  rewrite bool_decide_eq_true_2 by tauto.
  unfold bind at 1.
  destruct (upload_file_to_gcs file_path settings "teacher-assistant-uploads" w)
    as [[gcs_uri|e] w1]; reflexivity.
Qed.

Lemma index_document_run (parent : string) (file_path : Path) (gcs_uri : string)
    (uploaded_docs : gmap string string) (w : World) (r : Result (gmap string string))
    (w' : World) :
  index_document parent file_path gcs_uri uploaded_docs w = (r, w') ->
  only_adds w w'
  /\ forall uploaded_docs',
       r = Ok uploaded_docs' ->
       exists v,
         uploaded_docs' = <[name file_path := v]> uploaded_docs
         /\ (v = stem file_path \/ v = parent +:+ "/documents/" +:+ stem file_path).
Proof.
  unfold index_document, try_except, create_document.
  unfold bind at 1. unfold bind at 1. unfold remote at 1. cbv zeta.
  destruct (faults w) as [|[msg|] fs].
  2:{ cbn [str]. destruct (Py.contains "already exists" (Py.lower msg)); intros [= <- <-].
      - split; [apply only_adds_sent|]. intros ? [= <-]. eauto.
      - split; [apply only_adds_sent | discriminate]. }
  all: unfold bind at 1; unfold get_world at 1; cbn [documents sent].
  all: destruct (documents w !! (parent, stem file_path)) eqn:Hdoc.
  all: try (unfold raise at 1; cbn [str];
            destruct (Py.contains "already exists" _); intros [= <- <-];
            [split; [apply only_adds_sent|]; intros ? [= <-]; eauto
            |split; [apply only_adds_sent | discriminate]]).
  all: intros [= <- <-]; split; [|intros ? [= <-]; eauto].
  all: split; [reflexivity|]; split; [reflexivity|]; split; [reflexivity|].
  all: cbn [documents with_documents sent]; now apply insert_subseteq.
Qed.

Lemma upload_to_datastore_loop_run (settings : Settings) (parent : string)
    (paths : list Path) :
  forall uploaded_docs w r w',
    upload_to_datastore_loop settings parent paths uploaded_docs w = (r, w') ->
    only_adds w w'
    /\ forall result,
         r = Ok result ->
         (forall key,
            is_Some (result !! key)
            <-> is_Some (uploaded_docs !! key)
                \/ exists file_path,
                     file_path ∈ paths /\ name file_path = key /\ indexable w file_path)
         /\ (forall key v,
               result !! key = Some v ->
               uploaded_docs !! key = Some v
               \/ exists file_path,
                    file_path ∈ paths /\ name file_path = key
                    /\ (v = stem file_path
                        \/ v = parent +:+ "/documents/" +:+ stem file_path)).
Proof.
  induction paths as [|file_path rest IH]; intros uploaded_docs w r w' Hrun.
  { injection Hrun as <- <-. split; [apply only_adds_refl|]. intros result [= <-]. split.
    - intros key. split; [auto|]. intros [H|(p & Hp & _)]; [assumption|].
      now apply elem_of_nil in Hp.
    - auto. }
  rewrite upload_to_datastore_loop_cons in Hrun.
  destruct (bool_decide (indexable w file_path)) eqn:Hidx.
  2:{ apply bool_decide_eq_false in Hidx. apply IH in Hrun as [Hadds Hres].
      split; [assumption|]. intros result Hr. destruct (Hres result Hr) as [Hdom Hval]. split.
      - intros key. rewrite Hdom. split; (intros [H|(p & Hp & Hn & Hi)]; [now left|right]).
        + exists p. split; [now apply elem_of_cons; right | auto].
        + apply elem_of_cons in Hp as [->|Hp]; [contradiction|]. eauto.
      - intros key v Hv. destruct (Hval key v Hv) as [H|(p & Hp & Hn & Hs)]; [now left|right].
        exists p. split; [now apply elem_of_cons; right | auto]. }
  apply bool_decide_eq_true in Hidx.
  destruct (upload_file_to_gcs file_path settings "teacher-assistant-uploads" w)
    as [[gcs_uri|e] w1] eqn:Hup.
  2:{ injection Hrun as <- <-. split; [|discriminate].
      eapply upload_file_to_gcs_only_adds; eassumption. }
  apply upload_file_to_gcs_only_adds in Hup.
  destruct (index_document parent file_path gcs_uri uploaded_docs w1) as [[docs1|e] w2] eqn:Hix.
  2:{ injection Hrun as <- <-. split; [|discriminate].
      apply index_document_run in Hix as [Hix _]. eapply only_adds_trans; eassumption. }
  apply index_document_run in Hix as [Hadds1 Hdocs1].
  destruct (Hdocs1 docs1 eq_refl) as (v1 & -> & Hv1).
  apply IH in Hrun as [Hadds2 Hres].
  assert (Hadds : only_adds w w2) by (eapply only_adds_trans; eassumption).
  split; [eapply only_adds_trans; eassumption|].
  intros result Hr. destruct (Hres result Hr) as [Hdom Hval].
  assert (Hfiles : files w2 = files w) by apply Hadds.
  split.
  - intros key. rewrite Hdom. unfold indexable. rewrite Hfiles. split.
    + intros [H|(p & Hp & Hn & Hi)].
      * destruct (decide (name file_path = key)) as [<-|Hne].
        -- right. exists file_path. split; [apply list_elem_of_here | auto].
        -- rewrite lookup_insert_ne in H by assumption. now left.
      * right. exists p. split; [now apply elem_of_cons; right | auto].
    + intros [H|(p & Hp & Hn & Hi)].
      * left. destruct (decide (name file_path = key)) as [<-|Hne].
        -- rewrite lookup_insert_eq. eauto.
        -- now rewrite lookup_insert_ne by assumption.
      * apply elem_of_cons in Hp as [->|Hp].
        -- left. rewrite <- Hn, lookup_insert_eq. eauto.
        -- right. eauto.
  - intros key v Hv. destruct (Hval key v Hv) as [H|(p & Hp & Hn & Hs)].
    + destruct (decide (name file_path = key)) as [<-|Hne].
      * rewrite lookup_insert_eq in H. injection H as <-. right.
        exists file_path. split; [apply list_elem_of_here | auto].
      * rewrite lookup_insert_ne in H by assumption. now left.
    + right. exists p. split; [now apply elem_of_cons; right | auto].
Qed.

Lemma append_assoc (a b c : string) : (a +:+ b) +:+ c = a +:+ (b +:+ c).
Proof.
  induction a as [|x a IH]; [reflexivity|].
  change (String x ((a +:+ b) +:+ c) = String x (a +:+ (b +:+ c))). now rewrite IH.
Qed.

Lemma upload_to_datastore_unfold (paths : list Path) (settings : Settings) (w : World) :
  upload_to_datastore paths settings w
  = match vertex_ai_search_datastore_id settings with
    | None =>
        (Raise (mkExn DatastoreUploadError
                  "Upload failed: 'NoneType' object has no attribute 'split'"), w)
    | Some id =>
        match upload_to_datastore_loop settings (id +:+ "/branches/default_branch") paths ∅ w
        with
        | (Ok result, w') => (Ok result, w')
        | (Raise e, w') => (Raise (mkExn DatastoreUploadError ("Upload failed: " +:+ str e)), w')
        end
    end.
Proof.
  unfold upload_to_datastore, try_except. unfold bind at 1.
  destruct (vertex_ai_search_datastore_id settings); reflexivity.
Qed.

(** X19.  What [upload_to_datastore] returns has an entry for exactly the
    names of the files that exist and have a supported suffix; files that
    are missing or unsupported are left out without an error.  An entry
    holds the resource name of the document made from a file of that name,
    or the bare document id (the stem) when the service reported that the
    document already exists. *)
Theorem indexing_result (paths : list Path) (settings : Settings) (w : World)
    (result : gmap string string) (w' : World) :
  upload_to_datastore paths settings w = (Ok result, w') ->
  (forall key,
     is_Some (result !! key)
     <-> exists file_path,
           file_path ∈ paths /\ name file_path = key
           /\ is_Some (files w !! to_str file_path)
           /\ Py.lower (suffix file_path) ∈ SUPPORTED_EXTENSIONS)
  /\ (forall key v,
        result !! key = Some v ->
        exists file_path datastore_id,
          file_path ∈ paths /\ name file_path = key
          /\ vertex_ai_search_datastore_id settings = Some datastore_id
          /\ (v = stem file_path
              \/ v = datastore_id +:+ "/branches/default_branch/documents/"
                     +:+ stem file_path)).
Proof.
  rewrite upload_to_datastore_unfold.
  destruct (vertex_ai_search_datastore_id settings) as [id|]; [|discriminate].
  destruct (upload_to_datastore_loop settings _ paths ∅ w) as [[docs|e] w0] eqn:Hloop;
    [|discriminate].
  intros [= <- <-]. apply upload_to_datastore_loop_run in Hloop as [_ Hres].
  destruct (Hres docs eq_refl) as [Hdom Hval]. split.
  - intros key. rewrite Hdom. split.
    + intros [H|H]; [|exact H]. rewrite lookup_empty in H. now destruct H.
    + intros H. right. exact H.
  - intros key v Hv. destruct (Hval key v Hv) as [H|(p & Hp & Hn & Hs)].
    + now rewrite lookup_empty in H.
    + exists p, id. repeat (split; [assumption || reflexivity|]).
      destruct Hs as [->| ->]; [now left | right].
      now rewrite append_assoc.
Qed.

(** X20.  [upload_to_datastore] only adds: whether it returns or raises,
    the local files and the caches are as before, and every blob and every
    document that was stored is still stored as it was.  What it raises is
    always a [DatastoreUploadError] whose text starts with "Upload failed: ";
    with no datastore id configured it raises before sending anything. *)
Theorem indexing_only_adds (paths : list Path) (settings : Settings) (w : World)
    (r : Result (gmap string string)) (w' : World) :
  upload_to_datastore paths settings w = (r, w') ->
  files w' = files w /\ caches w' = caches w
  /\ (forall k data, blobs w !! k = Some data -> blobs w' !! k = Some data)
  /\ (forall k document, documents w !! k = Some document -> documents w' !! k = Some document)
  /\ (forall e, r = Raise e ->
        exn_class e = DatastoreUploadError /\ exists msg, str e = "Upload failed: " +:+ msg)
  /\ (vertex_ai_search_datastore_id settings = None ->
      w' = w /\ exists e, r = Raise e).
Proof.
  rewrite upload_to_datastore_unfold.
  destruct (vertex_ai_search_datastore_id settings) as [id|].
  2:{ intros [= <- <-]. split; [reflexivity|]. split; [reflexivity|].
      split; [trivial|]. split; [trivial|]. split.
      - intros e [= <-]. split; [reflexivity | eexists; reflexivity].
      - intros _. eauto. }
  destruct (upload_to_datastore_loop settings _ paths ∅ w) as [r0 w0] eqn:Hloop.
  apply upload_to_datastore_loop_run in Hloop as [(Hf & Hc & Hb & Hd) _].
  intros Hrun. assert (w0 = w') as -> by (destruct r0; congruence).
  split; [assumption|]. split; [assumption|].
  split; [intros k data Hk; eapply lookup_weaken; eassumption|].
  split; [intros k document Hk; eapply lookup_weaken; eassumption|].
  split; [|discriminate].
  intros e ->. destruct r0 as [docs|e0]; [discriminate|]. injection Hrun as <-.
  split; [reflexivity | eexists; reflexivity].
Qed.

(** The slide deck, a program and a file that is not there. *)
Definition sample_batch : list Path :=
  [mkPath "" "deck.pptx"; mkPath "" "setup.exe"; mkPath "week3" "slides.pdf"].

Definition sample_batch_result : gmap string string :=
  {[ "deck.pptx" :=
       "projects/edu/locations/global/collections/default_collection/dataStores/curriculum"
       +:+ "/branches/default_branch/documents/deck" ]}.

Lemma sample_batch_run :
  upload_to_datastore sample_batch sample_settings sample_world
  = (Ok sample_batch_result, snd (upload_to_datastore sample_batch sample_settings sample_world)).
Proof. apply run_eta. vm_compute. reflexivity. Qed.

Lemma indexing_result_witness :
  (forall key,
     is_Some (sample_batch_result !! key)
     <-> exists file_path,
           file_path ∈ sample_batch /\ name file_path = key
           /\ is_Some (files sample_world !! to_str file_path)
           /\ Py.lower (suffix file_path) ∈ SUPPORTED_EXTENSIONS)
  /\ (forall key v,
        sample_batch_result !! key = Some v ->
        exists file_path datastore_id,
          file_path ∈ sample_batch /\ name file_path = key
          /\ vertex_ai_search_datastore_id sample_settings = Some datastore_id
          /\ (v = stem file_path
              \/ v = datastore_id +:+ "/branches/default_branch/documents/"
                     +:+ stem file_path)).
Proof.
  apply (indexing_result sample_batch sample_settings sample_world sample_batch_result
           (snd (upload_to_datastore sample_batch sample_settings sample_world))).
  apply run_eta. vm_compute. reflexivity.
Defined.

Lemma indexing_only_adds_witness :
  files (snd (upload_to_datastore sample_batch sample_settings sample_world))
  = files sample_world
  /\ caches (snd (upload_to_datastore sample_batch sample_settings sample_world))
     = caches sample_world
  /\ (forall k data,
        blobs sample_world !! k = Some data ->
        blobs (snd (upload_to_datastore sample_batch sample_settings sample_world)) !! k
        = Some data)
  /\ (forall k document,
        documents sample_world !! k = Some document ->
        documents (snd (upload_to_datastore sample_batch sample_settings sample_world)) !! k
        = Some document)
  /\ (forall e, fst (upload_to_datastore sample_batch sample_settings sample_world) = Raise e ->
        exn_class e = DatastoreUploadError /\ exists msg, str e = "Upload failed: " +:+ msg)
  /\ (vertex_ai_search_datastore_id sample_settings = None ->
      snd (upload_to_datastore sample_batch sample_settings sample_world) = sample_world
      /\ exists e, fst (upload_to_datastore sample_batch sample_settings sample_world) = Raise e).
Proof.
  apply (indexing_only_adds sample_batch sample_settings sample_world).
  apply surjective_pairing.
Defined.

End datastore_more.

(** ** Resource search *)
Module search_proofs.
Import Py pydantic lesson_plan search_tool.

(** X21.  The resource type given to [create_resource_search_query] is
    read without regard to case, and anything that is not the name of a
    resource type is taken as "video": the query is then the one for
    videos, and no error is raised. *)
Theorem resource_type_fallback (topic grade resource_type : string) :
  (forall rt,
     Py.lower resource_type = ResourceType_value rt ->
     create_resource_search_query topic grade resource_type
     = build_search_query topic grade rt)
  /\ ((forall rt, Py.lower resource_type <> ResourceType_value rt) ->
      create_resource_search_query topic grade resource_type
      = create_resource_search_query topic grade "video"
      /\ create_resource_search_query topic grade resource_type
         = topic +:+ " " +:+ grade +:+ " educational video tutorial").
Proof.
  unfold create_resource_search_query, ResourceType_of_value. split.
  - intros rt ->. now destruct rt.
  - intros Hnone.
    assert (Hfind : find (fun rt => String.eqb (ResourceType_value rt) (Py.lower resource_type))
                         ResourceType_members = None).
    { unfold ResourceType_members. cbn [find].
      repeat (match goal with
              | |- context [String.eqb (ResourceType_value ?rt) _] =>
                  destruct (String.eqb_spec (ResourceType_value rt) (Py.lower resource_type))
                    as [Heq|_]; [now destruct (Hnone rt)|]
              end).
      reflexivity. }
    rewrite Hfind. split; reflexivity.
Qed.

Lemma len_slice_to (n : nat) (s : string) : (Py.len (Py.slice_to n s) <= n)%nat.
Proof.
  revert n. induction s as [|c s IH]; intros n; simpl; [lia|].
  destruct (Py.is_continuation c) eqn:Hc; simpl; rewrite ?Hc.
  - apply IH.
  - destruct n as [|n]; simpl; rewrite ?Hc; [lia|]. specialize (IH n). lia.
Qed.

(** Characters, not bytes, are counted: of "é!é", five bytes in UTF-8, the
    first two characters are "é!". *)
Example slice_counts_characters :
  Py.slice_to 2 (String "195" (String "169" (String "!" (String "195" (String "169" ""))))) 
  = String "195" (String "169" "!")
  /\ Py.len (String "195" (String "169" "!")) = 2%nat.
Proof. split; reflexivity. Qed.

Section parse.
Variable HttpUrl : string -> option string.

(** What holds of every link [parse_search_results] returns. *)
Definition link_as_parsed (resource_type : ResourceType) (link : ResourceLink) : Prop :=
  lesson_plan.resource_type link = resource_type
  /\ recommended_for link = []
  /\ (Py.len (resource_description link) <= 200)%nat
  /\ exists given_url, given_url <> "" /\ HttpUrl given_url = Some (url link).

(** X22.  [parse_search_results] looks at the first five results only and
    returns at most one link for each: never more than five links, each of
    the type asked for, recommended for no lecture yet, with a description
    of at most 200 characters, and with the URL that [HttpUrl] stores for a
    string that is not empty. *)
Theorem parsed_links_bounded (results : list (gmap string string))
    (resource_type : ResourceType) :
  (List.length (parse_search_results HttpUrl results resource_type) <= 5)%nat
  /\ (List.length (parse_search_results HttpUrl results resource_type)
      <= List.length results)%nat
  /\ Forall (link_as_parsed resource_type)
            (parse_search_results HttpUrl results resource_type)
  /\ parse_search_results HttpUrl results resource_type
     = parse_search_results HttpUrl (firstn 5 results) resource_type.
Proof.
  unfold parse_search_results.
  set (step := fun (parsed_links : list ResourceLink) (result : gmap string string) => _).
  assert (Hfold : forall l acc,
            Forall (link_as_parsed resource_type) acc ->
            (List.length (fold_left step l acc) <= List.length acc + List.length l)%nat
            /\ Forall (link_as_parsed resource_type) (fold_left step l acc)).
  { induction l as [|result l IH]; intros acc Hacc; simpl.
    - split; [lia | assumption].
    - assert (Hstep : (List.length (step acc result) <= S (List.length acc))%nat
                      /\ Forall (link_as_parsed resource_type) (step acc result)).
      { unfold step.
        destruct (truthy (if truthy (result !! "url") then result !! "url"
                          else result !! "link")) eqn:Hurl; cbn [negb]; [|split; [lia|assumption]].
        destruct (ResourceLink_model_validate HttpUrl _) as [resource|errors] eqn:Hv;
          [|split; [lia|assumption]].
        split; [rewrite length_app; simpl; lia|].
        apply Forall_app. split; [assumption|]. constructor; [|constructor].
        unfold ResourceLink_model_validate in Hv. cbn [url] in Hv.
        destruct (HttpUrl _) as [stored_url|] eqn:Hok; [|discriminate]. injection Hv as <-.
        split; [reflexivity|]. split; [reflexivity|]. split; [apply len_slice_to|].
        cbn [url]. eexists. split; [|exact Hok].
        destruct (if truthy (result !! "url") then result !! "url"
                  else result !! "link") as [[|c u]|]; discriminate. }
      destruct Hstep as [Hlen Hall]. destruct (IH _ Hall) as [Hlen' Hall'].
      split; [lia | assumption]. }
  destruct (Hfold (firstn 5 results) [] (Forall_nil_2 _)) as [Hlen Hall].
  simpl in Hlen. rewrite length_firstn in Hlen.
  split; [lia|]. split; [lia|]. split; [assumption|].
  now rewrite firstn_firstn.
Qed.

End parse.

End search_proofs.
